(** * DeviceNet master stack: addressing, byte codec, packet codec, link layer

    A shallow embedding of the Python sources
    [network/addressing.py], [convert.py], [definitions.py], [errors.py],
    [devicenet/packets.py] and [devicenet/link.py], together with the
    properties the specification states about them.

    Python integers are unbounded, hence [Z]; the shifts and masks of the
    source are [Z.shiftl], [Z.shiftr] and [Z.land].  A Python list of
    integers is a [list Z].  A function that can raise returns a [result];
    the exception classes of [errors.py] and the built-in exceptions the
    code can run into are the constructors of [exn]. *)

From Stdlib Require Import String Ascii ZArith List Lia Bool.
Import ListNotations.
Local Open Scope Z_scope.

(** ** Exceptions and results *)

Inductive exn : Type :=
| DevNetParsingError
| DevNetPacketError
| DevNetGroupError
| CipServiceError (code : Z)
| CipNoResponseError
| CipFragmentResponseError
| IndexError
| KeyError
| TypeError
| ValueError
| UnicodeEncodeError
| UnicodeDecodeError.

Inductive result (A : Type) : Type :=
| Ok (a : A)
| Raise (e : exn).

Arguments Ok {A} a.
Arguments Raise {A} e.

Definition bind {A B : Type} (r : result A) (k : A -> result B) : result B :=
  match r with
  | Ok a => k a
  | Raise e => Raise e
  end.

Declare Scope result_scope.
Delimit Scope result_scope with result.
Notation "'let*' x ':=' c 'in' k" := (bind c (fun x => k))
  (at level 61, x name, c at next level, right associativity) : result_scope.
Notation "'let*' ' x ':=' c 'in' k" := (bind c (fun x => k))
  (at level 61, x pattern, c at next level, right associativity) : result_scope.
Local Open Scope result_scope.

(** [try: ... except Exception: raise e] *)
Definition except_all {A : Type} (r : result A) (e : exn) : result A :=
  match r with
  | Ok a => Ok a
  | Raise _ => Raise e
  end.

(** [x in range(lo, hi)] *)
Definition in_range (x lo hi : Z) : bool := (lo <=? x) && (x <? hi).

(** ** Python list primitives *)

(** [l[i]] for a non-negative index; [IndexError] past the end. *)
Definition index (l : list Z) (i : nat) : result Z :=
  match nth_error l i with
  | Some x => Ok x
  | None => Raise IndexError
  end.

(** [l[a:b]] for non-negative constant bounds. *)
Definition slice {A : Type} (l : list A) (a b : nat) : list A :=
  firstn (b - a) (skipn a l).

(** ** network/addressing.py *)

Module Addressing.

Definition can_addr (msg_group msg_id mac : Z) : result Z :=
  if negb (in_range msg_group 1 5) then Raise DevNetGroupError
  else if (msg_group =? 1) && negb (in_range msg_id 0 16) then Raise DevNetGroupError
  else if (msg_group =? 2) && negb (in_range msg_id 0 8) then Raise DevNetGroupError
  else if (msg_group =? 3) && negb (in_range msg_id 0 7) then Raise DevNetGroupError
  else if negb (in_range msg_id 0 64) then Raise DevNetGroupError
  else if negb (in_range mac 0 64) then Raise DevNetGroupError
  else if msg_group =? 1 then Ok (Z.shiftl msg_id 6 + mac)
  else if msg_group =? 2 then Ok (0x400 + Z.shiftl mac 3 + msg_id)
  else if msg_group =? 3 then Ok (0x600 + Z.shiftl msg_id 6 + mac)
  else if msg_group =? 4 then Ok (0x7C0 + msg_id)
  else Raise DevNetGroupError.

Definition devnet_addr (can_id : Z) : Z * Z * Z :=
  let group_id :=
    if in_range can_id 0 0x400 then 1
    else if in_range can_id 0x400 0x600 then 2
    else if in_range can_id 0x600 0x7C0 then 3
    else if in_range can_id 0x7C0 0x7F0 then 4
    else 0 in
  if group_id =? 1 then
    (group_id, Z.shiftr (Z.land can_id 0x3C0) 6, Z.land can_id 0x03F)
  else if group_id =? 2 then
    (group_id, Z.land can_id 0x007, Z.shiftr (Z.land can_id 0x1F8) 3)
  else if group_id =? 3 then
    (group_id, Z.shiftr (Z.land can_id 0x1C0) 6, Z.land can_id 0x03F)
  else if group_id =? 4 then
    (group_id, Z.land can_id 0x03F, 0)
  else
    (group_id, 0, 0).

(** The addressing triples the specification calls valid: the group is one
    of 1..4, the message identifier lies in the range declared for the group
    (16, 8, 7 and 48 identifiers), and the MAC is a 6-bit node address. *)
Definition valid_triple (g m a : Z) : bool :=
  in_range a 0 64 &&
  (((g =? 1) && in_range m 0 16) ||
   ((g =? 2) && in_range m 0 8) ||
   ((g =? 3) && in_range m 0 7) ||
   ((g =? 4) && in_range m 0 48)).

End Addressing.

(** ** convert.py *)

Module Convert.








(** [bytearray(stream)] of a list of integers: every item must be a byte. *)
Definition bytearray (stream : list Z) : result (list Z) :=
  if forallb (fun b => in_range b 0 256) stream then Ok stream
  else Raise ValueError.





End Convert.

(** ** definitions.py *)

Module CAN_ID.
Module GROUP1.
Definition START : Z := 0.
Definition END_ : Z := 0x3FF.
Definition MSG_ID_OFFSET : Z := 6.
End GROUP1.
Module GROUP2.
Definition START : Z := 0x400.
Definition END_ : Z := 0x5FF.
Definition MAC_OFFSET : Z := 3.
End GROUP2.
Module GROUP3.
Definition START : Z := 0x600.
Definition END_ : Z := 0x7BF.
Definition MSG_ID_OFFSET : Z := 6.
End GROUP3.
Module GROUP4.
Definition START : Z := 0x7C0.
Definition END_ : Z := 0x7EF.
End GROUP4.
Module INVALID.
Definition START : Z := 0x7F0.
Definition END_ : Z := 0x7FF.
End INVALID.
End CAN_ID.

Module MESSAGE.
Module GROUP1.
Definition ID : Z := 1.
Definition BITSTROBE_RSP : Z := 0x0E.
Definition POLL_RSP : Z := 0x0F.
End GROUP1.
Module GROUP2.
Definition ID : Z := 2.
Definition DUPMAC : Z := 0x07.
Definition UNCONNECTED_REQ : Z := 0x06.
Definition UNCONNECTED_RSP : Z := 0x03.
Definition EXPLICIT_REQ : Z := 0x04.
Definition EXPLICIT_RSP : Z := 0x03.
Definition BITSTROBE_CMD : Z := 0x00.
Definition POLL_CMD : Z := 0x05.
End GROUP2.
Module GROUP3.
Definition ID : Z := 3.
End GROUP3.
Module GROUP4.
Definition ID : Z := 4.
End GROUP4.
End MESSAGE.

Module EXPLICIT.
Definition REQ_GROUP : Z := MESSAGE.GROUP2.ID.
Definition REQ : Z := MESSAGE.GROUP2.EXPLICIT_REQ.
Definition RSP_GROUP : Z := MESSAGE.GROUP2.ID.
Definition RSP : Z := MESSAGE.GROUP2.EXPLICIT_RSP.
End EXPLICIT.

Module UNCONNECTED.
Definition REQ : Z := MESSAGE.GROUP2.UNCONNECTED_REQ.
Definition RSP : Z := MESSAGE.GROUP2.UNCONNECTED_RSP.
End UNCONNECTED.

Module BITSTROBE.
Definition REQ : Z := MESSAGE.GROUP2.BITSTROBE_CMD.
Definition RSP : Z := MESSAGE.GROUP1.BITSTROBE_RSP.
End BITSTROBE.

Module SERVICE.
Definition ERROR : Z := 0x14.
Definition LAST_VALID_CODE : Z := 0x7F.
End SERVICE.

Module PACKET.
Module FRAG_FLAG.
Definition MASK : Z := 0x80.
Definition OFFSET : Z := 7.
End FRAG_FLAG.
Module XID.
Definition MASK : Z := 0x40.
Definition OFFSET : Z := 6.
End XID.
Module MAC.
Definition MASK : Z := 0x3F.
End MAC.
Module SERVICE.
Definition MASK : Z := 0x7F.
End SERVICE.
Module RSP_FLAG.
Definition MASK : Z := 0x80.
Definition OFFSET : Z := 7.
End RSP_FLAG.
End PACKET.

Module FRAGMENT.
Module TYPE.
Definition MASK : Z := 0xC0.
Definition OFFSET : Z := 6.
Definition START : Z := 0x00.
Definition MIDDLE : Z := 0x01.
Definition FINAL : Z := 0x02.
Definition ACK : Z := 0x03.
End TYPE.
Definition ENABLED : Z := 1.
Definition MAX_COUNT : Z := 0x3F.
End FRAGMENT.

Module ERROR.
Definition INVALID_REPLY_RECEIVED : Z := 0x22.

  (** The integer keys of the dictionary [ERROR.TAG]. *)
Definition TAG : list (Z * string) :=
    [ (0x00, "SUCCESS");
      (0x01, "Communication related problem");
      (0x02, "Resource unavailable");
      (0x03, "Invalid parameter value");
      (0x04, "Path segment error");
      (0x05, "Path destination unknown");
      (0x06, "Partial transfer");
      (0x07, "Connection lost");
      (0x08, "Service not supported");
      (0x09, "Invalid attribute value");
      (0x0A, "Attribute list error");
      (0x0B, "Already in requested mode/state");
      (0x0C, "Object state conflict");
      (0x0D, "Object already exists");
      (0x0E, "Attribute not settable");
      (0x0F, "Privilege violation");
      (0x10, "Device state conflict");
      (0x11, "Reply data too large");
      (0x12, "Fragmentation of a primitive value");
      (0x13, "Not enough data");
      (0x14, "Attribute not supported");
      (0x15, "Too much data");
      (0x16, "Object instance does not exist");
      (0x17, "Service fragmentation out of sequence");
      (0x18, "No stored attribute data");
      (0x19, "Store operation failure");
      (0x1A, "Routing failure, request packet too large");
      (0x1B, "Routing failure, response packet too large");
      (0x1C, "Missing attribute list entry data");
      (0x1D, "Invalid attribute value list");
      (0x1E, "Embedded service error");
      (0x1F, "Vendor specific error");
      (0x20, "Invalid parameter");
      (0x21, "Write-once value or medium already written");
      (0x22, "Invalid Reply Received");
      (0x23, "Buffer Overflow");
      (0x24, "Message Format Error");
      (0x25, "Key failure in path");
      (0x26, "Path size invalid");
      (0x27, "Unexpected attribute in list");
      (0x28, "Invalid Member ID");
      (0x29, "Member not settable");
      (0x2A, "Group 2 only server general failure");
      (0x2B, "Unknown Modbus Error");
      (0x2C, "Attribute not gettable");
      (0x2D, "Instance not Deletable");
      (0x2E, "Service not supported for specified path 1") ]%string.
End ERROR.

(** ** errors.py *)

(** [d[k]] on a dictionary with integer keys. *)
Fixpoint dict_get {V : Type} (d : list (Z * V)) (k : Z) : result V :=
  match d with
  | [] => Raise KeyError
  | (k', v) :: d' => if k =? k' then Ok v else dict_get d' k
  end.

(** [raise CipServiceError(error_code)]: the constructor formats its message
    with [ERROR.TAG[error_code]], so that an unknown code ends in a
    [KeyError] instead. *)
Definition raise_CipServiceError {A : Type} (error_code : Z) : result A :=
  let* _ := dict_get ERROR.TAG error_code in
  Raise (CipServiceError error_code).

(** ** devicenet/packets.py: the state of a packet object *)

(** The CAN frame handed to and received from the driver. *)
Module CanFrame.
Record t : Type := mk { can_id : Z; data : list Z }.
End CanFrame.

(** A frame class, the argument [frame_class] of [to_frame]: what the call
    [frame_class(can_id=..., data=...)] does. *)
Definition frame_class : Type := Z -> list Z -> result CanFrame.t.

(** [CanFrameAbc], the default of [frame_class].  Its [__init__] and its
    properties are abstract methods of a class with the metaclass ABCMeta,
    so Python refuses to make an instance: the call raises TypeError. *)
Definition CanFrameAbc : frame_class := fun _ _ => Raise TypeError.

(** The attributes of the packet classes; a class that does not have
    an attribute leaves it at its initial value. *)
Record packet : Type := mkPacket {
  group_id : Z;
  message_id : Z;
  src_mac : Z;
  dst_mac : Z;
  can_header : Z;
  can_data : list Z;
  data : list Z;
  mac_in_can_id : Z;
  mac_in_message : Z;
  message_header : Z;
  message_body : list Z;
  xid : Z;
  frag_flag : Z;
  frag_type : Z;
  frag_count : Z;
  frag_header : Z;
  packet_type : Z;
  service_header : Z;
  service_code : Z;
  class_id : Z;
  instance_id : Z;
  service_data : list Z;
  ack_status : Z
}.

Definition with_group_id (v : Z) (p : packet) : packet :=
  mkPacket v (message_id p) (src_mac p) (dst_mac p) (can_header p)
    (can_data p) (data p) (mac_in_can_id p) (mac_in_message p)
    (message_header p) (message_body p) (xid p) (frag_flag p) (frag_type p)
    (frag_count p) (frag_header p) (packet_type p) (service_header p)
    (service_code p) (class_id p) (instance_id p) (service_data p)
    (ack_status p).

Definition with_message_id (v : Z) (p : packet) : packet :=
  mkPacket (group_id p) v (src_mac p) (dst_mac p) (can_header p) (can_data p)
    (data p) (mac_in_can_id p) (mac_in_message p) (message_header p)
    (message_body p) (xid p) (frag_flag p) (frag_type p) (frag_count p)
    (frag_header p) (packet_type p) (service_header p) (service_code p)
    (class_id p) (instance_id p) (service_data p) (ack_status p).

Definition with_src_mac (v : Z) (p : packet) : packet :=
  mkPacket (group_id p) (message_id p) v (dst_mac p) (can_header p)
    (can_data p) (data p) (mac_in_can_id p) (mac_in_message p)
    (message_header p) (message_body p) (xid p) (frag_flag p) (frag_type p)
    (frag_count p) (frag_header p) (packet_type p) (service_header p)
    (service_code p) (class_id p) (instance_id p) (service_data p)
    (ack_status p).

Definition with_dst_mac (v : Z) (p : packet) : packet :=
  mkPacket (group_id p) (message_id p) (src_mac p) v (can_header p)
    (can_data p) (data p) (mac_in_can_id p) (mac_in_message p)
    (message_header p) (message_body p) (xid p) (frag_flag p) (frag_type p)
    (frag_count p) (frag_header p) (packet_type p) (service_header p)
    (service_code p) (class_id p) (instance_id p) (service_data p)
    (ack_status p).

Definition with_can_header (v : Z) (p : packet) : packet :=
  mkPacket (group_id p) (message_id p) (src_mac p) (dst_mac p) v (can_data p)
    (data p) (mac_in_can_id p) (mac_in_message p) (message_header p)
    (message_body p) (xid p) (frag_flag p) (frag_type p) (frag_count p)
    (frag_header p) (packet_type p) (service_header p) (service_code p)
    (class_id p) (instance_id p) (service_data p) (ack_status p).

Definition with_can_data (v : list Z) (p : packet) : packet :=
  mkPacket (group_id p) (message_id p) (src_mac p) (dst_mac p) (can_header p)
    v (data p) (mac_in_can_id p) (mac_in_message p) (message_header p)
    (message_body p) (xid p) (frag_flag p) (frag_type p) (frag_count p)
    (frag_header p) (packet_type p) (service_header p) (service_code p)
    (class_id p) (instance_id p) (service_data p) (ack_status p).

Definition with_data (v : list Z) (p : packet) : packet :=
  mkPacket (group_id p) (message_id p) (src_mac p) (dst_mac p) (can_header p)
    (can_data p) v (mac_in_can_id p) (mac_in_message p) (message_header p)
    (message_body p) (xid p) (frag_flag p) (frag_type p) (frag_count p)
    (frag_header p) (packet_type p) (service_header p) (service_code p)
    (class_id p) (instance_id p) (service_data p) (ack_status p).

Definition with_mac_in_can_id (v : Z) (p : packet) : packet :=
  mkPacket (group_id p) (message_id p) (src_mac p) (dst_mac p) (can_header p)
    (can_data p) (data p) v (mac_in_message p) (message_header p)
    (message_body p) (xid p) (frag_flag p) (frag_type p) (frag_count p)
    (frag_header p) (packet_type p) (service_header p) (service_code p)
    (class_id p) (instance_id p) (service_data p) (ack_status p).

Definition with_mac_in_message (v : Z) (p : packet) : packet :=
  mkPacket (group_id p) (message_id p) (src_mac p) (dst_mac p) (can_header p)
    (can_data p) (data p) (mac_in_can_id p) v (message_header p)
    (message_body p) (xid p) (frag_flag p) (frag_type p) (frag_count p)
    (frag_header p) (packet_type p) (service_header p) (service_code p)
    (class_id p) (instance_id p) (service_data p) (ack_status p).

Definition with_message_header (v : Z) (p : packet) : packet :=
  mkPacket (group_id p) (message_id p) (src_mac p) (dst_mac p) (can_header p)
    (can_data p) (data p) (mac_in_can_id p) (mac_in_message p) v
    (message_body p) (xid p) (frag_flag p) (frag_type p) (frag_count p)
    (frag_header p) (packet_type p) (service_header p) (service_code p)
    (class_id p) (instance_id p) (service_data p) (ack_status p).

Definition with_message_body (v : list Z) (p : packet) : packet :=
  mkPacket (group_id p) (message_id p) (src_mac p) (dst_mac p) (can_header p)
    (can_data p) (data p) (mac_in_can_id p) (mac_in_message p)
    (message_header p) v (xid p) (frag_flag p) (frag_type p) (frag_count p)
    (frag_header p) (packet_type p) (service_header p) (service_code p)
    (class_id p) (instance_id p) (service_data p) (ack_status p).

Definition with_xid (v : Z) (p : packet) : packet :=
  mkPacket (group_id p) (message_id p) (src_mac p) (dst_mac p) (can_header p)
    (can_data p) (data p) (mac_in_can_id p) (mac_in_message p)
    (message_header p) (message_body p) v (frag_flag p) (frag_type p)
    (frag_count p) (frag_header p) (packet_type p) (service_header p)
    (service_code p) (class_id p) (instance_id p) (service_data p)
    (ack_status p).

Definition with_frag_flag (v : Z) (p : packet) : packet :=
  mkPacket (group_id p) (message_id p) (src_mac p) (dst_mac p) (can_header p)
    (can_data p) (data p) (mac_in_can_id p) (mac_in_message p)
    (message_header p) (message_body p) (xid p) v (frag_type p) (frag_count p)
    (frag_header p) (packet_type p) (service_header p) (service_code p)
    (class_id p) (instance_id p) (service_data p) (ack_status p).

Definition with_frag_type (v : Z) (p : packet) : packet :=
  mkPacket (group_id p) (message_id p) (src_mac p) (dst_mac p) (can_header p)
    (can_data p) (data p) (mac_in_can_id p) (mac_in_message p)
    (message_header p) (message_body p) (xid p) (frag_flag p) v (frag_count p)
    (frag_header p) (packet_type p) (service_header p) (service_code p)
    (class_id p) (instance_id p) (service_data p) (ack_status p).

Definition with_frag_count (v : Z) (p : packet) : packet :=
  mkPacket (group_id p) (message_id p) (src_mac p) (dst_mac p) (can_header p)
    (can_data p) (data p) (mac_in_can_id p) (mac_in_message p)
    (message_header p) (message_body p) (xid p) (frag_flag p) (frag_type p) v
    (frag_header p) (packet_type p) (service_header p) (service_code p)
    (class_id p) (instance_id p) (service_data p) (ack_status p).

Definition with_frag_header (v : Z) (p : packet) : packet :=
  mkPacket (group_id p) (message_id p) (src_mac p) (dst_mac p) (can_header p)
    (can_data p) (data p) (mac_in_can_id p) (mac_in_message p)
    (message_header p) (message_body p) (xid p) (frag_flag p) (frag_type p)
    (frag_count p) v (packet_type p) (service_header p) (service_code p)
    (class_id p) (instance_id p) (service_data p) (ack_status p).

Definition with_packet_type (v : Z) (p : packet) : packet :=
  mkPacket (group_id p) (message_id p) (src_mac p) (dst_mac p) (can_header p)
    (can_data p) (data p) (mac_in_can_id p) (mac_in_message p)
    (message_header p) (message_body p) (xid p) (frag_flag p) (frag_type p)
    (frag_count p) (frag_header p) v (service_header p) (service_code p)
    (class_id p) (instance_id p) (service_data p) (ack_status p).

Definition with_service_header (v : Z) (p : packet) : packet :=
  mkPacket (group_id p) (message_id p) (src_mac p) (dst_mac p) (can_header p)
    (can_data p) (data p) (mac_in_can_id p) (mac_in_message p)
    (message_header p) (message_body p) (xid p) (frag_flag p) (frag_type p)
    (frag_count p) (frag_header p) (packet_type p) v (service_code p)
    (class_id p) (instance_id p) (service_data p) (ack_status p).

Definition with_service_code (v : Z) (p : packet) : packet :=
  mkPacket (group_id p) (message_id p) (src_mac p) (dst_mac p) (can_header p)
    (can_data p) (data p) (mac_in_can_id p) (mac_in_message p)
    (message_header p) (message_body p) (xid p) (frag_flag p) (frag_type p)
    (frag_count p) (frag_header p) (packet_type p) (service_header p) v
    (class_id p) (instance_id p) (service_data p) (ack_status p).

Definition with_class_id (v : Z) (p : packet) : packet :=
  mkPacket (group_id p) (message_id p) (src_mac p) (dst_mac p) (can_header p)
    (can_data p) (data p) (mac_in_can_id p) (mac_in_message p)
    (message_header p) (message_body p) (xid p) (frag_flag p) (frag_type p)
    (frag_count p) (frag_header p) (packet_type p) (service_header p)
    (service_code p) v (instance_id p) (service_data p) (ack_status p).

Definition with_instance_id (v : Z) (p : packet) : packet :=
  mkPacket (group_id p) (message_id p) (src_mac p) (dst_mac p) (can_header p)
    (can_data p) (data p) (mac_in_can_id p) (mac_in_message p)
    (message_header p) (message_body p) (xid p) (frag_flag p) (frag_type p)
    (frag_count p) (frag_header p) (packet_type p) (service_header p)
    (service_code p) (class_id p) v (service_data p) (ack_status p).

Definition with_service_data (v : list Z) (p : packet) : packet :=
  mkPacket (group_id p) (message_id p) (src_mac p) (dst_mac p) (can_header p)
    (can_data p) (data p) (mac_in_can_id p) (mac_in_message p)
    (message_header p) (message_body p) (xid p) (frag_flag p) (frag_type p)
    (frag_count p) (frag_header p) (packet_type p) (service_header p)
    (service_code p) (class_id p) (instance_id p) v (ack_status p).

Definition with_ack_status (v : Z) (p : packet) : packet :=
  mkPacket (group_id p) (message_id p) (src_mac p) (dst_mac p) (can_header p)
    (can_data p) (data p) (mac_in_can_id p) (mac_in_message p)
    (message_header p) (message_body p) (xid p) (frag_flag p) (frag_type p)
    (frag_count p) (frag_header p) (packet_type p) (service_header p)
    (service_code p) (class_id p) (instance_id p) (service_data p) v.

(** ** devicenet/packets.py: DeviceNetPacket *)

(** One positional argument of [set_can_data]: a scalar or an iterable. *)
Inductive item : Type :=
| Scalar (x : Z)
| Iter (l : list Z).

Module DeviceNetPacket.

(** [__init__].  [set_data] is the assignment [self.data = ...] of the class
    of the object: a plain attribute here and in the I/O classes, a property
    in the explicit classes. *)
Definition init (set_data : list Z -> packet -> packet)
    (group_id message_id src_mac dst_mac : Z) (data : list Z) : packet :=
  let p := mkPacket group_id message_id src_mac dst_mac
             0 [] [] 0 0 0 [] 0 0 0 0 0 0 0 0 0 0 [] 0 in
  let p := with_can_header 0 p in
  let p := with_can_data [] p in
  let p := set_data data p in
  let p := with_mac_in_can_id 0 p in
  let p := with_mac_in_message 0 p in
  let p := with_message_header 0 p in
  with_message_body [] p.

Definition length (p : packet) : nat := List.length (can_data p).

(** [message_id in (BITSTROBE.REQ, EXPLICIT.RSP, UNCONNECTED.RSP)] *)
Definition in_source_ids (message_id : Z) : bool :=
  (message_id =? BITSTROBE.REQ) || (message_id =? EXPLICIT.RSP)
  || (message_id =? UNCONNECTED.RSP).

Definition get_group_id (p : packet) : packet :=
  with_group_id (fst (fst (Addressing.devnet_addr (can_header p)))) p.

Definition get_message_id (p : packet) : packet :=
  with_message_id (snd (fst (Addressing.devnet_addr (can_header p)))) p.

(** [self.group_id, self.message_id, self._mac_in_can_id = devnet_addr(...)] *)
Definition unpack_addr (p : packet) : packet :=
  let '(g, m, a) := Addressing.devnet_addr (can_header p) in
  with_mac_in_can_id a (with_message_id m (with_group_id g p)).

Definition get_src_mac (p : packet) : result packet :=
  let p := unpack_addr p in
  if (group_id p =? 1) || (group_id p =? 3) then
    Ok (with_src_mac (mac_in_can_id p) p)
  else if group_id p =? 2 then
    if in_source_ids (message_id p) then Ok (with_src_mac (mac_in_can_id p) p)
    else Ok (with_src_mac (mac_in_message p) p)
  else Raise DevNetPacketError.

Definition get_dst_mac (p : packet) : result packet :=
  let p := unpack_addr p in
  if (group_id p =? 1) || (group_id p =? 3) then
    Ok (with_dst_mac (mac_in_message p) p)
  else if group_id p =? 2 then
    if negb (in_source_ids (message_id p)) then
      Ok (with_dst_mac (mac_in_can_id p) p)
    else Ok (with_src_mac (mac_in_message p) p)
  else Raise DevNetPacketError.

Definition get_message_data (set_data : list Z -> packet -> packet)
    (p : packet) : packet :=
  set_data (can_data p) p.

Definition parse_can_header (frame : CanFrame.t) (p : packet) : packet :=
  let '(g, m, a) := Addressing.devnet_addr (CanFrame.can_id frame) in
  let p := with_mac_in_can_id a (with_message_id m (with_group_id g p)) in
  with_can_header (CanFrame.can_id frame) p.

Definition parse_can_data (frame : CanFrame.t) (p : packet) : packet :=
  with_can_data (CanFrame.data frame) p.

(** [self.can_header = can_addr(self.group_id, self.message_id,
    self._mac_in_can_id)], the tail of the four setters below. *)
Definition update_can_header (p : packet) : result packet :=
  let* h := Addressing.can_addr (group_id p) (message_id p) (mac_in_can_id p) in
  Ok (with_can_header h p).

Definition set_group_id (value : Z) (p : packet) : result packet :=
  update_can_header (with_group_id value p).

Definition set_message_id (value : Z) (p : packet) : result packet :=
  update_can_header (with_message_id value p).

Definition set_src_mac (value : Z) (p : packet) : result packet :=
  let p := with_src_mac value p in
  let p :=
    if (group_id p =? 1) || (group_id p =? 3) then
      with_mac_in_can_id (src_mac p) p
    else if group_id p =? 2 then
      if in_source_ids (message_id p) then with_mac_in_can_id (src_mac p) p
      else p
    else p in
  update_can_header p.

Definition set_dst_mac (value : Z) (p : packet) : result packet :=
  let p := with_dst_mac value p in
  let p :=
    if group_id p =? 2 then
      if negb (in_source_ids (message_id p)) then
        with_mac_in_can_id (dst_mac p) p
      else p
    else p in
  update_can_header p.

Definition set_message_data (set_data : list Z -> packet -> packet)
    (data : list Z) (p : packet) : packet :=
  with_can_data data (set_data data p).

Definition build_can_header (p : packet) : packet :=
  if group_id p =? MESSAGE.GROUP1.ID then
    let p := with_mac_in_can_id (src_mac p) p in
    let p := with_can_header CAN_ID.GROUP1.START p in
    let p := with_can_header
               (can_header p
                + Z.shiftl (message_id p) CAN_ID.GROUP1.MSG_ID_OFFSET) p in
    with_can_header (can_header p + mac_in_can_id p) p
  else if group_id p =? MESSAGE.GROUP2.ID then
    let p :=
      if in_source_ids (message_id p) then with_mac_in_can_id (src_mac p) p
      else with_mac_in_can_id (dst_mac p) p in
    let p := with_can_header CAN_ID.GROUP2.START p in
    let p := with_can_header
               (can_header p
                + Z.shiftl (mac_in_can_id p) CAN_ID.GROUP2.MAC_OFFSET) p in
    with_can_header (can_header p + message_id p) p
  else if group_id p =? MESSAGE.GROUP3.ID then
    let p := with_mac_in_can_id (src_mac p) p in
    let p := with_can_header CAN_ID.GROUP3.START p in
    let p := with_can_header
               (can_header p
                + Z.shiftl (message_id p) CAN_ID.GROUP3.MSG_ID_OFFSET) p in
    with_can_header (can_header p + mac_in_can_id p) p
  else if group_id p =? MESSAGE.GROUP4.ID then
    let p := with_can_header CAN_ID.GROUP4.START p in
    with_can_header (can_header p + message_id p) p
  else p.

Definition set_can_data (args : list item) (p : packet) : packet :=
  let payload :=
    fold_left
      (fun payload it =>
         match it with
         | Scalar x => payload ++ [x]
         | Iter l => payload ++ l
         end) args [] in
  with_can_data payload p.

Definition clear (p : packet) : packet :=
  with_can_data [] (with_can_header 0 p).

Definition parse (set_data : list Z -> packet -> packet)
    (p : packet) : result packet :=
  let p := get_group_id p in
  let p := get_message_id p in
  let* p := get_src_mac p in
  let* p := get_dst_mac p in
  Ok (get_message_data set_data p).

(** [from_frame]; [parse] is the method [self.parse] of the object's class. *)
Definition from_frame (parse : packet -> result packet)
    (frame : CanFrame.t) (p : packet) : result packet :=
  except_all
    (let p := with_can_header (CanFrame.can_id frame) p in
     let p := with_can_data (CanFrame.data frame) p in
     parse p)
    DevNetParsingError.

(** [to_frame]; [build] is the method [self.build] of the object's class,
    [frame_class] the class the caller hands over ([CanFrameAbc] when the
    call names none). *)
Definition to_frame (build : packet -> result packet)
    (frame_class : frame_class) (p : packet) : result CanFrame.t :=
  let* p := build p in
  frame_class (can_header p) (can_data p).

Definition build (set_data : list Z -> packet -> packet)
    (p : packet) : result packet :=
  let p := clear p in
  let* p := set_group_id (group_id p) p in
  let* p := set_message_id (message_id p) p in
  let* p := set_src_mac (src_mac p) p in
  let* p := set_dst_mac (dst_mac p) p in
  Ok (set_message_data set_data (data p) p).

End DeviceNetPacket.

(** ** devicenet/packets.py: the explicit packet classes *)

(** The body of the validating property setters: the value must lie in
    [lo, hi], else [DevNetPacketError]. *)
Definition checked (lo hi value : Z) : result Z :=
  if (lo <=? value) && (value <=? hi) then Ok value
  else Raise DevNetPacketError.

(** [except IndexError: raise e] *)
Definition except_IndexError {A : Type} (r : result A) (e : exn) : result A :=
  match r with
  | Raise IndexError => Raise e
  | _ => r
  end.

Module FragHeaderMixin.

Definition FRAG_TYPE_MASK : Z := 0xC0.
Definition FRAG_TYPE_OFFSET : Z := 6.
Definition FRAG_COUNT_MASK : Z := 0x3F.

Definition init (frag_type frag_count : Z) (p : packet) : packet :=
  with_frag_header 0 (with_frag_count frag_count (with_frag_type frag_type p)).

Definition get_frag_type (p : packet) : packet :=
  with_frag_type
    (Z.shiftr (Z.land (frag_header p) FRAG_TYPE_MASK) FRAG_TYPE_OFFSET) p.

Definition get_frag_count (p : packet) : packet :=
  with_frag_count (Z.land (frag_header p) FRAG_COUNT_MASK) p.

End FragHeaderMixin.

Module ExplicitPacket.

(** The setter of the property [data]. *)
Definition set_data (value : list Z) (p : packet) : packet :=
  with_data value (with_message_body value p).

(** The setter of the property [message_body]. *)
Definition set_message_body (value : list Z) (p : packet) : packet :=
  with_data value (with_message_body value p).

(** The setter of the property [message_header]. *)
Definition set_message_header (value : Z) (p : packet) : result packet :=
  let* v := checked 0 0xFF value in
  Ok (with_message_header v p).

Definition init (group_id message_id src_mac dst_mac : Z) (data : list Z)
    : packet :=
  let p := DeviceNetPacket.init set_data group_id message_id src_mac dst_mac
             data in
  with_frag_flag 0 (with_xid 0 p).

Definition parse_message_header (frame : CanFrame.t) (offset : nat)
    (p : packet) : result packet :=
  except_IndexError
    (let* b := index (CanFrame.data frame) offset in
     let p := with_frag_flag
                (Z.shiftr (Z.land b PACKET.FRAG_FLAG.MASK)
                   PACKET.FRAG_FLAG.OFFSET) p in
     let* b := index (CanFrame.data frame) offset in
     let p := with_xid
                (Z.shiftr (Z.land b PACKET.XID.MASK) PACKET.XID.OFFSET) p in
     let* b := index (CanFrame.data frame) offset in
     Ok (with_mac_in_message (Z.land b PACKET.MAC.MASK) p))
    DevNetParsingError.

Definition parse_message_body (frame : CanFrame.t) (offset : nat)
    (p : packet) : result packet :=
  Ok (set_message_body (slice (CanFrame.data frame) offset 8) p).

Definition generate_message_header (p : packet) : result packet :=
  let* p := set_message_header
              (Z.shiftl (frag_flag p) PACKET.FRAG_FLAG.OFFSET) p in
  let* p := set_message_header
              (message_header p + Z.shiftl (xid p) PACKET.XID.OFFSET) p in
  set_message_header (message_header p + mac_in_message p) p.

Definition generate_message_body (p : packet) : packet :=
  set_message_body (data p) p.

(** [from_frame]; [parse_message_body] is the method of the object's
    class, which ExplicitServicePacket overrides. *)
Definition from_frame
    (parse_message_body : CanFrame.t -> nat -> packet -> result packet)
    (frame : CanFrame.t) (p : packet) : result packet :=
  let* p := DeviceNetPacket.from_frame (DeviceNetPacket.parse set_data)
              frame p in
  let* p := parse_message_header frame 0 p in
  parse_message_body frame 1%nat p.

Definition build (p : packet) : result packet :=
  let p := DeviceNetPacket.build_can_header p in
  let* p := generate_message_header p in
  let p := generate_message_body p in
  Ok (DeviceNetPacket.set_can_data
        [Scalar (message_header p); Iter (message_body p)] p).

End ExplicitPacket.

Module ExplicitFragPacket.

Definition init (group_id message_id src_mac dst_mac frag_count frag_type : Z)
    (data : list Z) : packet :=
  let p := ExplicitPacket.init group_id message_id src_mac dst_mac data in
  let p := FragHeaderMixin.init frag_type frag_count p in
  with_frag_count frag_count (with_frag_type frag_type (with_frag_flag 1 p)).

(** The defaults of the constructor. *)
Definition new : packet :=
  init EXPLICIT.REQ_GROUP EXPLICIT.REQ 0 0 0 FRAGMENT.TYPE.MIDDLE [].

Definition get_frag_header (p : packet) : result packet :=
  except_IndexError
    (let* b := index (can_data p) 1 in
     let p := with_frag_header b p in
     let p := FragHeaderMixin.get_frag_type p in
     Ok (FragHeaderMixin.get_frag_count p))
    DevNetParsingError.

Definition set_frag_header (p : packet) : packet :=
  with_frag_header
    (Z.shiftl (frag_type p) FragHeaderMixin.FRAG_TYPE_OFFSET + frag_count p) p.

Definition from_frame (frame : CanFrame.t) (p : packet) : result packet :=
  let p := DeviceNetPacket.parse_can_header frame p in
  let p := DeviceNetPacket.parse_can_data frame p in
  let* p := ExplicitPacket.parse_message_header frame 0 p in
  let* p := get_frag_header p in
  ExplicitPacket.parse_message_body frame 2 p.

Definition build (p : packet) : result packet :=
  let p := DeviceNetPacket.build_can_header p in
  let* p := ExplicitPacket.generate_message_header p in
  let p := set_frag_header p in
  let p := DeviceNetPacket.set_message_data ExplicitPacket.set_data (data p) p in
  Ok (DeviceNetPacket.set_can_data
        [Scalar (message_header p); Scalar (frag_header p);
         Iter (message_body p)] p).

Definition to_frame (frame_class : frame_class) (p : packet)
    : result CanFrame.t :=
  DeviceNetPacket.to_frame build frame_class p.

End ExplicitFragPacket.

Module ExplicitFragAckPacket.

Definition init (group_id message_id src_mac dst_mac frag_count frag_type
    ack_status : Z) : packet :=
  let p := ExplicitFragPacket.init group_id message_id src_mac dst_mac
             frag_count frag_type [ack_status] in
  with_ack_status ack_status p.

(** The defaults of the constructor. *)
Definition new : packet :=
  init EXPLICIT.REQ_GROUP EXPLICIT.REQ 0 0 0 FRAGMENT.TYPE.ACK 0.

Definition validate (p : packet) : result unit :=
  if negb (frag_type p =? FRAGMENT.TYPE.ACK) then Raise DevNetParsingError
  else if ack_status p =? 0x01 then Raise DevNetParsingError
  else if in_range (ack_status p) 0x02 0x100 then Raise DevNetParsingError
  else Ok tt.

Definition from_frame (frame : CanFrame.t) (p : packet) : result packet :=
  let* p := ExplicitFragPacket.from_frame frame p in
  let* _ := validate p in
  Ok p.

Definition build (p : packet) : result packet := ExplicitFragPacket.build p.

Definition to_frame (frame_class : frame_class) (p : packet)
    : result CanFrame.t :=
  DeviceNetPacket.to_frame build frame_class p.

End ExplicitFragAckPacket.

(** A [for] loop that collects one value per item and stops at the first
    exception. *)
Fixpoint for_each {A B : Type} (f : A -> result B) (l : list A)
    : result (list B) :=
  match l with
  | [] => Ok []
  | x :: l' =>
      let* y := f x in
      let* ys := for_each f l' in
      Ok (y :: ys)
  end.

(** [range(n)] *)
Definition range (n : nat) : list nat := seq 0 n.

(** [int(len(data) / data_length)], one more when a remainder is left. *)
Definition fragments_needed (len data_length : nat) : nat :=
  let frag_count := Nat.div len data_length in
  if negb (Nat.modulo len data_length =? 0)%nat then (frag_count + 1)%nat
  else frag_count.

Module ExplicitServicePacket.

Definition REQUEST : Z := 0.
Definition RESPONSE : Z := 1.

Definition set_rr_flag (value : Z) (p : packet) : result packet :=
  let* v := checked 0 1 value in Ok (with_packet_type v p).

Definition rr_flag (p : packet) : Z := packet_type p.

Definition set_service_code (value : Z) (p : packet) : result packet :=
  let* v := checked 0 0x7F value in Ok (with_service_code v p).

Definition set_class_id (value : Z) (p : packet) : result packet :=
  let* v := checked 0 0xFFFF value in Ok (with_class_id v p).

Definition set_instance_id (value : Z) (p : packet) : result packet :=
  let* v := checked 0 0xFFFF value in Ok (with_instance_id v p).

Definition set_service_header (value : Z) (p : packet) : result packet :=
  let* v := checked 0 0xFF value in Ok (with_service_header v p).

Definition set_service_data (value : list Z) (p : packet) : packet :=
  with_service_data value p.

Definition init (group_id message_id src_mac dst_mac packet_type service_code
    class_id instance_id : Z) (service_data : list Z) : packet :=
  let p := ExplicitPacket.init group_id message_id src_mac dst_mac [] in
  let p := FragHeaderMixin.init FRAGMENT.TYPE.START 0 p in
  let p := with_packet_type packet_type p in
  let p := with_service_header 0 p in
  let p := with_service_code service_code p in
  let p := with_service_data service_data p in
  let p := with_class_id class_id p in
  with_instance_id instance_id p.

(** The defaults of the constructor. *)
Definition new : packet :=
  init EXPLICIT.REQ_GROUP EXPLICIT.REQ 0 0 0 0 0 0 [].

Definition parse_message_body (frame : CanFrame.t) (offset : nat)
    (p : packet) : result packet :=
  except_IndexError
    (let p := ExplicitPacket.set_message_body
                (slice (CanFrame.data frame) offset 8) p in
     let* b := index (message_body p) 0 in
     let* p := set_rr_flag
                 (Z.shiftr (Z.land b PACKET.RSP_FLAG.MASK)
                    PACKET.RSP_FLAG.OFFSET) p in
     let* b := index (message_body p) 0 in
     let* p := set_service_code (Z.land b PACKET.SERVICE.MASK) p in
     if rr_flag p =? REQUEST then
       let p := with_src_mac (mac_in_message p) p in
       let p := with_dst_mac (mac_in_can_id p) p in
       let* c := index (message_body p) 1 in
       let* p := set_class_id c p in
       let* i := index (message_body p) 2 in
       let* p := set_instance_id i p in
       Ok (set_service_data (slice (message_body p) 3 8) p)
     else
       let p := with_src_mac (mac_in_can_id p) p in
       let p := with_dst_mac (mac_in_message p) p in
       Ok (set_service_data (slice (message_body p) 1 8) p))
    DevNetParsingError.

Definition generate_service_header (p : packet) : result packet :=
  let* p := set_service_header
              (Z.shiftl (rr_flag p) PACKET.RSP_FLAG.OFFSET) p in
  set_service_header (service_header p + service_code p) p.

Definition generate_message_body (p : packet) : result packet :=
  let* p := generate_service_header p in
  let body := [service_header p; class_id p; instance_id p]
              ++ service_data p in
  Ok (ExplicitPacket.set_message_body body p).

Definition get_frag_header (p : packet) : result packet :=
  except_IndexError
    (let* b := index (can_data p) 1 in
     let p := with_frag_header b p in
     let p := FragHeaderMixin.get_frag_type p in
     Ok (FragHeaderMixin.get_frag_count p))
    DevNetParsingError.

Definition from_frame (frame : CanFrame.t) (p : packet) : result packet :=
  let* p := ExplicitPacket.from_frame parse_message_body frame p in
  let* p := ExplicitPacket.parse_message_header frame 0 p in
  if negb (frag_flag p =? 0) then
    let* p := get_frag_header p in
    parse_message_body frame 2 p
  else
    parse_message_body frame 1 p.

Definition build (p : packet) : result packet :=
  let* p := ExplicitPacket.generate_message_header p in
  let* p := generate_message_body p in
  let p := DeviceNetPacket.build_can_header p in
  Ok (DeviceNetPacket.set_can_data
        [Scalar (message_header p); Iter (message_body p)] p).

Definition to_frame (frame_class : frame_class) (p : packet)
    : result CanFrame.t :=
  DeviceNetPacket.to_frame build frame_class p.

(** The fragment object the loop of [split] constructs for index [i]. *)
Definition fragment (p : packet) (frag_count i : nat) : result packet :=
  let data_length := 6%nat in
  let first_fragment := 0 in
  let last_fragment := Z.of_nat frag_count - 1 in
  let start := (i * data_length)%nat in
  let end_ := ((i + 1) * data_length)%nat in
  let block := slice (data p) start end_ in
  if Z.of_nat i =? first_fragment then
    ExplicitFragPacket.build
      (ExplicitFragPacket.init (group_id p) (message_id p) (src_mac p)
         (dst_mac p) (Z.of_nat i) FRAGMENT.TYPE.START block)
  else if (first_fragment <? Z.of_nat i) && (Z.of_nat i <? last_fragment) then
    ExplicitFragPacket.build
      (ExplicitFragPacket.init (group_id p) (message_id p) (src_mac p)
         (dst_mac p) (Z.of_nat i) FRAGMENT.TYPE.MIDDLE block)
  else if Z.of_nat i =? last_fragment then
    ExplicitFragPacket.build
      (ExplicitFragPacket.init (group_id p) (message_id p) (src_mac p)
         (dst_mac p) (Z.of_nat i) FRAGMENT.TYPE.FINAL block)
  else Raise DevNetParsingError.

(** [split]; [fragment.to_frame()] and [self.to_frame()] name no frame
    class. *)
Definition split (p : packet) : result (list CanFrame.t) :=
  let data_length := 6%nat in
  if (8 <? DeviceNetPacket.length p)%nat then
    let frag_count := fragments_needed (List.length (data p)) data_length in
    for_each
      (fun i =>
         let* fragment := fragment p frag_count i in
         ExplicitFragPacket.to_frame CanFrameAbc fragment)
      (range frag_count)
  else
    let* frame := to_frame CanFrameAbc p in
    Ok [frame].

End ExplicitServicePacket.

(** ** devicenet/packets.py: the I/O packet classes *)

(** [l[i] = v] *)
Fixpoint setitem (l : list Z) (i : nat) (v : Z) : result (list Z) :=
  match l, i with
  | [], _ => Raise IndexError
  | _ :: l', O => Ok (v :: l')
  | x :: l', S i' => let* r := setitem l' i' v in Ok (x :: r)
  end.

Module IoPacket.

Definition init (group_id message_id src_mac dst_mac : Z) (data : list Z)
    : packet :=
  let p := DeviceNetPacket.init with_data group_id message_id src_mac dst_mac
             data in
  with_data data p.

(** The defaults of the constructor. *)
Definition new : packet := init 0 0 0 0 [].

Definition parse_data (frame : CanFrame.t) (offset : nat) (p : packet)
    : packet :=
  let p := with_can_data (skipn offset (CanFrame.data frame)) p in
  with_data (can_data p) p.

Definition from_frame (frame : CanFrame.t) (p : packet) : packet :=
  let p := DeviceNetPacket.parse_can_header frame p in
  let p := DeviceNetPacket.parse_can_data frame p in
  parse_data frame 0 p.

Definition build (p : packet) : result packet :=
  let p := DeviceNetPacket.build_can_header p in
  Ok (DeviceNetPacket.set_can_data [Iter (data p)] p).

Definition to_frame (frame_class : frame_class) (p : packet)
    : result CanFrame.t :=
  DeviceNetPacket.to_frame build frame_class p.

End IoPacket.

Module IoFragPacket.

Definition init (group_id message_id src_mac dst_mac frag_count frag_type : Z)
    (data : list Z) : packet :=
  let p := IoPacket.init group_id message_id src_mac dst_mac data in
  FragHeaderMixin.init frag_type frag_count p.

(** The defaults of the constructor. *)
Definition new : packet := init 0 0 0 0 0 0 [].

Definition get_frag_header (p : packet) : result packet :=
  except_IndexError
    (let* b := index (can_data p) 0 in
     let p := with_frag_header b p in
     let p := FragHeaderMixin.get_frag_type p in
     Ok (FragHeaderMixin.get_frag_count p))
    DevNetParsingError.

Definition set_frag_type (value : Z) (p : packet) : result packet :=
  let frag_type := Z.shiftl value FragHeaderMixin.FRAG_TYPE_OFFSET in
  let p := with_frag_header
             (frag_type + Z.land (frag_count p) FragHeaderMixin.FRAG_COUNT_MASK)
             p in
  let* d := setitem (can_data p) 0 (frag_header p) in
  Ok (with_can_data d p).

Definition set_frag_count (value : Z) (p : packet) : result packet :=
  let frag_count := Z.land value FragHeaderMixin.FRAG_COUNT_MASK in
  let p := with_frag_header
             (Z.shiftl (frag_type p) FragHeaderMixin.FRAG_TYPE_OFFSET
              + frag_count) p in
  let* d := setitem (can_data p) 0 (frag_header p) in
  Ok (with_can_data d p).

Definition get_app_data (p : packet) : packet :=
  with_data (skipn 1 (can_data p)) p.

Definition set_app_data (value : list Z) (p : packet) : packet :=
  let p := with_data value p in
  with_can_data (can_data p ++ data p) p.

Definition clear (p : packet) : packet :=
  with_can_data [0] (with_can_header 0 p).

Definition build (p : packet) : result packet :=
  let p := clear p in
  let* p := DeviceNetPacket.set_group_id (group_id p) p in
  let* p := DeviceNetPacket.set_message_id (message_id p) p in
  let* p := DeviceNetPacket.set_src_mac (src_mac p) p in
  let* p := DeviceNetPacket.set_dst_mac (dst_mac p) p in
  let* p := set_frag_type (frag_type p) p in
  let* p := set_frag_count (frag_count p) p in
  Ok (set_app_data (data p) p).

Definition parse (p : packet) : result packet :=
  let p := DeviceNetPacket.get_group_id p in
  let p := DeviceNetPacket.get_message_id p in
  let* p := DeviceNetPacket.get_src_mac p in
  let* p := DeviceNetPacket.get_dst_mac p in
  let* p := get_frag_header p in
  Ok (get_app_data p).

Definition from_frame (frame : CanFrame.t) (p : packet) : result packet :=
  let p := with_can_header (CanFrame.can_id frame) p in
  let p := with_can_data (CanFrame.data frame) p in
  parse p.

Definition to_frame (frame_class : frame_class) (p : packet)
    : result CanFrame.t :=
  DeviceNetPacket.to_frame build frame_class p.

End IoFragPacket.

(** [IoPacket.split], which needs the class IoFragPacket. *)
Module IoPacketFragmentation.

(** The fragment object the loop of [split] constructs for index [i]. *)
Definition fragment (p : packet) (frag_count i : nat) : result packet :=
  let data_length := 7%nat in
  let first_fragment := 0 in
  let last_fragment := Z.of_nat frag_count - 1 in
  let start := (i * data_length)%nat in
  let end_ := ((i + 1) * data_length)%nat in
  let block := slice (data p) start end_ in
  if Z.of_nat i =? first_fragment then
    IoFragPacket.build
      (IoFragPacket.init (group_id p) (message_id p) (src_mac p) (dst_mac p)
         (Z.of_nat i) FRAGMENT.TYPE.START block)
  else if (first_fragment <? Z.of_nat i) && (Z.of_nat i <? last_fragment) then
    IoFragPacket.build
      (IoFragPacket.init (group_id p) (message_id p) (src_mac p) (dst_mac p)
         (Z.of_nat i) FRAGMENT.TYPE.MIDDLE block)
  else if Z.of_nat i =? last_fragment then
    IoFragPacket.build
      (IoFragPacket.init (group_id p) (message_id p) (src_mac p) (dst_mac p)
         (Z.of_nat i) FRAGMENT.TYPE.FINAL block)
  else Raise DevNetParsingError.

(** [split]; [fragment.to_frame()] and [self.to_frame()] name no frame
    class. *)
Definition split (p : packet) : result (list CanFrame.t) :=
  let data_length := 7%nat in
  if (8 <? DeviceNetPacket.length p)%nat then
    let frag_count := fragments_needed (List.length (data p)) data_length in
    for_each
      (fun i =>
         let* fragment := fragment p frag_count i in
         IoFragPacket.to_frame CanFrameAbc fragment)
      (range frag_count)
  else
    let* frame := IoPacket.to_frame CanFrameAbc p in
    Ok [frame].

End IoPacketFragmentation.

(** ** devicenet/link.py *)

Module Link.

(** The CAN interface as the link layer sees it: [rx] is what the successive
    calls of [interface.recv] return ([None] for a call that times out, and
    every call times out once the list is used up), [tx] the frames handed
    to [interface.send], oldest first. *)
Record bus : Type := mkBus {
  rx : list (option CanFrame.t);
  tx : list CanFrame.t
}.

Definition recv (b : bus) : option CanFrame.t * bus :=
  match rx b with
  | [] => (None, b)
  | msg_in :: rx' => (msg_in, mkBus rx' (tx b))
  end.

Definition send (frame : CanFrame.t) (b : bus) : bus :=
  mkBus (rx b) (tx b ++ [frame]).

Definition _fragmented (response : packet) : bool :=
  frag_flag response =? FRAGMENT.ENABLED.

Definition _one_fragment (response : packet) : bool :=
  (frag_type response =? FRAGMENT.TYPE.START)
  && (frag_count response =? FRAGMENT.MAX_COUNT).

Definition _start_fragment (response : packet) : bool :=
  (frag_type response =? FRAGMENT.TYPE.START)
  && (frag_count response =? 0x00).

Definition _final_fragment (response : packet) : bool :=
  (frag_type response =? FRAGMENT.TYPE.FINAL)
  || (frag_count response =? FRAGMENT.MAX_COUNT).

Definition _bad_service (service_code : Z) : bool :=
  SERVICE.LAST_VALID_CODE <? service_code.

Definition _error (response : packet) : bool :=
  service_code response =? SERVICE.ERROR.

(** [ack_fragment]; its [acknowledge.to_frame()] names no frame class. *)
Definition ack_fragment (src_addr dst_addr frag_count frag_status
    frag_type : Z) (b : bus) : result bus :=
  let* acknowledge :=
    ExplicitFragAckPacket.build
      (ExplicitFragAckPacket.init EXPLICIT.REQ_GROUP EXPLICIT.REQ
         src_addr dst_addr frag_count frag_type frag_status) in
  let* msg_out := ExplicitFragAckPacket.to_frame CanFrameAbc acknowledge in
  Ok (send msg_out b).

(** One pass through the body of the loop of [read_fragment], from the
    computation of [counter_diff] to the test that leaves the loop: the new
    [stream] and [prev_counter], and the interface after the sends. *)
Definition read_fragment_step (explicit : bool) (src_addr dst_addr : Z)
    (response : packet) (stream : list Z) (prev_counter : Z) (b : bus)
    : result (list Z * Z * bus) :=
  let counter_diff := frag_count response - prev_counter in
  if counter_diff =? 0 then
    if explicit then
      let* b := ack_fragment src_addr dst_addr (frag_count response) 0 3 b in
      Ok (stream, prev_counter, b)
    else
      Ok (stream ++ data response, prev_counter, b)
  else if counter_diff =? 1 then
    let stream := stream ++ data response in
    let* b :=
      if explicit then
        ack_fragment src_addr dst_addr (frag_count response) 0 3 b
      else Ok b in
    Ok (stream, frag_count response, b)
  else
    Ok (stream, prev_counter, b).

Fixpoint read_fragment_loop (explicit : bool) (src_addr dst_addr : Z)
    (rx : list (option CanFrame.t)) (tx : list CanFrame.t)
    (stream : list Z) (prev_counter : Z) : result (list Z * bus) :=
  match rx with
  | [] => Ok (stream, mkBus [] tx)
  | None :: rx' => Ok (stream, mkBus rx' tx)
  | Some msg_in :: rx' =>
      let* response :=
        if explicit then
          ExplicitFragPacket.from_frame msg_in ExplicitFragPacket.new
        else
          IoFragPacket.from_frame msg_in IoFragPacket.new in
      let* '(stream, prev_counter, b) :=
        read_fragment_step explicit src_addr dst_addr response stream
          prev_counter (mkBus rx' tx) in
      if _final_fragment response then Ok (stream, b)
      else
        read_fragment_loop explicit src_addr dst_addr rx' (Link.tx b) stream
          prev_counter
  end.

(** [read_fragment]; the result is [None] when nothing was collected. *)
Definition read_fragment (src_addr dst_addr : Z) (explicit : bool) (b : bus)
    : result (option (list Z) * bus) :=
  let* '(stream, b) :=
    read_fragment_loop explicit src_addr dst_addr (rx b) (tx b) [] 0 in
  Ok (match stream with [] => None | _ => Some stream end, b).

(** The loop of [wait_response]; [expected_code] is its argument
    [service_code]. *)
Fixpoint wait_response_loop (src_addr dst_addr expected_code : Z)
    (rx : list (option CanFrame.t)) (tx : list CanFrame.t)
    : result (list Z * bus) :=
  match rx with
  | [] => Raise CipNoResponseError
  | None :: _ => Raise CipNoResponseError
  | Some msg_in :: rx' =>
      let* response :=
        ExplicitServicePacket.from_frame msg_in ExplicitServicePacket.new in
      if service_code response =? expected_code then
        if negb (_fragmented response) then
          Ok (service_data response, mkBus rx' tx)
        else if _one_fragment response then
          Ok (service_data response, mkBus rx' tx)
        else if _start_fragment response then
          let* b := ack_fragment src_addr dst_addr 0x00 0 3 (mkBus rx' tx) in
          let result := [] ++ service_data response in
          let* '(more, b) := read_fragment src_addr dst_addr true b in
          match more with
          | Some l => Ok (result ++ l, b)
          | None => Raise TypeError
          end
        else
          wait_response_loop src_addr dst_addr expected_code rx' tx
      else if _bad_service expected_code && negb (_error response) then
        raise_CipServiceError ERROR.INVALID_REPLY_RECEIVED
      else if _error response then
        let* error := index (service_data response) 0 in
        raise_CipServiceError error
      else
        wait_response_loop src_addr dst_addr expected_code rx' tx
  end.

Definition wait_response (src_addr dst_addr expected_code : Z) (b : bus)
    : result (list Z * bus) :=
  wait_response_loop src_addr dst_addr expected_code (rx b) (tx b).

(** The loop [for i in range(2)] of [wait_fragment_ack], with the [msg_in]
    it leaves behind. *)
Fixpoint wait_fragment_ack_loop (n : nat) (msg_in : option CanFrame.t)
    (b : bus) : result (option CanFrame.t * bus) :=
  match n with
  | O => Ok (msg_in, b)
  | S n' =>
      let '(msg_in, b) := recv b in
      match msg_in with
      | Some frame =>
          let* response :=
            ExplicitFragAckPacket.from_frame frame ExplicitFragAckPacket.new in
          if negb (ack_status response =? 0) then
            Raise CipFragmentResponseError
          else Ok (msg_in, b)
      | None => wait_fragment_ack_loop n' msg_in b
      end
  end.

Definition wait_fragment_ack (b : bus) : result bus :=
  let* '(msg_in, b) := wait_fragment_ack_loop 2 None b in
  match msg_in with
  | None => Raise CipNoResponseError
  | Some _ => Ok b
  end.

(** The loop over the fragments in [send_message]. *)
Fixpoint send_fragments (explicit : bool) (fragments : list CanFrame.t)
    (b : bus) : result bus :=
  match fragments with
  | [] => Ok b
  | fragment :: rest =>
      let b := send fragment b in
      let* b := if explicit then wait_fragment_ack b else Ok b in
      send_fragments explicit rest b
  end.

(** [send_message]; [split] and [to_frame] are the methods of the class of
    [message], the latter called without a frame class. *)
Definition send_message
    (split : packet -> result (list CanFrame.t))
    (to_frame : frame_class -> packet -> result CanFrame.t)
    (message : packet) (explicit : bool) (b : bus) : result bus :=
  if (8 <? DeviceNetPacket.length message)%nat then
    let* fragments := split message in
    send_fragments explicit fragments b
  else
    let* frame := to_frame CanFrameAbc message in
    Ok (send frame b).

End Link.

(** ** Notions the statements below are written with *)

(** [devnet_addr(can_addr(g, m, a))] *)
Definition from_can_to_can (g m a : Z) : result (Z * Z * Z) :=
  let* can_id := Addressing.can_addr g m a in
  Ok (Addressing.devnet_addr can_id).

(** The MAC that a decoder reads out of the CAN identifier which
    [build_can_header] generates for [p]. *)
Definition embedded_mac (p : packet) : Z :=
  snd (Addressing.devnet_addr
         (can_header (DeviceNetPacket.build_can_header p))).


(** The acknowledge frame for a fragment count, with the status 0 and the
    type ACK that [ack_fragment] has as defaults: an explicit-request
    identifier of group 2 that carries the destination MAC, the message
    header with the fragment flag, the fragment header and the status
    byte. *)
Definition ack_frame (dst_addr frag_count : Z) : CanFrame.t :=
  CanFrame.mk (0x400 + Z.shiftl dst_addr 3 + 4)
    [0x80; Z.shiftl FRAGMENT.TYPE.ACK 6 + frag_count; 0].

(** [ceil(a / b)] on the natural numbers. *)
Definition ceil_div (a b : nat) : nat := Nat.div (a + b - 1) b.

(** A frame class of the caller's own: a subclass of [CanFrameAbc] that
    implements the abstract members by keeping the identifier and the data
    it is given. *)
Definition StoredFrame : frame_class :=
  fun can_id data => Ok (CanFrame.mk can_id data).

(** The fragment type the specification gives the fragment of index [i]
    among [n]: START for the first, FINAL for the last, MIDDLE between. *)
Definition fragment_type_at (n i : nat) : Z :=
  if (i =? 0)%nat then FRAGMENT.TYPE.START
  else if (i =? n - 1)%nat then FRAGMENT.TYPE.FINAL
  else FRAGMENT.TYPE.MIDDLE.

(** ** Notions the further statements are written with *)

(** The state [ExplicitFragPacket.build] leaves a fragment object in: the
    identifier of [build_can_header], the message header with the
    fragmentation flag, the fragment header, and the payload behind them. *)
Definition explicit_frag_built (p : packet) : packet :=
  with_can_data
    ([0x80; Z.shiftl (frag_type p) 6 + frag_count p] ++ data p)
    (with_message_body (data p)
       (with_frag_header (Z.shiftl (frag_type p) 6 + frag_count p)
          (with_message_header 0x80
             (DeviceNetPacket.build_can_header p)))).


(** [can_addr] applied to the triple that [devnet_addr(can_id)] returns. *)
Definition to_can_from_can (can_id : Z) : result Z :=
  let '(g, m, a) := Addressing.devnet_addr can_id in
  Addressing.can_addr g m a.

(** ** convert.py: integers and lists of bytes *)

Module Integers.

(** [integer_to_bytes]: byte [i] is [value >> i*8 & 0xFF]; every layout
    other than ['little'] reverses the list. *)
Definition integer_to_bytes (value size : Z) (endianess : string) : list Z :=
  let stream :=
    map (fun i => Z.land (Z.shiftr value (Z.of_nat i * 8)) 0xFF)
      (range (Z.to_nat size)) in
  if String.eqb endianess "little" then stream else rev stream.

(** [bytes_to_integer]: every layout other than ['big'] reverses the list
    first. *)
Definition bytes_to_integer (stream : list Z) (endianess : string) : Z :=
  let stream := if String.eqb endianess "big" then stream else rev stream in
  fold_left (fun result b => result * 256 + b) stream 0.

End Integers.

(** ** devicenet/packets.py: the byte stream of a packet *)

Module Stream.

(** [DeviceNetPacket.serialize]: two bytes of CAN identifier, low byte
    first, then the CAN payload; [bytearray.extend] refuses an item that is
    not a byte. *)
Definition serialize (p : packet) : result (list Z) :=
  let stream := [] ++ Integers.integer_to_bytes (can_header p) 2 "little" in
  let* payload := Convert.bytearray (can_data p) in
  Ok (stream ++ payload).

(** [DeviceNetPacket.deserialize]; [set_data] is the assignment
    [self.data = ...] of the class of the object. *)
Definition deserialize (set_data : list Z -> packet -> packet)
    (stream : list Z) (p : packet) : result packet :=
  let* stream := Convert.bytearray stream in
  let p := with_can_header
             (Integers.bytes_to_integer (firstn 2 stream) "little") p in
  let p := with_can_data (skipn 2 stream) p in
  let p := DeviceNetPacket.get_group_id p in
  let p := DeviceNetPacket.get_message_id p in
  let* p := DeviceNetPacket.get_src_mac p in
  let* p := DeviceNetPacket.get_dst_mac p in
  Ok (DeviceNetPacket.get_message_data set_data p).

End Stream.

(** ** devicenet/packets.py: the duplicate MAC check packet *)

Module DupMacPacket.

Definition RR_FLAG_OFFSET : nat := 0.
Definition RR_FLAG_MASK : Z := 0x80.
Definition PHY_PORT_OFFSET : nat := 0.
Definition PHY_PORT_MASK : Z := 0x7F.
Definition PHY_PORT_SIZE : nat := 1.
Definition VENDOR_ID_OFFSET : nat := 1.
Definition VENDOR_ID_MASK : Z := 0xFFFF.
Definition VENDOR_ID_SIZE : nat := 2.
Definition SERIAL_NUMBER_OFFSET : nat := 3.
Definition SERIAL_NUMBER_MASK : Z := 0xFFFFFFFF.
Definition SERIAL_NUMBER_SIZE : nat := 4.
Definition PACKET_SIZE : nat := 7.

(** [PACKET.PHYSICAL_PORT.MASK] of definitions.py *)
Definition PACKET_PHYSICAL_PORT_MASK : Z := 0x7F.

(** The attributes of the base class and the four the class adds. *)
Record t : Type := mk {
  base : packet;
  rr_flag : Z;
  physical_port : Z;
  vendor_id : Z;
  serial_number : Z
}.

Definition with_base (v : packet) (p : t) : t :=
  mk v (rr_flag p) (physical_port p) (vendor_id p) (serial_number p).

Definition with_rr_flag (v : Z) (p : t) : t :=
  mk (base p) v (physical_port p) (vendor_id p) (serial_number p).

Definition with_physical_port (v : Z) (p : t) : t :=
  mk (base p) (rr_flag p) v (vendor_id p) (serial_number p).

Definition with_vendor_id (v : Z) (p : t) : t :=
  mk (base p) (rr_flag p) (physical_port p) v (serial_number p).

Definition with_serial_number (v : Z) (p : t) : t :=
  mk (base p) (rr_flag p) (physical_port p) (vendor_id p) v.

Definition init (dst_mac rr_flag physical_port vendor_id serial_number : Z)
    : t :=
  let p := DeviceNetPacket.init with_data MESSAGE.GROUP2.ID
             MESSAGE.GROUP2.DUPMAC 0 dst_mac (repeat 0 PACKET_SIZE) in
  mk p rr_flag physical_port vendor_id serial_number.

(** The defaults of the constructor. *)
Definition new : t := init 0 0 0 0 0.

(** [l[a:b] = v] for non-negative constant bounds. *)
Definition set_slice (l : list Z) (a b : nat) (v : list Z) : list Z :=
  firstn a l ++ v ++ skipn (Nat.max a b) l.

Definition validate_rr_flag (p : t) : result unit :=
  if negb ((0 <=? rr_flag p) && (rr_flag p <=? 1))
  then Raise DevNetPacketError else Ok tt.

Definition validate_physical_port (p : t) : result unit :=
  if negb ((0 <=? physical_port p) && (physical_port p <=? PHY_PORT_MASK))
  then Raise DevNetPacketError else Ok tt.

Definition validate_vendor_id (p : t) : result unit :=
  if negb ((0 <=? vendor_id p) && (vendor_id p <=? VENDOR_ID_MASK))
  then Raise DevNetPacketError else Ok tt.

Definition validate_serial_number (p : t) : result unit :=
  if negb ((0 <=? serial_number p)
           && (serial_number p <=? SERIAL_NUMBER_MASK))
  then Raise DevNetPacketError else Ok tt.

Definition validate_message_data (p : t) : result unit :=
  let PACKET_SIZE :=
    (PHY_PORT_SIZE + VENDOR_ID_SIZE + SERIAL_NUMBER_SIZE)%nat in
  if negb (List.length (data (base p)) =? PACKET_SIZE)%nat
  then Raise DevNetPacketError else Ok tt.

Definition get_dst_mac (p : t) : t :=
  let '(g, m, a) := Addressing.devnet_addr (can_header (base p)) in
  with_base (with_dst_mac a (with_message_id m (with_group_id g (base p)))) p.

Definition get_rr_flag (p : t) : result t :=
  except_IndexError
    (let* value := index (can_data (base p)) RR_FLAG_OFFSET in
     Ok (with_rr_flag
           (Z.shiftr (Z.land value RR_FLAG_MASK) PACKET.RSP_FLAG.OFFSET) p))
    DevNetParsingError.

Definition get_physical_port (p : t) : result t :=
  except_IndexError
    (let* value := index (can_data (base p)) PHY_PORT_OFFSET in
     Ok (with_physical_port (Z.land value PACKET_PHYSICAL_PORT_MASK) p))
    DevNetParsingError.

Definition get_vendor_id (p : t) : t :=
  let start := VENDOR_ID_OFFSET in
  let end_ := (start + VENDOR_ID_SIZE)%nat in
  with_vendor_id
    (Integers.bytes_to_integer (slice (can_data (base p)) start end_)
       "little") p.

Definition get_serial_number (p : t) : t :=
  let start := SERIAL_NUMBER_OFFSET in
  let end_ := (start + SERIAL_NUMBER_SIZE)%nat in
  with_serial_number
    (Integers.bytes_to_integer (slice (can_data (base p)) start end_)
       "little") p.

(** [set_dst_mac] stores the identifier only, not the attribute
    [dst_mac]. *)
Definition set_dst_mac (value : Z) (p : t) : result t :=
  let* h := Addressing.can_addr MESSAGE.GROUP2.ID MESSAGE.GROUP2.DUPMAC
              value in
  Ok (with_base (with_can_header h (base p)) p).

(** The four setters below write into the list [self.data] in place.  They
    are given here for an object whose [data] is a list of its own, as it
    is from the constructor on; [get_message_data] and [set_message_data]
    of the base class, which make [data] and [can_data] one list, are not
    part of this class's [build] and [parse]. *)
Definition set_rr_flag (value : Z) (p : t) : result t :=
  let p := with_rr_flag value p in
  let value := if 0 <? value then 1 else 0 in
  let n := 7 in
  let rr_bit := Z.shiftl value n in
  let* b := index (data (base p)) RR_FLAG_OFFSET in
  let other_bits := Z.land b (Z.lnot RR_FLAG_MASK) in
  let* d := setitem (data (base p)) RR_FLAG_OFFSET
              (Z.lor other_bits rr_bit) in
  Ok (with_base (with_data d (base p)) p).

Definition set_physical_port (value : Z) (p : t) : result t :=
  let p := with_physical_port value p in
  let* b := index (data (base p)) PHY_PORT_OFFSET in
  let other_bits := Z.land b (Z.lnot PHY_PORT_MASK) in
  let phy_bits := Z.land value PHY_PORT_MASK in
  let* d := setitem (data (base p)) PHY_PORT_OFFSET
              (Z.lor other_bits phy_bits) in
  Ok (with_base (with_data d (base p)) p).

Definition set_vendor_id (value : Z) (p : t) : t :=
  let p := with_vendor_id value p in
  let start := VENDOR_ID_OFFSET in
  let end_ := (start + VENDOR_ID_SIZE)%nat in
  let new_value := Integers.integer_to_bytes (vendor_id p) 2 "little" in
  with_base (with_data (set_slice (data (base p)) start end_ new_value)
               (base p)) p.

Definition set_serial_number (value : Z) (p : t) : t :=
  let p := with_serial_number value p in
  let start := SERIAL_NUMBER_OFFSET in
  let end_ := (start + SERIAL_NUMBER_SIZE)%nat in
  let new_value := Integers.integer_to_bytes (serial_number p) 4 "little" in
  with_base (with_data (set_slice (data (base p)) start end_ new_value)
               (base p)) p.

Definition build (p : t) : result t :=
  let p := with_base (DeviceNetPacket.clear (base p)) p in
  let* p := set_dst_mac (dst_mac (base p)) p in
  let* p := set_rr_flag (rr_flag p) p in
  let* p := set_physical_port (physical_port p) p in
  let p := set_vendor_id (vendor_id p) p in
  let p := set_serial_number (serial_number p) p in
  Ok (with_base
        (DeviceNetPacket.set_can_data (map Scalar (data (base p))) (base p))
        p).

Definition parse (p : t) : result t :=
  let p := get_dst_mac p in
  let* p := get_rr_flag p in
  let* p := get_physical_port p in
  let p := get_vendor_id p in
  Ok (get_serial_number p).

Definition validate (p : t) : result unit :=
  let* _ := validate_rr_flag p in
  let* _ := validate_physical_port p in
  let* _ := validate_vendor_id p in
  let* _ := validate_serial_number p in
  validate_message_data p.

(** [from_frame] and [to_frame] of the base class, with the [parse] and
    [build] of this class. *)
Definition from_frame (frame : CanFrame.t) (p : t) : result t :=
  except_all
    (let p := with_base (with_can_header (CanFrame.can_id frame) (base p))
                p in
     let p := with_base (with_can_data (CanFrame.data frame) (base p)) p in
     parse p)
    DevNetParsingError.

Definition to_frame (frame_class : frame_class) (p : t)
    : result CanFrame.t :=
  let* p := build p in
  frame_class (can_header (base p)) (can_data (base p)).

(** [__eq__] of the base class, which this class inherits. *)
Definition eqb (p q : t) : bool :=
  (can_header (base p) =? can_header (base q))
  && (if list_eq_dec Z.eq_dec (can_data (base p)) (can_data (base q))
      then true else false)
  && (group_id (base p) =? group_id (base q))
  && (message_id (base p) =? message_id (base q))
  && (if list_eq_dec Z.eq_dec (data (base p)) (data (base q))
      then true else false)
  && (DeviceNetPacket.length (base p) =? DeviceNetPacket.length (base q))%nat.

End DupMacPacket.

(** ** devicenet/link.py: the messaging layer *)

Module POLL.
Definition REQ_GROUP : Z := MESSAGE.GROUP2.ID.
Definition REQ : Z := MESSAGE.GROUP2.POLL_CMD.
Definition RSP_GROUP : Z := MESSAGE.GROUP1.ID.
Definition RSP : Z := MESSAGE.GROUP1.POLL_RSP.
End POLL.

Module Messaging.

(** A call of [interface.start_listen(can_id=...)] or of
    [interface.stop_listen(...)], the latter with or without identifiers. *)
Inductive listen_call : Type :=
| start_listen (can_id : list Z)
| stop_listen (can_id : option (list Z)).

(** The CAN interface with its listeners: the frames received and sent, as
    in [Link.bus], and the listener calls made so far, oldest first. *)
Record interface : Type := mkInterface {
  wire : Link.bus;
  listen : list listen_call
}.

Definition with_wire (b : Link.bus) (i : interface) : interface :=
  mkInterface b (listen i).

Definition call (c : listen_call) (i : interface) : interface :=
  mkInterface (wire i) (listen i ++ [c]).

(** [service_request]; [value] is its argument [data], [event_handler] the
    optional callback, which is handed nothing and may use the interface. *)
Definition service_request (i : interface)
    (src_addr dst_addr service_code class_id instance_id : Z)
    (value : list Z) (group_id message_id wait_time : Z)
    (event_handler : option (interface -> result interface))
    : result (list Z * interface) :=
  let* request :=
    ExplicitServicePacket.build
      (ExplicitServicePacket.init group_id message_id src_addr dst_addr 0
         service_code class_id instance_id value) in
  let* can_id :=
    Addressing.can_addr EXPLICIT.RSP_GROUP EXPLICIT.RSP dst_addr in
  let i := call (start_listen [can_id]) i in
  let* b :=
    Link.send_message ExplicitServicePacket.split
      ExplicitServicePacket.to_frame request true (wire i) in
  let i := with_wire b i in
  let* i :=
    match event_handler with
    | Some handler => handler i
    | None => Ok i
    end in
  if negb (wait_time =? 0) then
    let* '(response, b) :=
      Link.wait_response src_addr dst_addr service_code (wire i) in
    let i := with_wire b i in
    Ok (response, call (stop_listen (Some [can_id])) i)
  else
    Ok ([], i).


(** [poll_read]; the object that parses the frame is
    [IoPacket(master_addr, slave_addr)], whose two positional arguments are
    the group and the message id of the constructor. *)
Definition poll_read (i : interface)
    (master_addr slave_addr produced_size : Z)
    : result (option (list Z) * interface) :=
  let* can_id := Addressing.can_addr POLL.RSP_GROUP POLL.RSP slave_addr in
  let* '(result, i) :=
    if 8 <? produced_size then
      let* '(result, b) :=
        Link.read_fragment master_addr slave_addr false (wire i) in
      Ok (result, with_wire b i)
    else
      let '(message, b) := Link.recv (wire i) in
      match message with
      | Some message =>
          let response :=
            IoPacket.from_frame message
              (IoPacket.init master_addr slave_addr 0 0 []) in
          Ok (Some (data response), with_wire b i)
      | None => Ok (None, with_wire b i)
      end in
  Ok (result, call (stop_listen None) i).

End Messaging.

(** ** Further notions of the statements *)

(** A frame with the shape of a fragment acknowledge: a second byte whose
    two high bits hold the fragment type ACK. *)
Definition is_ack_frame (frame : CanFrame.t) : bool :=
  match CanFrame.data frame with
  | _ :: b :: _ => Z.shiftr (Z.land b 0xC0) 6 =? FRAGMENT.TYPE.ACK
  | _ => false
  end.

(** [DeviceNetPacket.__eq__] on two packet objects. *)
Definition packet_eqb (p q : packet) : bool :=
  (can_header p =? can_header q)
  && (if list_eq_dec Z.eq_dec (can_data p) (can_data q) then true else false)
  && (group_id p =? group_id q)
  && (message_id p =? message_id q)
  && (if list_eq_dec Z.eq_dec (data p) (data q) then true else false)
  && (DeviceNetPacket.length p =? DeviceNetPacket.length q)%nat.
(** * Properties *)

Lemma Ok_inj {A : Type} (a b : A) : Ok a = Ok b -> a = b.
Proof. now intros [= ->]. Qed.

(** ** Bit-field arithmetic *)

Section BitFields.

Lemma land_low_bits (x n : Z) : 0 <= n -> Z.land x (Z.ones n) = x mod 2 ^ n.
Proof. intros Hn. now apply Z.land_ones. Qed.

Lemma field_extract (x k n : Z) :
  0 <= k -> 0 <= n ->
  Z.shiftr (Z.land x (Z.shiftl (Z.ones n) k)) k = (x / 2 ^ k) mod 2 ^ n.
Proof.
  intros Hk Hn.
  rewrite Z.shiftr_land, Z.shiftr_shiftl_l by lia.
  rewrite Z.sub_diag, Z.shiftl_0_r.
  rewrite Z.land_ones by lia.
  now rewrite Z.shiftr_div_pow2 by lia.
Qed.

Lemma mid_field (hi lo k n : Z) :
  0 <= k -> 0 <= n -> 0 <= lo < 2 ^ k ->
  Z.shiftr (Z.land (Z.shiftl hi k + lo) (Z.shiftl (Z.ones n) k)) k = hi mod 2 ^ n.
Proof.
  intros Hk Hn Hlo.
  rewrite field_extract by lia.
  rewrite Z.shiftl_mul_pow2 by lia.
  f_equal.
  rewrite Z.div_add_l by lia.
  rewrite Z.div_small by lia. lia.
Qed.

Lemma low_field (hi lo k : Z) :
  0 <= k -> 0 <= lo < 2 ^ k ->
  Z.land (Z.shiftl hi k + lo) (Z.ones k) = lo.
Proof.
  intros Hk Hlo.
  rewrite Z.land_ones by lia.
  rewrite Z.shiftl_mul_pow2 by lia.
  rewrite Z.add_comm, Z.mod_add by lia.
  now apply Z.mod_small.
Qed.

End BitFields.

(** ** The address codec *)

Section AddressCodec.

Import Addressing.

Lemma in_range_true (x lo hi : Z) : in_range x lo hi = true <-> lo <= x < hi.
Proof. unfold in_range. rewrite andb_true_iff, Z.leb_le, Z.ltb_lt. tauto. Qed.

Lemma in_range_false (x lo hi : Z) :
  in_range x lo hi = false <-> x < lo \/ hi <= x.
Proof.
  unfold in_range. rewrite andb_false_iff, Z.leb_gt, Z.ltb_ge. tauto.
Qed.

Lemma can_addr_group1 (m a : Z) :
  0 <= m < 16 -> 0 <= a < 64 -> can_addr 1 m a = Ok (Z.shiftl m 6 + a).
Proof.
  intros Hm Ha. unfold can_addr.
  assert (H1 : in_range m 0 16 = true) by (apply in_range_true; lia).
  assert (H2 : in_range m 0 64 = true) by (apply in_range_true; lia).
  assert (H3 : in_range a 0 64 = true) by (apply in_range_true; lia).
  now rewrite H1, H2, H3.
Qed.

Lemma can_addr_group2 (m a : Z) :
  0 <= m < 8 -> 0 <= a < 64 -> can_addr 2 m a = Ok (0x400 + Z.shiftl a 3 + m).
Proof.
  intros Hm Ha. unfold can_addr.
  assert (H1 : in_range m 0 8 = true) by (apply in_range_true; lia).
  assert (H2 : in_range m 0 64 = true) by (apply in_range_true; lia).
  assert (H3 : in_range a 0 64 = true) by (apply in_range_true; lia).
  now rewrite H1, H2, H3.
Qed.

Lemma can_addr_group3 (m a : Z) :
  0 <= m < 7 -> 0 <= a < 64 -> can_addr 3 m a = Ok (0x600 + Z.shiftl m 6 + a).
Proof.
  intros Hm Ha. unfold can_addr.
  assert (H1 : in_range m 0 7 = true) by (apply in_range_true; lia).
  assert (H2 : in_range m 0 64 = true) by (apply in_range_true; lia).
  assert (H3 : in_range a 0 64 = true) by (apply in_range_true; lia).
  now rewrite H1, H2, H3.
Qed.

Lemma can_addr_group4 (m a : Z) :
  0 <= m < 64 -> 0 <= a < 64 -> can_addr 4 m a = Ok (0x7C0 + m).
Proof.
  intros Hm Ha. unfold can_addr.
  assert (H2 : in_range m 0 64 = true) by (apply in_range_true; lia).
  assert (H3 : in_range a 0 64 = true) by (apply in_range_true; lia).
  now rewrite H2, H3.
Qed.

(** The group a CAN identifier decodes to is fixed by its range. *)
Lemma devnet_addr_group1 (id : Z) :
  0 <= id < 0x400 ->
  devnet_addr id = (1, Z.shiftr (Z.land id 0x3C0) 6, Z.land id 0x03F).
Proof.
  intros H. unfold devnet_addr.
  assert (H1 : in_range id 0 0x400 = true) by (apply in_range_true; lia).
  now rewrite H1.
Qed.

Lemma devnet_addr_group2 (id : Z) :
  0x400 <= id < 0x600 ->
  devnet_addr id = (2, Z.land id 0x007, Z.shiftr (Z.land id 0x1F8) 3).
Proof.
  intros H. unfold devnet_addr.
  assert (H1 : in_range id 0 0x400 = false) by (apply in_range_false; lia).
  assert (H2 : in_range id 0x400 0x600 = true) by (apply in_range_true; lia).
  now rewrite H1, H2.
Qed.

Lemma devnet_addr_group3 (id : Z) :
  0x600 <= id < 0x7C0 ->
  devnet_addr id = (3, Z.shiftr (Z.land id 0x1C0) 6, Z.land id 0x03F).
Proof.
  intros H. unfold devnet_addr.
  assert (H1 : in_range id 0 0x400 = false) by (apply in_range_false; lia).
  assert (H2 : in_range id 0x400 0x600 = false) by (apply in_range_false; lia).
  assert (H3 : in_range id 0x600 0x7C0 = true) by (apply in_range_true; lia).
  now rewrite H1, H2, H3.
Qed.

Lemma devnet_addr_group4 (id : Z) :
  0x7C0 <= id < 0x7F0 -> devnet_addr id = (4, Z.land id 0x03F, 0).
Proof.
  intros H. unfold devnet_addr.
  assert (H1 : in_range id 0 0x400 = false) by (apply in_range_false; lia).
  assert (H2 : in_range id 0x400 0x600 = false) by (apply in_range_false; lia).
  assert (H3 : in_range id 0x600 0x7C0 = false) by (apply in_range_false; lia).
  assert (H4 : in_range id 0x7C0 0x7F0 = true) by (apply in_range_true; lia).
  now rewrite H1, H2, H3, H4.
Qed.

Lemma devnet_addr_outside (id : Z) :
  id < 0 \/ 0x7F0 <= id -> devnet_addr id = (0, 0, 0).
Proof.
  intros H. unfold devnet_addr.
  assert (H1 : in_range id 0 0x400 = false) by (apply in_range_false; lia).
  assert (H2 : in_range id 0x400 0x600 = false) by (apply in_range_false; lia).
  assert (H3 : in_range id 0x600 0x7C0 = false) by (apply in_range_false; lia).
  assert (H4 : in_range id 0x7C0 0x7F0 = false) by (apply in_range_false; lia).
  now rewrite H1, H2, H3, H4.
Qed.

(** Decoding what groups 1 to 3 encode. *)
Lemma decode_group1 (m a : Z) :
  0 <= m < 16 -> 0 <= a < 64 -> devnet_addr (Z.shiftl m 6 + a) = (1, m, a).
Proof.
  intros Hm Ha.
  rewrite devnet_addr_group1 by (rewrite Z.shiftl_mul_pow2 by lia; lia).
  change 0x3C0 with (Z.shiftl (Z.ones 4) 6). change 0x03F with (Z.ones 6).
  rewrite mid_field, low_field by (simpl; lia).
  now rewrite Z.mod_small by (simpl; lia).
Qed.

Lemma decode_group2 (m a : Z) :
  0 <= m < 8 -> 0 <= a < 64 ->
  devnet_addr (0x400 + Z.shiftl a 3 + m) = (2, m, a).
Proof.
  intros Hm Ha.
  rewrite devnet_addr_group2 by (rewrite Z.shiftl_mul_pow2 by lia; lia).
  replace (0x400 + Z.shiftl a 3 + m) with (Z.shiftl (128 + a) 3 + m)
    by (rewrite !Z.shiftl_mul_pow2 by lia; lia).
  change 0x1F8 with (Z.shiftl (Z.ones 6) 3). change 0x007 with (Z.ones 3).
  rewrite mid_field, low_field by (simpl; lia).
  change (2 ^ 6) with 64.
  replace (128 + a) with (a + 2 * 64) by lia.
  rewrite Z.mod_add, Z.mod_small by lia.
  reflexivity.
Qed.

Lemma decode_group3 (m a : Z) :
  0 <= m < 7 -> 0 <= a < 64 ->
  devnet_addr (0x600 + Z.shiftl m 6 + a) = (3, m, a).
Proof.
  intros Hm Ha.
  rewrite devnet_addr_group3 by (rewrite Z.shiftl_mul_pow2 by lia; lia).
  replace (0x600 + Z.shiftl m 6 + a) with (Z.shiftl (24 + m) 6 + a)
    by (rewrite !Z.shiftl_mul_pow2 by lia; lia).
  change 0x1C0 with (Z.shiftl (Z.ones 3) 6). change 0x03F with (Z.ones 6).
  rewrite mid_field, low_field by (simpl; lia).
  change (2 ^ 3) with 8.
  replace (24 + m) with (m + 3 * 8) by lia.
  rewrite Z.mod_add, Z.mod_small by lia.
  reflexivity.
Qed.

Lemma decode_group4 (m : Z) :
  0 <= m < 48 -> devnet_addr (0x7C0 + m) = (4, m, 0).
Proof.
  intros Hm.
  rewrite devnet_addr_group4 by lia.
  replace (0x7C0 + m) with (Z.shiftl 31 6 + m)
    by (rewrite Z.shiftl_mul_pow2 by lia; lia).
  change 0x03F with (Z.ones 6).
  now rewrite low_field by (simpl; lia).
Qed.

End AddressCodec.

(** C1, as stated, fails: a group-4 identifier carries no MAC, so the triple
    (4, 0, 1), valid by the stated bounds, comes back as (4, 0, 0). *)
Lemma address_roundtrip_group4_counterexample :
  Addressing.valid_triple 4 0 1 = true /\
  from_can_to_can 4 0 1 = Ok (4, 0, 0) /\
  from_can_to_can 4 0 1 <> Ok (4, 0, 1).
Proof.
  split; [reflexivity | split; [reflexivity | discriminate]].
Qed.

(** C1, amended: for every valid addressing triple (group in 1..4, message id
    in the range declared for the group, MAC in 0..63), decoding the encoded
    CAN identifier returns the group and the message id, and the MAC for
    groups 1 to 3; for group 4 the decoded MAC is 0. *)
Theorem address_roundtrip (g m a : Z) :
  Addressing.valid_triple g m a = true ->
  from_can_to_can g m a = Ok (g, m, if g =? 4 then 0 else a).
Proof.
  unfold Addressing.valid_triple, from_can_to_can.
  rewrite andb_true_iff, !orb_true_iff, !andb_true_iff, !Z.eqb_eq,
    !in_range_true.
  intros [Ha [[[[-> Hm] | [-> Hm]] | [-> Hm]] | [-> Hm]]].
  - rewrite can_addr_group1 by lia. cbv beta iota delta [bind].
    now rewrite decode_group1 by lia.
  - rewrite can_addr_group2 by lia. cbv beta iota delta [bind].
    now rewrite decode_group2 by lia.
  - rewrite can_addr_group3 by lia. cbv beta iota delta [bind].
    now rewrite decode_group3 by lia.
  - rewrite can_addr_group4 by lia. cbv beta iota delta [bind].
    now rewrite decode_group4 by lia.
Qed.

Lemma address_roundtrip_witness :
  Addressing.valid_triple 2 4 1 = true /\ from_can_to_can 2 4 1 = Ok (2, 4, 1).
Proof.
  split; [reflexivity | exact (address_roundtrip 2 4 1 eq_refl)].
Defined.

(** What [can_addr] accepts for group 4 in the code. *)
Lemma can_addr_group4_accepted (m a : Z) :
  0 <= m < 64 -> 0 <= a < 64 ->
  Addressing.can_addr 4 m a = Ok (Z.lor 0x7C0 m).
Proof.
  intros Hm Ha. rewrite can_addr_group4 by lia. f_equal.
  rewrite <- Z.lxor_lor, <- Z.add_nocarry_lxor; try reflexivity.
  all: change 0x7C0 with (Z.shiftl 31 6);
    rewrite <- (Z.mod_small m (2 ^ 6)) by (simpl; lia);
    rewrite <- Z.land_ones by lia;
    apply Z.bits_inj'; intros n Hn;
    rewrite !Z.land_spec, Z.bits_0;
    destruct (Z.ltb_spec n 6) as [Hlt | Hge];
    [ now rewrite Z.shiftl_spec_low
    | rewrite Z.ones_spec_high by lia; now rewrite !andb_false_r ].
Qed.

Lemma can_addr_raises_outside (g m a : Z) :
  g < 1 \/ 4 < g \/ m < 0 \/ 64 <= m \/ a < 0 \/ 64 <= a
  \/ (g = 1 /\ 16 <= m) \/ (g = 2 /\ 8 <= m) \/ (g = 3 /\ 7 <= m) ->
  Addressing.can_addr g m a = Raise DevNetGroupError.
Proof.
  intros H. unfold Addressing.can_addr, in_range.
  repeat match goal with
  | |- context [?x =? ?y] => destruct (Z.eqb_spec x y)
  | |- context [?x <=? ?y] => destruct (Z.leb_spec x y)
  | |- context [?x <? ?y] => destruct (Z.ltb_spec x y)
  end; simpl; try reflexivity; exfalso; lia.
Qed.

(** C8: the claim bounds the group-4 message id by 47, as do the identifier
    ranges of [devnet_addr] and of [definitions.py]; the code only applies the
    6-bit bound.  At group 4, message id 48, [can_addr] does not fail with
    GroupError: it returns 0x7F0, an identifier of the reserved range, which
    [devnet_addr] decodes to (0, 0, 0). *)
Theorem can_addr_group4_message_48 :
  Addressing.can_addr 4 48 0 = Ok 0x7F0 /\
  Addressing.devnet_addr 0x7F0 = (0, 0, 0).
Proof. split; reflexivity. Qed.

(** C10: [devnet_addr] is a function without a failing path; on every 11-bit
    identifier it returns a triple of a group in 0..4, a message id and a MAC
    of six bits, and on the reserved identifiers 0x7F0..0x7FF the triple is
    (0, 0, 0). *)
Theorem devnet_addr_total (can_id : Z) :
  0 <= can_id <= 0x7FF ->
  (exists g m a, Addressing.devnet_addr can_id = (g, m, a)
                 /\ 0 <= g <= 4 /\ 0 <= m < 64 /\ 0 <= a < 64)
  /\ (0x7F0 <= can_id -> Addressing.devnet_addr can_id = (0, 0, 0)).
Proof.
  intros Hid. split.
  - assert (Hlow : forall x, 0 <= Z.land x 0x03F < 64).
    { intros x. change 0x03F with (Z.ones 6). rewrite Z.land_ones by lia.
      apply Z.mod_pos_bound. reflexivity. }
    assert (Hf : forall x k n, 0 <= k -> 0 <= n <= 6 ->
               0 <= Z.shiftr (Z.land x (Z.shiftl (Z.ones n) k)) k < 64).
    { intros x k n Hk Hn. rewrite field_extract by lia.
      assert (0 < 2 ^ n) by (apply Z.pow_pos_nonneg; lia).
      assert (2 ^ n <= 2 ^ 6) by (apply Z.pow_le_mono_r; lia).
      pose proof (Z.mod_pos_bound (x / 2 ^ k) (2 ^ n)). simpl in *. lia. }
    destruct (Z.lt_ge_cases can_id 0x400);
      [| destruct (Z.lt_ge_cases can_id 0x600);
         [| destruct (Z.lt_ge_cases can_id 0x7C0);
            [| destruct (Z.lt_ge_cases can_id 0x7F0)]]].
    + rewrite devnet_addr_group1 by lia. do 3 eexists. split; [reflexivity |].
      repeat split; try lia; try apply Hlow.
      all: apply (Hf can_id 6 4); lia.
    + rewrite devnet_addr_group2 by lia. do 3 eexists. split; [reflexivity |].
      assert (0 <= Z.land can_id 0x007 < 8).
      { change 0x007 with (Z.ones 3). rewrite Z.land_ones by lia.
        apply Z.mod_pos_bound. reflexivity. }
      repeat split; try lia.
      all: apply (Hf can_id 3 6); lia.
    + rewrite devnet_addr_group3 by lia. do 3 eexists. split; [reflexivity |].
      repeat split; try lia; try apply Hlow.
      all: apply (Hf can_id 6 3); lia.
    + rewrite devnet_addr_group4 by lia. do 3 eexists. split; [reflexivity |].
      repeat split; try lia; apply Hlow.
    + rewrite devnet_addr_outside by lia. do 3 eexists.
      split; [reflexivity |]. lia.
  - intros H. apply devnet_addr_outside. lia.
Qed.

Lemma devnet_addr_total_witness :
  0 <= 0x7F5 <= 0x7FF /\ Addressing.devnet_addr 0x7F5 = (0, 0, 0).
Proof.
  assert (H : 0 <= 0x7F5 <= 0x7FF) by lia.
  split; [exact H | apply (proj2 (devnet_addr_total 0x7F5 H)); lia].
Defined.

(** ** The MAC placed in the CAN identifier *)

Section MacPlacement.

(** The identifier [build_can_header] generates, by group. *)
Lemma build_can_header_group1 (p : packet) :
  group_id p = 1 ->
  can_header (DeviceNetPacket.build_can_header p)
  = Z.shiftl (message_id p) 6 + src_mac p.
Proof.
  intros Hg. unfold DeviceNetPacket.build_can_header. rewrite Hg.
  reflexivity.
Qed.

Lemma build_can_header_group2 (p : packet) :
  group_id p = 2 ->
  can_header (DeviceNetPacket.build_can_header p)
  = 0x400
    + Z.shiftl (if DeviceNetPacket.in_source_ids (message_id p)
                then src_mac p else dst_mac p) 3
    + message_id p.
Proof.
  intros Hg. unfold DeviceNetPacket.build_can_header. rewrite Hg.
  cbn [Z.eqb MESSAGE.GROUP1.ID MESSAGE.GROUP2.ID Pos.eqb].
  now destruct (DeviceNetPacket.in_source_ids (message_id p)).
Qed.

Lemma build_can_header_group3 (p : packet) :
  group_id p = 3 ->
  can_header (DeviceNetPacket.build_can_header p)
  = 0x600 + Z.shiftl (message_id p) 6 + src_mac p.
Proof.
  intros Hg. unfold DeviceNetPacket.build_can_header. rewrite Hg.
  reflexivity.
Qed.

Lemma build_can_header_group4 (p : packet) :
  group_id p = 4 ->
  can_header (DeviceNetPacket.build_can_header p) = 0x7C0 + message_id p.
Proof.
  intros Hg. unfold DeviceNetPacket.build_can_header. rewrite Hg.
  reflexivity.
Qed.

Lemma in_source_ids_spec (m : Z) :
  DeviceNetPacket.in_source_ids m = (m =? 0) || (m =? 3).
Proof.
  unfold DeviceNetPacket.in_source_ids, BITSTROBE.REQ, EXPLICIT.RSP,
    UNCONNECTED.RSP, MESSAGE.GROUP2.BITSTROBE_CMD,
    MESSAGE.GROUP2.EXPLICIT_RSP, MESSAGE.GROUP2.UNCONNECTED_RSP.
  now destruct (m =? 0), (m =? 3).
Qed.

End MacPlacement.

(** C7, as stated, fails where the two MACs coincide: in the group-2 packet
    with message id 4 and source and destination MAC 5, the embedded MAC
    equals the source MAC although the message id is neither 0 nor 3. *)
Lemma mac_placement_iff_counterexample :
  let p := IoPacket.init 2 4 5 5 [] in
  ~ (embedded_mac p = src_mac p <-> (message_id p = 0 \/ message_id p = 3)).
Proof.
  intros p [H _].
  assert (Hm : message_id p = 0 \/ message_id p = 3) by (apply H; reflexivity).
  destruct Hm as [Hm | Hm]; discriminate Hm.
Qed.

(** C7, amended: for a packet with 6-bit MACs, the MAC embedded in the CAN
    identifier that [build_can_header] generates is, in group 2 (message id
    0..7), the source MAC when the message id is BITSTROBE_CMD = 0 or
    EXPLICIT_RSP = UNCONNECTED_RSP = 3 and the destination MAC otherwise, so
    that it equals the source MAC exactly for those message ids whenever the
    two MACs differ; in groups 1 and 3 it is the source MAC. *)
Theorem mac_placement (p : packet) :
  0 <= src_mac p < 64 -> 0 <= dst_mac p < 64 ->
  (group_id p = 2 -> 0 <= message_id p < 8 ->
     embedded_mac p
     = (if (message_id p =? 0) || (message_id p =? 3)
        then src_mac p else dst_mac p)
     /\ (src_mac p <> dst_mac p ->
         (embedded_mac p = src_mac p
          <-> (message_id p = 0 \/ message_id p = 3))))
  /\ (group_id p = 1 -> 0 <= message_id p < 16 -> embedded_mac p = src_mac p)
  /\ (group_id p = 3 -> 0 <= message_id p < 7 -> embedded_mac p = src_mac p).
Proof.
  intros Hs Hd. unfold embedded_mac. repeat split.
  - rewrite build_can_header_group2, in_source_ids_spec by assumption.
    rewrite decode_group2; [reflexivity | lia |].
    destruct ((message_id p =? 0) || (message_id p =? 3)); lia.
  - rewrite build_can_header_group2, in_source_ids_spec by assumption.
    rewrite decode_group2; [| lia |].
    + cbn [snd]. intros He.
      destruct (Z.eqb_spec (message_id p) 0); [now left |].
      destruct (Z.eqb_spec (message_id p) 3); [now right |].
      cbn in He. congruence.
    + destruct ((message_id p =? 0) || (message_id p =? 3)); lia.
  - rewrite build_can_header_group2, in_source_ids_spec by assumption.
    rewrite decode_group2; [| lia |].
    + intros [-> | ->]; reflexivity.
    + destruct ((message_id p =? 0) || (message_id p =? 3)); lia.
  - intros Hg Hm. rewrite build_can_header_group1 by assumption.
    now rewrite decode_group1 by lia.
  - intros Hg Hm. rewrite build_can_header_group3 by assumption.
    now rewrite decode_group3 by lia.
Qed.

Lemma mac_placement_witness :
  let p := IoPacket.init 2 3 7 9 [] in
  0 <= src_mac p < 64 /\ 0 <= dst_mac p < 64 /\ group_id p = 2
  /\ 0 <= message_id p < 8 /\ embedded_mac p = 7.
Proof.
  intros p.
  assert (Hs : 0 <= src_mac p < 64) by (cbn; lia).
  assert (Hd : 0 <= dst_mac p < 64) by (cbn; lia).
  assert (Hm : 0 <= message_id p < 8) by (cbn; lia).
  split; [exact Hs |]. split; [exact Hd |]. split; [reflexivity |].
  split; [exact Hm |].
  exact (proj1 (proj1 (mac_placement p Hs Hd) eq_refl Hm)).
Defined.

(** ** The string codec *)

Section Utf8.

Import Convert.









End Utf8.




(** ** Reassembly of fragments *)

Section Reassembly.

Import Link.

(** The acknowledge packet of [ack_fragment] is built, and handed to a frame
    class it gives the identifier and the three bytes of [ack_frame]. *)
Lemma ack_packet_to_frame (frame_class : frame_class)
    (src_addr dst_addr frag_count : Z) :
  (let* acknowledge :=
     ExplicitFragAckPacket.build
       (ExplicitFragAckPacket.init EXPLICIT.REQ_GROUP EXPLICIT.REQ
          src_addr dst_addr frag_count 3 0) in
   ExplicitFragAckPacket.to_frame frame_class acknowledge)
  = frame_class (CanFrame.can_id (ack_frame dst_addr frag_count))
      (CanFrame.data (ack_frame dst_addr frag_count)).
Proof. reflexivity. Qed.

(** [ack_fragment] names no frame class in its call of [to_frame]: the
    abstract default refuses the call and nothing is sent. *)
Lemma ack_fragment_raises (src_addr dst_addr frag_count frag_status
    frag_type : Z) (b : bus) :
  ack_fragment src_addr dst_addr frag_count frag_status frag_type b
  = Raise TypeError.
Proof. reflexivity. Qed.

Lemma read_fragment_loop_timeout (explicit : bool) (src_addr dst_addr : Z)
    (rx' : list (option CanFrame.t)) (tx : list CanFrame.t)
    (stream : list Z) (prev_counter : Z) :
  read_fragment_loop explicit src_addr dst_addr (None :: rx') tx stream
    prev_counter
  = Ok (stream, mkBus rx' tx).
Proof. reflexivity. Qed.

(** A pass through the loop body sends, it does not receive. *)
Lemma read_fragment_step_rx (explicit : bool) (src_addr dst_addr : Z)
    (response : packet) (stream stream' : list Z) (prev prev' : Z)
    (b b' : bus) :
  read_fragment_step explicit src_addr dst_addr response stream prev b
  = Ok (stream', prev', b') ->
  rx b' = rx b.
Proof.
  unfold read_fragment_step.
  destruct (frag_count response - prev =? 0);
    [| destruct (frag_count response - prev =? 1)];
    destruct explicit; rewrite ?ack_fragment_raises;
    cbv beta iota delta [bind]; intros H; try discriminate H;
    apply Ok_inj in H; inversion H; reflexivity.
Qed.

End Reassembly.

(** C3: for an inbound frame that [read_fragment] parses as a fragment, with
    the difference of the fragment count and [prev_counter]: an I/O transfer
    appends the payload and sends nothing at difference 0 and at difference
    1, where [prev_counter] becomes the count; the loop then stops on a final
    fragment and goes on with the next frame otherwise.  An explicit
    transfer reaches [ack_fragment] at difference 0 and at difference 1, and
    there the call [acknowledge.to_frame()], which names no frame class,
    raises TypeError: no acknowledge is sent and the loop returns no
    stream.  So [read_fragment] in explicit mode, which starts with
    [prev_counter] 0, ends with TypeError when its first frame is a fragment
    of count 0 or 1. *)
Theorem read_fragment_ack_raises (explicit : bool) (src_addr dst_addr : Z)
    (msg_in : CanFrame.t) (response : packet)
    (rx' : list (option CanFrame.t)) (tx : list CanFrame.t)
    (stream : list Z) (prev_counter : Z) :
  (if explicit
   then ExplicitFragPacket.from_frame msg_in ExplicitFragPacket.new
   else IoFragPacket.from_frame msg_in IoFragPacket.new) = Ok response ->
  let counter_diff := frag_count response - prev_counter in
  let go_on stream' prev' tx' :=
    if Link._final_fragment response then Ok (stream', Link.mkBus rx' tx')
    else Link.read_fragment_loop explicit src_addr dst_addr rx' tx' stream'
           prev' in
  let loop :=
    Link.read_fragment_loop explicit src_addr dst_addr (Some msg_in :: rx') tx
      stream prev_counter in
  (counter_diff = 0 -> explicit = true -> loop = Raise TypeError)
  /\ (counter_diff = 0 -> explicit = false ->
     loop = go_on (stream ++ data response) prev_counter tx)
  /\ (counter_diff = 1 -> explicit = true -> loop = Raise TypeError)
  /\ (counter_diff = 1 -> explicit = false ->
     loop = go_on (stream ++ data response) (frag_count response) tx)
  /\ (frag_count response = 0 \/ frag_count response = 1 ->
     explicit = true ->
     Link.read_fragment src_addr dst_addr true
       (Link.mkBus (Some msg_in :: rx') tx) = Raise TypeError).
Proof.
  intros Hparse counter_diff go_on loop.
  assert (Hloop : loop
    = let* '(stream', prev', b) :=
        Link.read_fragment_step explicit src_addr dst_addr response stream
          prev_counter (Link.mkBus rx' tx) in
      go_on stream' prev' (Link.tx b)).
  { unfold loop. cbn [Link.read_fragment_loop]. rewrite Hparse.
    cbv beta iota delta [bind].
    destruct (Link.read_fragment_step explicit src_addr dst_addr response
                stream prev_counter (Link.mkBus rx' tx))
      as [[[s c] b] | e] eqn:Hstep; [| reflexivity].
    apply read_fragment_step_rx in Hstep. cbn in Hstep.
    unfold go_on. destruct (Link._final_fragment response); [| reflexivity].
    destruct b as [rxb txb]. cbn in Hstep. now subst rxb. }
  repeat split.
  1-4: rewrite Hloop; unfold Link.read_fragment_step; fold counter_diff;
    intros Hd ->; rewrite Hd; cbn [Z.eqb];
    rewrite ?ack_fragment_raises; reflexivity.
  intros Hcount He. subst explicit.
  unfold Link.read_fragment.
  cbn [Link.rx Link.tx Link.read_fragment_loop]. rewrite Hparse.
  cbv beta iota delta [bind]. unfold Link.read_fragment_step.
  destruct Hcount as [-> | ->]; cbn [Z.sub Z.add Z.opp Z.eqb Pos.eqb];
    rewrite ?ack_fragment_raises; reflexivity.
Qed.

Lemma read_fragment_ack_raises_witness :
  let msg_in := CanFrame.mk 0x40B [0x80; 0x81; 0x56; 0x78] in
  Link.read_fragment_loop true 0 1 [Some msg_in] [] [0x34; 0x12] 0
  = Raise TypeError.
Proof.
  intros msg_in.
  let r := eval vm_compute in
             (match ExplicitFragPacket.from_frame msg_in
                      ExplicitFragPacket.new with
              | Ok r => r
              | Raise _ => ExplicitFragPacket.new
              end) in
  pose (response := r).
  assert (Hparse : ExplicitFragPacket.from_frame msg_in ExplicitFragPacket.new
                   = Ok response) by (vm_compute; reflexivity).
  exact (proj1 (proj2 (proj2
           (read_fragment_ack_raises true 0 1 msg_in response [] []
              [0x34; 0x12] 0 Hparse)))
           eq_refl eq_refl).
Defined.

(** ** Inversion of the result monad *)

Lemma bind_Ok {A B : Type} (r : result A) (k : A -> result B) (b : B) :
  bind r k = Ok b -> exists a, r = Ok a /\ k a = Ok b.
Proof. destruct r as [a | e]; [eauto | discriminate]. Qed.

Lemma except_IndexError_Ok {A : Type} (r : result A) (e : exn) (a : A) :
  except_IndexError r e = Ok a -> r = Ok a.
Proof. destruct r as [x | []]; simpl; congruence. Qed.

Lemma checked_Ok (lo hi v w : Z) :
  checked lo hi v = Ok w -> w = v /\ lo <= v <= hi.
Proof.
  unfold checked.
  destruct (Z.leb_spec lo v), (Z.leb_spec v hi); simpl;
    try discriminate.
  intros <-%Ok_inj. lia.
Qed.

(** Takes the leading [bind] of a hypothesis [H : ... = Ok _] apart. *)
Ltac bind_inv H :=
  let a := fresh "a" in
  let Ha := fresh "Ha" in
  apply bind_Ok in H; destruct H as (a & Ha & H).

(** ** The service code of a parsed packet *)

Section ParsedServicePacket.

Lemma parse_message_body_service_code (frame : CanFrame.t) (offset : nat)
    (p r : packet) :
  ExplicitServicePacket.parse_message_body frame offset p = Ok r ->
  0 <= service_code r <= 0x7F.
Proof.
  unfold ExplicitServicePacket.parse_message_body. intros H.
  apply except_IndexError_Ok in H.
  bind_inv H. bind_inv H. bind_inv H. bind_inv H.
  unfold ExplicitServicePacket.set_service_code in Ha2.
  bind_inv Ha2. apply checked_Ok in Ha3 as [-> Hrange].
  apply Ok_inj in Ha2. subst a2.
  destruct (ExplicitServicePacket.rr_flag _ =? ExplicitServicePacket.REQUEST).
  - bind_inv H. bind_inv H. bind_inv H. bind_inv H. apply Ok_inj in H.
    unfold ExplicitServicePacket.set_class_id in Ha3. bind_inv Ha3.
    unfold ExplicitServicePacket.set_instance_id in Ha5. bind_inv Ha5.
    apply Ok_inj in Ha3, Ha5. subst. exact Hrange.
  - apply Ok_inj in H. subst. exact Hrange.
Qed.

Lemma from_frame_service_code (frame : CanFrame.t) (p r : packet) :
  ExplicitServicePacket.from_frame frame p = Ok r ->
  0 <= service_code r <= 0x7F.
Proof.
  unfold ExplicitServicePacket.from_frame. intros H.
  bind_inv H. bind_inv H.
  destruct (negb (frag_flag a0 =? 0)).
  - bind_inv H. eapply parse_message_body_service_code, H.
  - eapply parse_message_body_service_code, H.
Qed.

(** Every status code of the error table is a key of [ERROR.TAG]. *)
Lemma raise_CipServiceError_known {A : Type} (code : Z) :
  0 <= code <= 0x2E ->
  @raise_CipServiceError A code = Raise (CipServiceError code).
Proof.
  intros H. unfold raise_CipServiceError.
  assert (E : exists n, code = Z.of_nat n /\ (n < 47)%nat).
  { exists (Z.to_nat code). lia. }
  destruct E as (n & -> & Hn).
  do 47 (destruct n as [| n]; [reflexivity |]). lia.
Qed.

End ParsedServicePacket.

(** ** The reception of a response *)

(** C4, as stated, fails when the requested service is the ERROR service:
    the frame [0x00, 0x94, 0x08, 0xFF] parses as a packet with service code
    0x14, and [wait_response] for service code 0x14 takes it for the awaited
    response and returns its service data instead of failing. *)
Lemma error_response_counterexample :
  let msg_in := CanFrame.mk 0x40B [0x00; 0x94; 0x08; 0xFF] in
  exists response,
    ExplicitServicePacket.from_frame msg_in ExplicitServicePacket.new
    = Ok response
    /\ service_code response = SERVICE.ERROR
    /\ Link.wait_response 0 1 0x14 (Link.mkBus [Some msg_in] [])
       = Ok ([0x08; 0xFF], Link.mkBus [] []).
Proof.
  eexists. split; [vm_compute; reflexivity |].
  split; vm_compute; reflexivity.
Qed.

(** C4, amended: for a received frame that parses as an explicit service
    packet, if its service code is ERROR (0x14) and the requested service
    code is another one, [wait_response] fails with ServiceError carrying the
    first byte of the service data, for a byte of the status table
    0x00..0x2E; and if the requested service code is greater than 0x7F and
    the response is not an error response, it fails with
    ServiceError(INVALID_REPLY_RECEIVED = 0x22). *)
Theorem wait_response_errors (src_addr dst_addr expected_code : Z)
    (msg_in : CanFrame.t) (response : packet)
    (rx' : list (option CanFrame.t)) (tx : list CanFrame.t) :
  ExplicitServicePacket.from_frame msg_in ExplicitServicePacket.new
  = Ok response ->
  let outcome :=
    Link.wait_response src_addr dst_addr expected_code
      (Link.mkBus (Some msg_in :: rx') tx) in
  (service_code response = SERVICE.ERROR ->
   expected_code <> SERVICE.ERROR ->
   forall error rest,
     service_data response = error :: rest -> 0 <= error <= 0x2E ->
     outcome = Raise (CipServiceError error))
  /\ (0x7F < expected_code ->
      service_code response <> SERVICE.ERROR ->
      outcome = Raise (CipServiceError ERROR.INVALID_REPLY_RECEIVED)).
Proof.
  intros Hparse outcome.
  pose proof (from_frame_service_code _ _ _ Hparse) as Hrange.
  unfold outcome, Link.wait_response.
  cbn [Link.wait_response_loop Link.rx Link.tx]. rewrite Hparse.
  cbv beta iota delta [bind]. unfold Link._error, Link._bad_service.
  split.
  - intros Herr Hreq error rest Hdata Hknown. rewrite Herr.
    destruct (Z.eqb_spec SERVICE.ERROR expected_code); [congruence |].
    rewrite Z.eqb_refl, andb_false_r, Hdata. cbn [index nth_error].
    now apply raise_CipServiceError_known.
  - intros Hbad Hnoerr.
    destruct (Z.eqb_spec (service_code response) expected_code); [lia |].
    destruct (Z.eqb_spec (service_code response) SERVICE.ERROR);
      [congruence |].
    destruct (Z.ltb_spec SERVICE.LAST_VALID_CODE expected_code);
      [reflexivity |].
    unfold SERVICE.LAST_VALID_CODE in *. lia.
Qed.

Lemma wait_response_errors_witness :
  let msg_in := CanFrame.mk 0x40B [0x00; 0x94; 0x08; 0xFF] in
  Link.wait_response 0 1 0x0E (Link.mkBus [Some msg_in] [])
  = Raise (CipServiceError 0x08).
Proof.
  intros msg_in.
  let r := eval vm_compute in
             (match ExplicitServicePacket.from_frame msg_in
                      ExplicitServicePacket.new with
              | Ok r => r
              | Raise _ => ExplicitServicePacket.new
              end) in
  pose (response := r).
  assert (Hparse : ExplicitServicePacket.from_frame msg_in
                     ExplicitServicePacket.new = Ok response)
    by (vm_compute; reflexivity).
  assert (Hreq : 0x0E <> SERVICE.ERROR) by discriminate.
  assert (Hknown : 0 <= 0x08 <= 0x2E) by lia.
  exact (proj1 (wait_response_errors 0 1 0x0E msg_in response [] [] Hparse)
           eq_refl Hreq 0x08 [0xFF] eq_refl Hknown).
Defined.




(** ** The wait for a fragment acknowledge *)

Section FragmentAck.

Import Link.

(** A parsed acknowledge keeps the status the constructor gave it: no step
    of [from_frame] assigns [ack_status]. *)
Lemma ack_from_frame_cases (frame : CanFrame.t) :
  (exists r,
     ExplicitFragAckPacket.from_frame frame ExplicitFragAckPacket.new = Ok r
     /\ ack_status r = 0)
  \/ ExplicitFragAckPacket.from_frame frame ExplicitFragAckPacket.new
     = Raise DevNetParsingError.
Proof.
  destruct frame as [id d].
  unfold ExplicitFragAckPacket.from_frame, ExplicitFragPacket.from_frame,
    DeviceNetPacket.parse_can_header.
  cbn [CanFrame.can_id CanFrame.data].
  destruct (Addressing.devnet_addr id) as [[g m] a].
  destruct d as [| b0 [| b1 rest]]; [now right | now right |].
  cbn. unfold ExplicitFragAckPacket.validate. cbn.
  destruct (negb _); [now right |].
  left. eexists. split; reflexivity.
Qed.

Lemma wait_fragment_ack_loop_no_fragment_error (n : nat)
    (msg_in : option CanFrame.t) (b : bus) :
  wait_fragment_ack_loop n msg_in b <> Raise CipFragmentResponseError.
Proof.
  revert msg_in b. induction n as [| n IH]; intros msg_in b;
    [discriminate |].
  cbn [wait_fragment_ack_loop].
  destruct (recv b) as [[frame |] b']; [| apply IH].
  destruct (ack_from_frame_cases frame) as [(r & -> & Hr) | ->];
    cbv beta iota delta [bind]; [| discriminate].
  rewrite Hr. discriminate.
Qed.

(** Two receive attempts without a frame end in NoResponseError. *)
Lemma wait_fragment_ack_no_response (b : bus) :
  rx b = [] \/ rx b = [None] \/ (exists rest, rx b = None :: None :: rest) ->
  wait_fragment_ack b = Raise CipNoResponseError.
Proof.
  destruct b as [rxb txb]. cbn [rx].
  intros [-> | [-> | [rest ->]]]; reflexivity.
Qed.

(** The loop gives up after the second attempt: a frame that would only
    arrive at a third one is not looked at. *)
Lemma wait_fragment_ack_two_attempts (frame : CanFrame.t) :
  wait_fragment_ack (mkBus [None; None; Some frame] [])
  = Raise CipNoResponseError.
Proof. vm_compute. reflexivity. Qed.

End FragmentAck.

(** C6: the acknowledge frame [0x80, 0xC0, 0x01] (type ACK, count 0, status
    byte 1) is accepted by [wait_fragment_ack], which the claim has fail with
    FragmentResponseError; the status byte of a received acknowledge never
    reaches [ack_status], so that [wait_fragment_ack] fails with
    FragmentResponseError on no input at all. *)
Theorem wait_fragment_ack_ignores_status :
  Link.wait_fragment_ack
    (Link.mkBus [Some (CanFrame.mk 0x40B [0x80; 0xC0; 0x01])] [])
  = Ok (Link.mkBus [] [])
  /\ forall b, Link.wait_fragment_ack b <> Raise CipFragmentResponseError.
Proof.
  split; [vm_compute; reflexivity |].
  intros b. unfold Link.wait_fragment_ack.
  pose proof (wait_fragment_ack_loop_no_fragment_error 2 None b) as H.
  destruct (Link.wait_fragment_ack_loop 2 None b) as [[[f |] b'] | e];
    cbv beta iota delta [bind]; try discriminate.
  congruence.
Qed.

(** * Further properties of the packet codec and the link layer *)

(** Brings updates and reads of packet attributes to normal form. *)
Ltac flat :=
  cbn [group_id message_id src_mac dst_mac can_header can_data data
       mac_in_can_id mac_in_message message_header message_body xid
       frag_flag frag_type frag_count frag_header packet_type
       service_header service_code class_id instance_id service_data
       ack_status with_group_id with_message_id with_src_mac with_dst_mac
       with_can_header with_can_data with_data with_mac_in_can_id
       with_mac_in_message with_message_header with_message_body with_xid
       with_frag_flag with_frag_type with_frag_count with_frag_header
       with_packet_type with_service_header with_service_code with_class_id
       with_instance_id with_service_data with_ack_status].

Ltac flat_in H :=
  cbn [group_id message_id src_mac dst_mac can_header can_data data
       mac_in_can_id mac_in_message message_header message_body xid
       frag_flag frag_type frag_count frag_header packet_type
       service_header service_code class_id instance_id service_data
       ack_status with_group_id with_message_id with_src_mac with_dst_mac
       with_can_header with_can_data with_data with_mac_in_can_id
       with_mac_in_message with_message_header with_message_body with_xid
       with_frag_flag with_frag_type with_frag_count with_frag_header
       with_packet_type with_service_header with_service_code with_class_id
       with_instance_id with_service_data with_ack_status] in H.

(** ** What [build_can_header] changes *)

Lemma build_can_header_shape (p : packet) :
  exists h a,
    DeviceNetPacket.build_can_header p
    = with_can_header h (with_mac_in_can_id a p).
Proof.
  destruct p as [g m s d ch cd dt mic mim mh mb xi ff ft fc fh pt sh sc ci ii sd ak].
  unfold DeviceNetPacket.build_can_header. cbn [group_id].
  destruct (g =? MESSAGE.GROUP1.ID); [do 2 eexists; reflexivity |].
  destruct (g =? MESSAGE.GROUP2.ID).
  { cbn [message_id].
    destruct (DeviceNetPacket.in_source_ids m); do 2 eexists; reflexivity. }
  destruct (g =? MESSAGE.GROUP3.ID); [do 2 eexists; reflexivity |].
  destruct (g =? MESSAGE.GROUP4.ID); do 2 eexists; reflexivity.
Qed.

(** The generated identifier is a function of the group, the message id and
    the two MACs, except outside the groups 1..4, where the old identifier
    stays. *)
Lemma build_can_header_same (p q : packet) :
  group_id p = group_id q -> message_id p = message_id q ->
  src_mac p = src_mac q -> dst_mac p = dst_mac q ->
  can_header p = can_header q ->
  can_header (DeviceNetPacket.build_can_header p)
  = can_header (DeviceNetPacket.build_can_header q).
Proof.
  destruct p as [g m s d ch cd dt mic mim mh mb xi ff ft fc fh pt sh sc ci ii sd ak].
  destruct q as [g' m' s' d' ch' cd' dt' mic' mim' mh' mb' xi' ff' ft' fc' fh' pt' sh' sc' ci' ii' sd' ak'].
  cbn [group_id message_id src_mac dst_mac can_header].
  intros -> -> -> -> ->. unfold DeviceNetPacket.build_can_header.
  cbn [group_id message_id].
  destruct (g' =? MESSAGE.GROUP1.ID); [reflexivity |].
  destruct (g' =? MESSAGE.GROUP2.ID).
  { destruct (DeviceNetPacket.in_source_ids m'); reflexivity. }
  destruct (g' =? MESSAGE.GROUP3.ID); [reflexivity |].
  destruct (g' =? MESSAGE.GROUP4.ID); reflexivity.
Qed.

Lemma build_can_header_idem (p : packet) :
  can_header (DeviceNetPacket.build_can_header
                (DeviceNetPacket.build_can_header p))
  = can_header (DeviceNetPacket.build_can_header p).
Proof.
  destruct p as [g m s d ch cd dt mic mim mh mb xi ff ft fc fh pt sh sc ci ii sd ak].
  unfold DeviceNetPacket.build_can_header. flat.
  destruct (g =? MESSAGE.GROUP1.ID) eqn:E1; [flat; now rewrite E1 |].
  destruct (g =? MESSAGE.GROUP2.ID) eqn:E2.
  { destruct (DeviceNetPacket.in_source_ids m) eqn:E;
      flat; now rewrite E1, E2, E. }
  destruct (g =? MESSAGE.GROUP3.ID) eqn:E3;
    [flat; now rewrite E1, E2, E3 |].
  destruct (g =? MESSAGE.GROUP4.ID) eqn:E4;
    flat; now rewrite E1, E2, E3, E4.
Qed.

(** ** The frames of the fragments *)

Lemma build_can_header_fields (p : packet) :
  let q := DeviceNetPacket.build_can_header p in
  group_id q = group_id p /\ message_id q = message_id p
  /\ src_mac q = src_mac p /\ dst_mac q = dst_mac p.
Proof.
  destruct (build_can_header_shape p) as (h & a & E).
  cbv zeta. rewrite E.
  destruct p as [g m s d ch cd dt mic mim mh mb xi ff ft fc fh pt sh sc ci ii sd ak].
  repeat split; reflexivity.
Qed.

Lemma explicit_frag_build (p : packet) :
  frag_flag p = 1 -> xid p = 0 -> mac_in_message p = 0 ->
  ExplicitFragPacket.build p = Ok (explicit_frag_built p).
Proof.
  intros Hf Hx Hm.
  destruct (build_can_header_shape p) as (h & a & E).
  unfold ExplicitFragPacket.build, explicit_frag_built. rewrite E. clear E.
  destruct p as [g m s d ch cd dt mic mim mh mb xi ff ft fc fh pt sh sc ci ii sd ak].
  flat_in Hf. flat_in Hx. flat_in Hm. subst.
  reflexivity.
Qed.

Lemma explicit_frag_built_fields (p : packet) :
  let q := explicit_frag_built p in
  (group_id q = group_id p /\ message_id q = message_id p
   /\ src_mac q = src_mac p /\ dst_mac q = dst_mac p)
  /\ (frag_flag q = frag_flag p /\ xid q = xid p
      /\ mac_in_message q = mac_in_message p)
  /\ (frag_type q = frag_type p /\ frag_count q = frag_count p
      /\ data q = data p)
  /\ can_header q = can_header (DeviceNetPacket.build_can_header p)
  /\ can_data q
     = [0x80; Z.shiftl (frag_type p) 6 + frag_count p] ++ data p.
Proof.
  destruct (build_can_header_shape p) as (h & a & E).
  cbv zeta. unfold explicit_frag_built. rewrite E.
  destruct p as [g m s d ch cd dt mic mim mh mb xi ff ft fc fh pt sh sc ci ii sd ak].
  repeat split; reflexivity.
Qed.

Lemma explicit_frag_to_frame (fc : frame_class) (p : packet) :
  frag_flag p = 1 -> xid p = 0 -> mac_in_message p = 0 ->
  ExplicitFragPacket.to_frame fc p
  = fc (can_header (explicit_frag_built p)) (can_data (explicit_frag_built p)).
Proof.
  intros Hf Hx Hm.
  unfold ExplicitFragPacket.to_frame, DeviceNetPacket.to_frame.
  now rewrite explicit_frag_build.
Qed.

(** Building a fragment and making its frame: the frame class is called
    with the identifier of the addressing fields and with the message header
    with the fragment flag, the fragment header and the block. *)
Lemma explicit_frag_frame (fc : frame_class) (g m s d c t : Z)
    (blk : list Z) :
  (let* f := ExplicitFragPacket.build
               (ExplicitFragPacket.init g m s d c t blk) in
   ExplicitFragPacket.to_frame fc f)
  = fc (can_header
          (DeviceNetPacket.build_can_header
             (ExplicitFragPacket.init g m s d c t blk)))
       ([0x80; Z.shiftl t 6 + c] ++ blk).
Proof.
  set (p0 := ExplicitFragPacket.init g m s d c t blk).
  assert (Hflag : frag_flag p0 = 1) by reflexivity.
  assert (Hxid : xid p0 = 0) by reflexivity.
  assert (Hmac : mac_in_message p0 = 0) by reflexivity.
  assert (Htype : frag_type p0 = t) by reflexivity.
  assert (Hcount : frag_count p0 = c) by reflexivity.
  assert (Hdata : data p0 = blk) by reflexivity.
  clearbody p0.
  rewrite explicit_frag_build by assumption.
  cbv beta iota delta [bind].
  destruct (explicit_frag_built_fields p0)
    as ((Hg & Hmi & Hs & Hd) & (Hf1 & Hx1 & Hm1) & (Ht1 & Hc1 & Hd1)
        & Hh1 & _).
  rewrite explicit_frag_to_frame by congruence.
  destruct (explicit_frag_built_fields (explicit_frag_built p0))
    as (_ & _ & _ & Hh2 & Hcd2).
  destruct (build_can_header_fields p0) as (Bg & Bm & Bs & Bd).
  rewrite Hh2, Hcd2, Ht1, Hc1, Hd1, Htype, Hcount, Hdata.
  rewrite <- (build_can_header_idem p0). f_equal.
  apply build_can_header_same; congruence.
Qed.

(** ** Loops and blocks *)

Lemma for_each_map {A B : Type} (f : A -> result B) (g : A -> B)
    (l : list A) :
  (forall x, In x l -> f x = Ok (g x)) -> for_each f l = Ok (map g l).
Proof.
  induction l as [| x l IH]; intros H; [reflexivity |].
  cbn [for_each map]. rewrite (H x (or_introl eq_refl)).
  cbv beta iota delta [bind]. rewrite IH; [reflexivity |].
  intros y Hy. apply H. now right.
Qed.

Lemma in_range_nat (n i : nat) : In i (range n) <-> (i < n)%nat.
Proof. unfold range. rewrite in_seq. lia. Qed.

Lemma fragments_needed_ceil (len k : nat) :
  (0 < k)%nat -> fragments_needed len k = ceil_div len k.
Proof.
  intros Hk. unfold fragments_needed, ceil_div.
  pose proof (Nat.div_mod_eq len k) as E.
  pose proof (Nat.mod_upper_bound len k ltac:(lia)) as B.
  destruct (Nat.eqb_spec (len mod k) 0) as [Hz | Hnz]; cbn [negb].
  - apply (Nat.div_unique _ _ _ (k - 1)); lia.
  - apply (Nat.div_unique _ _ _ (len mod k - 1)); lia.
Qed.

Lemma ceil_div_covers (len k : nat) :
  (0 < k)%nat -> (len <= ceil_div len k * k)%nat.
Proof.
  intros Hk. unfold ceil_div.
  pose proof (Nat.div_mod_eq (len + k - 1) k) as E.
  pose proof (Nat.mod_upper_bound (len + k - 1) k ltac:(lia)) as B.
  nia.
Qed.

Lemma ceil_div_lower (len k j : nat) :
  (0 < k)%nat -> (j * k < len)%nat -> (j < ceil_div len k)%nat.
Proof.
  intros Hk Hj. unfold ceil_div.
  pose proof (Nat.div_mod_eq (len + k - 1) k) as E.
  pose proof (Nat.mod_upper_bound (len + k - 1) k ltac:(lia)) as B.
  nia.
Qed.

Lemma slice_length {A : Type} (l : list A) (a b : nat) :
  (List.length (slice l a b) <= b - a)%nat.
Proof. unfold slice. rewrite length_firstn. lia. Qed.

(** Consecutive blocks of [k] items put the list together again. *)
Lemma blocks_concat {A : Type} (k n : nat) (l : list A) :
  (List.length l <= n * k)%nat ->
  concat (map (fun i => slice l (i * k) ((i + 1) * k)) (range n)) = l.
Proof.
  unfold range. revert l. induction n as [| n IH]; intros l Hl.
  - destruct l; [reflexivity | cbn in Hl; lia].
  - cbn [seq map concat]. rewrite <- seq_shift, map_map.
    transitivity (firstn k l ++ skipn k l); [| apply firstn_skipn].
    f_equal.
    + unfold slice. cbn [Nat.mul skipn]. f_equal. lia.
    + rewrite <- (IH (skipn k l)) by (rewrite length_skipn; lia).
      f_equal. apply map_ext. intros i. unfold slice.
      rewrite skipn_skipn. f_equal; [lia | f_equal; lia].
Qed.

(** ** Splitting an explicit service message *)

(** What [build] makes of a packet fresh from the constructor. *)
Lemma service_build_fields (g m s d pt sc cid iid : Z) (sdata : list Z)
    (built : packet) :
  ExplicitServicePacket.build
    (ExplicitServicePacket.init g m s d pt sc cid iid sdata) = Ok built ->
  (group_id built = g /\ message_id built = m
   /\ src_mac built = s /\ dst_mac built = d)
  /\ data built = (Z.shiftl pt 7 + sc) :: cid :: iid :: sdata
  /\ can_data built = 0 :: data built
  /\ can_header built
     = can_header (DeviceNetPacket.build_can_header
                     (ExplicitServicePacket.init g m s d pt sc cid iid sdata))
  /\ 0 <= Z.shiftl pt 7 + sc <= 0xFF.
Proof.
  intros H.
  assert (Einit : ExplicitServicePacket.init g m s d pt sc cid iid sdata
                  = mkPacket g m s d 0 [] [] 0 0 0 [] 0 0 0 0 0 pt 0 sc cid
                      iid sdata 0) by reflexivity.
  rewrite Einit in *. clear Einit.
  unfold ExplicitServicePacket.build in H.
  match type of H with
  | context [ExplicitPacket.generate_message_header ?p] =>
      assert (E0 : ExplicitPacket.generate_message_header p = Ok p)
        by (vm_compute; reflexivity);
      rewrite E0 in H; clear E0
  end.
  cbv beta iota delta [bind] in H.
  unfold ExplicitServicePacket.generate_message_body,
    ExplicitServicePacket.generate_service_header,
    ExplicitServicePacket.set_service_header,
    ExplicitServicePacket.rr_flag in H.
  flat_in H. change PACKET.RSP_FLAG.OFFSET with 7 in H.
  destruct (checked 0 255 (Z.shiftl pt 7)) as [v1 |] eqn:E1;
    [| discriminate H].
  apply checked_Ok in E1 as [-> _].
  cbv beta iota delta [bind] in H. flat_in H.
  destruct (checked 0 255 (Z.shiftl pt 7 + sc)) as [v2 |] eqn:E2;
    [| discriminate H].
  apply checked_Ok in E2 as [-> Hrange].
  cbv beta iota delta [bind] in H.
  unfold ExplicitPacket.set_message_body in H. flat_in H.
  cbn [app] in H.
  match type of H with
  | context [DeviceNetPacket.build_can_header ?q] =>
      assert (Ehdr : can_header (DeviceNetPacket.build_can_header q)
                     = can_header
                         (DeviceNetPacket.build_can_header
                            (mkPacket g m s d 0 [] [] 0 0 0 [] 0 0 0 0 0 pt 0
                               sc cid iid sdata 0)))
        by (apply build_can_header_same; reflexivity);
      rewrite <- Ehdr; clear Ehdr;
      destruct (build_can_header_shape q) as (h & a & E);
      rewrite E in H |- *; clear E
  end.
  unfold DeviceNetPacket.set_can_data in H. cbn [fold_left app] in H.
  flat_in H. apply Ok_inj in H. subst built. flat.
  repeat split; try reflexivity; lia.
Qed.

Lemma frag_header_same_as_service (g m s d pt sc cid iid c t : Z)
    (sdata blk : list Z) :
  can_header (DeviceNetPacket.build_can_header
                (ExplicitFragPacket.init g m s d c t blk))
  = can_header (DeviceNetPacket.build_can_header
                  (ExplicitServicePacket.init g m s d pt sc cid iid sdata)).
Proof.
  apply build_can_header_same.
  all: match goal with
       | |- ?f ?x = ?f ?y =>
           let a := eval vm_compute in (f x) in
           transitivity a; [vm_compute; reflexivity | vm_compute; reflexivity]
       end.
Qed.

(** The type [split] gives the fragment of index [i] among [n]. *)
Lemma explicit_fragment_at (p : packet) (n i : nat) :
  (i < n)%nat ->
  ExplicitServicePacket.fragment p n i
  = ExplicitFragPacket.build
      (ExplicitFragPacket.init (group_id p) (message_id p) (src_mac p)
         (dst_mac p) (Z.of_nat i) (fragment_type_at n i)
         (slice (data p) (i * 6) ((i + 1) * 6))).
Proof.
  intros Hi. unfold ExplicitServicePacket.fragment, fragment_type_at.
  destruct (Z.eqb_spec (Z.of_nat i) 0) as [Hz | Hnz].
  - destruct (Nat.eqb_spec i 0); [reflexivity | lia].
  - destruct (Nat.eqb_spec i 0); [lia |].
    destruct (Nat.eqb_spec i (n - 1)) as [Hl | Hnl].
    + destruct (Z.ltb_spec (Z.of_nat i) (Z.of_nat n - 1)); [lia |].
      rewrite andb_false_r.
      destruct (Z.eqb_spec (Z.of_nat i) (Z.of_nat n - 1)); [reflexivity | lia].
    + destruct (Z.ltb_spec 0 (Z.of_nat i)); [| lia].
      destruct (Z.ltb_spec (Z.of_nat i) (Z.of_nat n - 1)); [reflexivity | lia].
Qed.

(** A loop that fails at its first item. *)
Lemma for_each_raises {A B : Type} (f : A -> result B) (x : A) (l : list A)
    (e : exn) :
  f x = Raise e -> for_each f (x :: l) = Raise e.
Proof. intros H. cbn [for_each]. now rewrite H. Qed.

(** The frame of fragment [i] among [n] fragments of an explicit service
    message, for a frame class that the call of [to_frame] names. *)
Lemma explicit_fragment_frame (fc : frame_class)
    (g m s d pt sc cid iid : Z) (sdata : list Z) (built : packet)
    (n i : nat) :
  ExplicitServicePacket.build
    (ExplicitServicePacket.init g m s d pt sc cid iid sdata) = Ok built ->
  (i < n)%nat ->
  (let* fragment := ExplicitServicePacket.fragment built n i in
   ExplicitFragPacket.to_frame fc fragment)
  = fc (can_header built)
      ([0x80; Z.shiftl (fragment_type_at n i) 6 + Z.of_nat i]
       ++ slice (data built) (i * 6) ((i + 1) * 6)).
Proof.
  intros Hbuild Hi.
  destruct (service_build_fields _ _ _ _ _ _ _ _ _ _ Hbuild)
    as ((Hg & Hm & Hs & Hd) & Hdata & Hcd & Hhdr & Hrange).
  rewrite explicit_fragment_at by exact Hi.
  rewrite Hg, Hm, Hs, Hd, explicit_frag_frame.
  rewrite (frag_header_same_as_service g m s d pt sc cid iid _ _ sdata),
    <- Hhdr.
  reflexivity.
Qed.

(** X1: the fragments which the loop of [ExplicitServicePacket.split]
    constructs for an explicit service message made by the constructor,
    built, and longer than a CAN frame.  The loop runs over ceil(L / 6)
    indices, two at least, where L counts the service header, class,
    instance and service data.  The fragment object of index [i], when its
    [to_frame] is handed a frame class, calls that class with the identifier
    of the message and with the message header 0x80, the fragment header
    (type << 6) + i, with type START for the first, FINAL for the last and
    MIDDLE between, then block [i] of at most 6 payload bytes; the blocks put
    together are the payload. *)
Theorem explicit_split_fragments (g m s d pt sc cid iid : Z)
    (sdata : list Z) (built : packet) :
  ExplicitServicePacket.build
    (ExplicitServicePacket.init g m s d pt sc cid iid sdata) = Ok built ->
  (8 < DeviceNetPacket.length built)%nat ->
  let payload := data built in
  let n := ceil_div (List.length payload) 6 in
  let block i := slice payload (i * 6) ((i + 1) * 6) in
  payload = (Z.shiftl pt 7 + sc) :: cid :: iid :: sdata
  /\ (2 <= n)%nat
  /\ fragments_needed (List.length payload) 6 = n
  /\ (forall (frame_class : frame_class) (i : nat), (i < n)%nat ->
        (let* fragment := ExplicitServicePacket.fragment built n i in
         ExplicitFragPacket.to_frame frame_class fragment)
        = frame_class (can_header built)
            ([0x80; Z.shiftl (fragment_type_at n i) 6 + Z.of_nat i]
             ++ block i))
  /\ concat (map block (range n)) = payload
  /\ (forall i, (List.length (block i) <= 6)%nat).
Proof.
  intros Hbuild Hlen payload n block.
  destruct (service_build_fields _ _ _ _ _ _ _ _ _ _ Hbuild)
    as ((Hg & Hm & Hs & Hd) & Hdata & Hcd & Hhdr & Hrange).
  unfold DeviceNetPacket.length in Hlen.
  assert (Hpl : (8 <= List.length payload)%nat).
  { rewrite Hcd in Hlen. cbn [List.length] in Hlen. unfold payload. lia. }
  split; [exact Hdata |].
  split; [apply (ceil_div_lower _ 6 1); lia |].
  split; [apply fragments_needed_ceil; lia |].
  split; [| split].
  - intros fc i Hi.
    exact (explicit_fragment_frame fc _ _ _ _ _ _ _ _ _ _ n i Hbuild Hi).
  - apply blocks_concat. apply ceil_div_covers. lia.
  - intros i. unfold block.
    pose proof (slice_length payload (i * 6) ((i + 1) * 6)). lia.
Qed.

Lemma explicit_split_fragments_witness :
  let sdata := [1; 2; 3; 4; 5; 6; 7; 8; 9] in
  let built :=
    match ExplicitServicePacket.build
            (ExplicitServicePacket.init 2 4 0 1 0 0x10 1 1 sdata) with
    | Ok built => built
    | Raise _ => ExplicitServicePacket.new
    end in
  (let* fragment := ExplicitServicePacket.fragment built 2 1 in
   ExplicitFragPacket.to_frame StoredFrame fragment)
  = Ok (CanFrame.mk 0x40C [0x80; 0x81; 4; 5; 6; 7; 8; 9]).
Proof.
  intros sdata.
  let r := eval vm_compute in
             (match ExplicitServicePacket.build
                      (ExplicitServicePacket.init 2 4 0 1 0 0x10 1 1 sdata)
              with
              | Ok built => built
              | Raise _ => ExplicitServicePacket.new
              end) in
  change (match ExplicitServicePacket.build
                  (ExplicitServicePacket.init 2 4 0 1 0 0x10 1 1 sdata) with
          | Ok built => built
          | Raise _ => ExplicitServicePacket.new
          end) with r;
  pose (built := r).
  cbv zeta.
  assert (Hbuild : ExplicitServicePacket.build
                     (ExplicitServicePacket.init 2 4 0 1 0 0x10 1 1 sdata)
                   = Ok built) by (vm_compute; reflexivity).
  assert (Hlen : (8 < DeviceNetPacket.length built)%nat)
    by (vm_compute; lia).
  exact (proj1 (proj2 (proj2 (proj2
           (explicit_split_fragments 2 4 0 1 0 0x10 1 1 sdata built Hbuild
              Hlen))))
           StoredFrame 1%nat ltac:(vm_compute; lia)).
Defined.

(** ** Splitting an I/O message *)

(** Evaluates the tests on a known group and the binds around them, and
    brings the packet to its record form. *)
Ltac io_step :=
  cbv beta iota zeta delta [group_id message_id src_mac dst_mac can_header
       can_data data mac_in_can_id mac_in_message message_header
       message_body xid frag_flag frag_type frag_count frag_header
       packet_type service_header service_code class_id instance_id
       service_data ack_status with_group_id with_message_id with_src_mac
       with_dst_mac with_can_header with_can_data with_data
       with_mac_in_can_id with_mac_in_message with_message_header
       with_message_body with_xid with_frag_flag with_frag_type
       with_frag_count with_frag_header with_packet_type
       with_service_header with_service_code with_class_id with_instance_id
       with_service_data with_ack_status Z.eqb Pos.eqb orb andb negb bind
       MESSAGE.GROUP1.ID MESSAGE.GROUP2.ID MESSAGE.GROUP3.ID
       MESSAGE.GROUP4.ID].

Lemma io_frag_build (p : packet) :
  Addressing.valid_triple (group_id p) (message_id p) (src_mac p) = true ->
  0 <= dst_mac p < 64 -> 0 <= mac_in_can_id p < 64 ->
  let hdr := Z.shiftl (frag_type p) 6 + Z.land (frag_count p) 0x3F in
  exists a,
    0 <= a < 64
    /\ IoFragPacket.build p
       = Ok (with_can_data ([hdr] ++ data p)
               (with_frag_header hdr
                  (with_can_header
                     (can_header (DeviceNetPacket.build_can_header p))
                     (with_mac_in_can_id a p)))).
Proof.
  destruct p as [g m s d ch cd dt mic mim mh mb xi ff ft fc fh pt sh sc ci ii
                 sd ak].
  flat. unfold Addressing.valid_triple.
  rewrite andb_true_iff, !orb_true_iff, !andb_true_iff, !Z.eqb_eq,
    !in_range_true.
  intros [Hs Hgm] Hd Hmic.
  unfold IoFragPacket.build, IoFragPacket.clear,
    DeviceNetPacket.set_group_id, DeviceNetPacket.set_message_id,
    DeviceNetPacket.set_src_mac, DeviceNetPacket.set_dst_mac,
    DeviceNetPacket.update_can_header, DeviceNetPacket.build_can_header,
    IoFragPacket.set_frag_type, IoFragPacket.set_frag_count,
    IoFragPacket.set_app_data, FragHeaderMixin.FRAG_TYPE_OFFSET,
    FragHeaderMixin.FRAG_COUNT_MASK, CAN_ID.GROUP1.START,
    CAN_ID.GROUP2.START, CAN_ID.GROUP3.START, CAN_ID.GROUP4.START,
    CAN_ID.GROUP1.MSG_ID_OFFSET, CAN_ID.GROUP2.MAC_OFFSET,
    CAN_ID.GROUP3.MSG_ID_OFFSET.
  destruct Hgm as [[[[-> Hm] | [-> Hm]] | [-> Hm]] | [-> Hm]].
  - exists s. split; [lia |]. io_step.
    rewrite (can_addr_group1 m mic) by lia. io_step.
    rewrite (can_addr_group1 m mic) by lia. io_step.
    rewrite (can_addr_group1 m s) by lia. io_step.
    rewrite (can_addr_group1 m s) by lia. io_step.
    cbn [setitem]. io_step. reflexivity.
  - destruct (DeviceNetPacket.in_source_ids m) eqn:Hin.
    + exists s. split; [lia |]. io_step.
      rewrite (can_addr_group2 m mic) by lia. io_step.
      rewrite (can_addr_group2 m mic) by lia. io_step. rewrite Hin. io_step.
      rewrite (can_addr_group2 m s) by lia. io_step. rewrite Hin. io_step.
      rewrite (can_addr_group2 m s) by lia. io_step.
      cbn [setitem]. io_step. reflexivity.
    + exists d. split; [lia |]. io_step.
      rewrite (can_addr_group2 m mic) by lia. io_step.
      rewrite (can_addr_group2 m mic) by lia. io_step. rewrite Hin. io_step.
      rewrite (can_addr_group2 m mic) by lia. io_step. rewrite Hin. io_step.
      rewrite (can_addr_group2 m d) by lia. io_step.
      cbn [setitem]. io_step. reflexivity.
  - exists s. split; [lia |]. io_step.
    rewrite (can_addr_group3 m mic) by lia. io_step.
    rewrite (can_addr_group3 m mic) by lia. io_step.
    rewrite (can_addr_group3 m s) by lia. io_step.
    rewrite (can_addr_group3 m s) by lia. io_step.
    cbn [setitem]. io_step. reflexivity.
  - exists mic. split; [lia |]. io_step.
    rewrite (can_addr_group4 m mic) by lia. io_step.
    rewrite (can_addr_group4 m mic) by lia. io_step.
    rewrite (can_addr_group4 m mic) by lia. io_step.
    rewrite (can_addr_group4 m mic) by lia. io_step.
    cbn [setitem]. io_step. reflexivity.
Qed.

Lemma io_frag_frame (fc : frame_class) (g m s d c t : Z) (blk : list Z) :
  Addressing.valid_triple g m s = true -> 0 <= d < 64 ->
  (let* f := IoFragPacket.build (IoFragPacket.init g m s d c t blk) in
   IoFragPacket.to_frame fc f)
  = fc (can_header
          (DeviceNetPacket.build_can_header
             (IoFragPacket.init g m s d c t blk)))
       ([Z.shiftl t 6 + Z.land c 0x3F] ++ blk).
Proof.
  intros Hv Hd.
  assert (Einit : IoFragPacket.init g m s d c t blk
                  = mkPacket g m s d 0 [] blk 0 0 0 [] 0 0 t c 0 0 0 0 0 0
                      [] 0) by reflexivity.
  rewrite Einit. clear Einit.
  destruct (io_frag_build
              (mkPacket g m s d 0 [] blk 0 0 0 [] 0 0 t c 0 0 0 0 0 0 [] 0)
              Hv Hd ltac:(cbn; lia)) as (a & Ha & E).
  rewrite E. clear E.
  destruct (build_can_header_fields
              (mkPacket g m s d 0 [] blk 0 0 0 [] 0 0 t c 0 0 0 0 0 0 [] 0))
    as (Bg & Bm & Bs & Bd).
  pose proof (build_can_header_idem
                (mkPacket g m s d 0 [] blk 0 0 0 [] 0 0 t c 0 0 0 0 0 0 [] 0))
    as Hidem.
  cbv zeta in Bg, Bm, Bs, Bd. cbn [group_id message_id src_mac dst_mac] in *.
  remember (DeviceNetPacket.build_can_header
              (mkPacket g m s d 0 [] blk 0 0 0 [] 0 0 t c 0 0 0 0 0 0 [] 0))
    as b0 eqn:Eb0.
  clear Eb0. remember (can_header b0) as h eqn:Eh0.
  unfold IoFragPacket.to_frame, DeviceNetPacket.to_frame. io_step.
  match goal with
  | |- context [IoFragPacket.build ?q] =>
      destruct (io_frag_build q Hv Hd ltac:(cbn; lia)) as (a' & Ha' & E);
      assert (Eh : can_header (DeviceNetPacket.build_can_header q) = h)
        by (transitivity
              (can_header (DeviceNetPacket.build_can_header b0));
            [ apply build_can_header_same;
              cbn [group_id message_id src_mac dst_mac can_header];
              congruence
            | exact Hidem ]);
      rewrite E, Eh; clear E
  end.
  io_step. reflexivity.
Qed.

Lemma io_build_fields (g m s d : Z) (payload : list Z) (built : packet) :
  IoPacket.build (IoPacket.init g m s d payload) = Ok built ->
  (group_id built = g /\ message_id built = m
   /\ src_mac built = s /\ dst_mac built = d)
  /\ data built = payload
  /\ can_data built = payload
  /\ can_header built
     = can_header (DeviceNetPacket.build_can_header
                     (IoPacket.init g m s d payload)).
Proof.
  assert (Einit : IoPacket.init g m s d payload
                  = mkPacket g m s d 0 [] payload 0 0 0 [] 0 0 0 0 0 0 0 0 0
                      0 [] 0) by reflexivity.
  rewrite Einit. clear Einit. unfold IoPacket.build.
  destruct (build_can_header_shape
              (mkPacket g m s d 0 [] payload 0 0 0 [] 0 0 0 0 0 0 0 0 0 0 []
                 0)) as (h & a & E).
  rewrite E. clear E.
  unfold DeviceNetPacket.set_can_data. cbn [fold_left app]. flat.
  intros <-%Ok_inj. flat. repeat split; reflexivity.
Qed.

Lemma io_fragment_at (p : packet) (n i : nat) :
  (i < n)%nat ->
  IoPacketFragmentation.fragment p n i
  = IoFragPacket.build
      (IoFragPacket.init (group_id p) (message_id p) (src_mac p)
         (dst_mac p) (Z.of_nat i) (fragment_type_at n i)
         (slice (data p) (i * 7) ((i + 1) * 7))).
Proof.
  intros Hi. unfold IoPacketFragmentation.fragment, fragment_type_at.
  destruct (Z.eqb_spec (Z.of_nat i) 0) as [Hz | Hnz].
  - destruct (Nat.eqb_spec i 0); [reflexivity | lia].
  - destruct (Nat.eqb_spec i 0); [lia |].
    destruct (Nat.eqb_spec i (n - 1)) as [Hl | Hnl].
    + destruct (Z.ltb_spec (Z.of_nat i) (Z.of_nat n - 1)); [lia |].
      rewrite andb_false_r.
      destruct (Z.eqb_spec (Z.of_nat i) (Z.of_nat n - 1)); [reflexivity | lia].
    + destruct (Z.ltb_spec 0 (Z.of_nat i)); [| lia].
      destruct (Z.ltb_spec (Z.of_nat i) (Z.of_nat n - 1)); [reflexivity | lia].
Qed.

Lemma io_frag_header_same (g m s d c t : Z) (payload blk : list Z) :
  can_header (DeviceNetPacket.build_can_header
                (IoFragPacket.init g m s d c t blk))
  = can_header (DeviceNetPacket.build_can_header
                  (IoPacket.init g m s d payload)).
Proof.
  apply build_can_header_same.
  all: match goal with
       | |- ?f ?x = ?f ?y =>
           let a := eval vm_compute in (f x) in
           transitivity a; [vm_compute; reflexivity | vm_compute; reflexivity]
       end.
Qed.

(** The frame of fragment [i] among [n] fragments of an I/O message, for a
    frame class that the call of [to_frame] names. *)
Lemma io_fragment_frame (fc : frame_class) (g m s d : Z) (payload : list Z)
    (built : packet) (n i : nat) :
  Addressing.valid_triple g m s = true -> 0 <= d < 64 ->
  IoPacket.build (IoPacket.init g m s d payload) = Ok built ->
  (i < n)%nat ->
  (let* fragment := IoPacketFragmentation.fragment built n i in
   IoFragPacket.to_frame fc fragment)
  = fc (can_header built)
      ([Z.shiftl (fragment_type_at n i) 6 + Z.land (Z.of_nat i) 0x3F]
       ++ slice payload (i * 7) ((i + 1) * 7)).
Proof.
  intros Hv Hdst Hbuild Hi.
  destruct (io_build_fields _ _ _ _ _ _ Hbuild)
    as ((Hg & Hm & Hs & Hd) & Hdata & Hcd & Hhdr).
  rewrite io_fragment_at by exact Hi.
  rewrite Hg, Hm, Hs, Hd, Hdata, io_frag_frame by assumption.
  rewrite (io_frag_header_same g m s d _ _ payload), <- Hhdr.
  reflexivity.
Qed.

(** X2: the fragments which the loop of [IoPacket.split] constructs for an
    I/O message made by the constructor with a valid addressing triple and a
    6-bit destination MAC, built, and longer than a CAN frame.  The loop runs
    over ceil(L / 7) indices, two at least.  The fragment object of index
    [i], when its [to_frame] is handed a frame class, calls that class with
    the identifier of the message and with the fragment header
    (type << 6) + (i & 0x3F), with type START for the first, FINAL for the
    last and MIDDLE between, then block [i] of at most 7 payload bytes; the
    blocks put together are the payload. *)
Theorem io_split_fragments (g m s d : Z) (payload : list Z)
    (built : packet) :
  Addressing.valid_triple g m s = true -> 0 <= d < 64 ->
  IoPacket.build (IoPacket.init g m s d payload) = Ok built ->
  (8 < DeviceNetPacket.length built)%nat ->
  let n := ceil_div (List.length payload) 7 in
  let block i := slice payload (i * 7) ((i + 1) * 7) in
  (2 <= n)%nat
  /\ fragments_needed (List.length (data built)) 7 = n
  /\ (forall (frame_class : frame_class) (i : nat), (i < n)%nat ->
        (let* fragment := IoPacketFragmentation.fragment built n i in
         IoFragPacket.to_frame frame_class fragment)
        = frame_class (can_header built)
            ([Z.shiftl (fragment_type_at n i) 6 + Z.land (Z.of_nat i) 0x3F]
             ++ block i))
  /\ concat (map block (range n)) = payload
  /\ (forall i, (List.length (block i) <= 7)%nat).
Proof.
  intros Hv Hdst Hbuild Hlen n block.
  destruct (io_build_fields _ _ _ _ _ _ Hbuild)
    as ((Hg & Hm & Hs & Hd) & Hdata & Hcd & Hhdr).
  unfold DeviceNetPacket.length in Hlen. rewrite Hcd in Hlen.
  split; [apply (ceil_div_lower _ 7 1); lia |].
  split; [rewrite Hdata; apply fragments_needed_ceil; lia |].
  split; [| split].
  - intros fc i Hi.
    exact (io_fragment_frame fc g m s d payload built n i Hv Hdst Hbuild Hi).
  - apply blocks_concat. apply ceil_div_covers. lia.
  - intros i. unfold block.
    pose proof (slice_length payload (i * 7) ((i + 1) * 7)). lia.
Qed.

Lemma io_split_fragments_witness :
  let payload := [1; 2; 3; 4; 5; 6; 7; 8; 9; 10; 11; 12; 13; 14; 15] in
  let built :=
    match IoPacket.build (IoPacket.init 2 5 0 1 payload) with
    | Ok built => built
    | Raise _ => IoPacket.init 2 5 0 1 payload
    end in
  (let* fragment := IoPacketFragmentation.fragment built 3 2 in
   IoFragPacket.to_frame StoredFrame fragment)
  = Ok (CanFrame.mk 0x40D [0x82; 15]).
Proof.
  intros payload.
  let r := eval vm_compute in
             (match IoPacket.build (IoPacket.init 2 5 0 1 payload) with
              | Ok built => built
              | Raise _ => IoPacket.init 2 5 0 1 payload
              end) in
  change (match IoPacket.build (IoPacket.init 2 5 0 1 payload) with
          | Ok built => built
          | Raise _ => IoPacket.init 2 5 0 1 payload
          end) with r;
  pose (built := r).
  cbv zeta.
  assert (Hv : Addressing.valid_triple 2 5 0 = true) by reflexivity.
  assert (Hd : 0 <= 1 < 64) by lia.
  assert (Hbuild : IoPacket.build (IoPacket.init 2 5 0 1 payload) = Ok built)
    by (vm_compute; reflexivity).
  assert (Hlen : (8 < DeviceNetPacket.length built)%nat)
    by (vm_compute; lia).
  exact (proj1 (proj2 (proj2
           (io_split_fragments 2 5 0 1 payload built Hv Hd Hbuild Hlen)))
           StoredFrame 2%nat ltac:(vm_compute; lia)).
Defined.

(** ** What [split] does without a frame class *)

Lemma explicit_split_raises (g m s d pt sc cid iid : Z) (sdata : list Z)
    (built : packet) :
  ExplicitServicePacket.build
    (ExplicitServicePacket.init g m s d pt sc cid iid sdata) = Ok built ->
  (8 < DeviceNetPacket.length built)%nat ->
  ExplicitServicePacket.split built = Raise TypeError.
Proof.
  intros Hbuild Hlen.
  destruct (service_build_fields _ _ _ _ _ _ _ _ _ _ Hbuild)
    as (_ & Hdata & Hcd & _).
  unfold ExplicitServicePacket.split.
  destruct (Nat.ltb_spec 8 (DeviceNetPacket.length built)); [| lia].
  unfold DeviceNetPacket.length in Hlen. rewrite Hcd in Hlen.
  cbn [List.length] in Hlen.
  rewrite fragments_needed_ceil by lia.
  pose proof (ceil_div_lower (List.length (data built)) 6 0 ltac:(lia)
                ltac:(lia)) as Hn.
  destruct (ceil_div (List.length (data built)) 6) as [| n'] eqn:En;
    [lia |].
  unfold range. cbn [seq]. apply for_each_raises.
  exact (explicit_fragment_frame CanFrameAbc _ _ _ _ _ _ _ _ _ _ (S n')
           0%nat Hbuild ltac:(lia)).
Qed.

Lemma io_split_raises (g m s d : Z) (payload : list Z) (built : packet) :
  Addressing.valid_triple g m s = true -> 0 <= d < 64 ->
  IoPacket.build (IoPacket.init g m s d payload) = Ok built ->
  (8 < DeviceNetPacket.length built)%nat ->
  IoPacketFragmentation.split built = Raise TypeError.
Proof.
  intros Hv Hdst Hbuild Hlen.
  destruct (io_build_fields _ _ _ _ _ _ Hbuild) as (_ & Hdata & Hcd & _).
  unfold IoPacketFragmentation.split.
  destruct (Nat.ltb_spec 8 (DeviceNetPacket.length built)); [| lia].
  unfold DeviceNetPacket.length in Hlen. rewrite Hcd in Hlen.
  rewrite fragments_needed_ceil by lia.
  pose proof (ceil_div_lower (List.length (data built)) 7 0 ltac:(lia)
                ltac:(rewrite Hdata; lia)) as Hn.
  destruct (ceil_div (List.length (data built)) 7) as [| n'] eqn:En;
    [lia |].
  unfold range. cbn [seq]. apply for_each_raises.
  exact (io_fragment_frame CanFrameAbc g m s d payload built (S n')
           0%nat Hv Hdst Hbuild ltac:(lia)).
Qed.

(** C2: [split] makes the frame of each fragment with [fragment.to_frame()],
    a call that names no frame class, so the abstract default [CanFrameAbc]
    is called and refuses.  For an explicit service message made by the
    constructor, built, and longer than a CAN frame, and for such an I/O
    message with a valid addressing triple and a 6-bit destination MAC,
    [split] raises TypeError at its first fragment instead of returning the
    ceil(L / 6) or ceil(L / 7) frames. *)
Theorem split_raises (g m s d pt sc cid iid : Z) (sdata payload : list Z)
    (built io_built : packet) :
  (ExplicitServicePacket.build
     (ExplicitServicePacket.init g m s d pt sc cid iid sdata) = Ok built ->
   (8 < DeviceNetPacket.length built)%nat ->
   ExplicitServicePacket.split built = Raise TypeError)
  /\ (Addressing.valid_triple g m s = true -> 0 <= d < 64 ->
      IoPacket.build (IoPacket.init g m s d payload) = Ok io_built ->
      (8 < DeviceNetPacket.length io_built)%nat ->
      IoPacketFragmentation.split io_built = Raise TypeError).
Proof.
  split.
  - apply explicit_split_raises.
  - apply io_split_raises.
Qed.

Lemma split_raises_witness :
  let sdata := [1; 2; 3; 4; 5; 6; 7; 8; 9] in
  let payload := [1; 2; 3; 4; 5; 6; 7; 8; 9; 10; 11; 12; 13; 14; 15] in
  ExplicitServicePacket.split
    (match ExplicitServicePacket.build
             (ExplicitServicePacket.init 2 4 0 1 0 0x10 1 1 sdata) with
     | Ok built => built
     | Raise _ => ExplicitServicePacket.new
     end) = Raise TypeError
  /\ IoPacketFragmentation.split
       (match IoPacket.build (IoPacket.init 2 4 0 1 payload) with
        | Ok built => built
        | Raise _ => IoPacket.init 2 4 0 1 payload
        end) = Raise TypeError.
Proof.
  intros sdata payload.
  let r := eval vm_compute in
             (match ExplicitServicePacket.build
                      (ExplicitServicePacket.init 2 4 0 1 0 0x10 1 1 sdata)
              with
              | Ok built => built
              | Raise _ => ExplicitServicePacket.new
              end) in
  change (match ExplicitServicePacket.build
                  (ExplicitServicePacket.init 2 4 0 1 0 0x10 1 1 sdata) with
          | Ok built => built
          | Raise _ => ExplicitServicePacket.new
          end) with r;
  pose (built := r).
  let r := eval vm_compute in
             (match IoPacket.build (IoPacket.init 2 4 0 1 payload) with
              | Ok built => built
              | Raise _ => IoPacket.init 2 4 0 1 payload
              end) in
  change (match IoPacket.build (IoPacket.init 2 4 0 1 payload) with
          | Ok built => built
          | Raise _ => IoPacket.init 2 4 0 1 payload
          end) with r;
  pose (io_built := r).
  pose proof (split_raises 2 4 0 1 0 0x10 1 1 sdata payload built io_built)
    as [He Hi].
  split.
  - apply He; [vm_compute; reflexivity | vm_compute; lia].
  - apply Hi; [reflexivity | lia | vm_compute; reflexivity
              | vm_compute; lia].
Defined.

(** ** The address codec, the other way round *)

Lemma split_field (x k : Z) :
  0 <= k -> Z.shiftl (x / 2 ^ k) k + x mod 2 ^ k = x.
Proof.
  intros Hk. rewrite Z.shiftl_mul_pow2 by lia.
  assert (0 < 2 ^ k) by (apply Z.pow_pos_nonneg; lia).
  rewrite (Z.div_mod x (2 ^ k)) at 3 by lia. lia.
Qed.

(** X3: every CAN identifier of the four message groups, 0 to 0x7EF, is
    given back by [can_addr] from the triple [devnet_addr] decodes it to:
    no identifier of these ranges decodes to a triple that [can_addr]
    refuses or encodes differently. *)
Theorem can_addr_of_devnet_addr (can_id : Z) :
  0 <= can_id < 0x7F0 -> to_can_from_can can_id = Ok can_id.
Proof.
  intros Hid. unfold to_can_from_can.
  destruct (Z.lt_ge_cases can_id 0x400);
    [| destruct (Z.lt_ge_cases can_id 0x600);
       [| destruct (Z.lt_ge_cases can_id 0x7C0)]].
  - rewrite devnet_addr_group1 by lia.
    change 0x3C0 with (Z.shiftl (Z.ones 4) 6). change 0x03F with (Z.ones 6).
    rewrite field_extract, Z.land_ones by lia.
    change (2 ^ 4) with 16. change (2 ^ 6) with 64.
    rewrite can_addr_group1 by (Z.div_mod_to_equations; lia).
    f_equal. rewrite (Z.mod_small (can_id / 64)) by (Z.div_mod_to_equations; lia).
    apply (split_field can_id 6). lia.
  - rewrite devnet_addr_group2 by lia.
    change 0x1F8 with (Z.shiftl (Z.ones 6) 3). change 0x007 with (Z.ones 3).
    rewrite field_extract, Z.land_ones by lia.
    change (2 ^ 3) with 8. change (2 ^ 6) with 64.
    rewrite can_addr_group2 by (Z.div_mod_to_equations; lia).
    f_equal. rewrite Z.shiftl_mul_pow2 by lia. change (2 ^ 3) with 8.
    Z.div_mod_to_equations. lia.
  - rewrite devnet_addr_group3 by lia.
    change 0x1C0 with (Z.shiftl (Z.ones 3) 6). change 0x03F with (Z.ones 6).
    rewrite field_extract, Z.land_ones by lia.
    change (2 ^ 3) with 8. change (2 ^ 6) with 64.
    rewrite can_addr_group3 by (Z.div_mod_to_equations; lia).
    f_equal. rewrite Z.shiftl_mul_pow2 by lia. change (2 ^ 6) with 64.
    Z.div_mod_to_equations. lia.
  - rewrite devnet_addr_group4 by lia.
    change 0x03F with (Z.ones 6). rewrite Z.land_ones by lia.
    change (2 ^ 6) with 64.
    rewrite can_addr_group4 by (Z.div_mod_to_equations; lia).
    f_equal. Z.div_mod_to_equations. lia.
Qed.

Lemma can_addr_of_devnet_addr_witness : to_can_from_can 0x40B = Ok 0x40B.
Proof.
  apply can_addr_of_devnet_addr. lia.
Defined.

(** X4: whenever [can_addr] returns an identifier, the group is one of 1 to
    4, message id and MAC are 6-bit values and the identifier has at most 11
    bits; it decodes back to the group, the message id and, outside group 4,
    the MAC, unless the group is 4 and the message id is 48 or more, when it
    is a reserved identifier and decodes to (0, 0, 0). *)
Theorem can_addr_returns (g m a can_id : Z) :
  Addressing.can_addr g m a = Ok can_id ->
  1 <= g <= 4 /\ 0 <= m < 64 /\ 0 <= a < 64 /\ 0 <= can_id <= 0x7FF
  /\ (if (g =? 4) && (48 <=? m)
      then 0x7F0 <= can_id /\ Addressing.devnet_addr can_id = (0, 0, 0)
      else Addressing.devnet_addr can_id = (g, m, if g =? 4 then 0 else a)).
Proof.
  intros H.
  assert (Hin : (1 <= g <= 4 /\ 0 <= m < 64 /\ 0 <= a < 64)
                /\ (g = 1 -> m < 16) /\ (g = 2 -> m < 8) /\ (g = 3 -> m < 7)).
  { destruct (Z.lt_ge_cases g 1); [rewrite can_addr_raises_outside in H by lia; discriminate |].
    destruct (Z.lt_ge_cases 4 g); [rewrite can_addr_raises_outside in H by lia; discriminate |].
    destruct (Z.lt_ge_cases m 0); [rewrite can_addr_raises_outside in H by lia; discriminate |].
    destruct (Z.lt_ge_cases m 64); [| rewrite can_addr_raises_outside in H by lia; discriminate].
    destruct (Z.lt_ge_cases a 0); [rewrite can_addr_raises_outside in H by lia; discriminate |].
    destruct (Z.lt_ge_cases a 64); [| rewrite can_addr_raises_outside in H by lia; discriminate].
    repeat split; try lia.
    - intros ->. destruct (Z.lt_ge_cases m 16); [assumption |].
      rewrite can_addr_raises_outside in H by lia. discriminate.
    - intros ->. destruct (Z.lt_ge_cases m 8); [assumption |].
      rewrite can_addr_raises_outside in H by lia. discriminate.
    - intros ->. destruct (Z.lt_ge_cases m 7); [assumption |].
      rewrite can_addr_raises_outside in H by lia. discriminate. }
  destruct Hin as ((Hg & Hm & Ha) & H1 & H2 & H3).
  assert (Hcase : g = 1 \/ g = 2 \/ g = 3 \/ g = 4) by lia.
  destruct Hcase as [-> | [-> | [-> | ->]]].
  - specialize (H1 eq_refl). rewrite can_addr_group1 in H by lia.
    apply Ok_inj in H. subst can_id.
    rewrite decode_group1 by lia. rewrite Z.shiftl_mul_pow2 by lia.
    cbn [Z.eqb Pos.eqb andb]. repeat split; try lia; reflexivity.
  - specialize (H2 eq_refl). rewrite can_addr_group2 in H by lia.
    apply Ok_inj in H. subst can_id.
    rewrite decode_group2 by lia. rewrite Z.shiftl_mul_pow2 by lia.
    cbn [Z.eqb Pos.eqb andb]. repeat split; try lia; reflexivity.
  - specialize (H3 eq_refl). rewrite can_addr_group3 in H by lia.
    apply Ok_inj in H. subst can_id.
    rewrite decode_group3 by lia. rewrite Z.shiftl_mul_pow2 by lia.
    cbn [Z.eqb Pos.eqb andb]. repeat split; try lia; reflexivity.
  - rewrite can_addr_group4 in H by lia. apply Ok_inj in H. subst can_id.
    cbn [Z.eqb Pos.eqb andb].
    destruct (Z.leb_spec 48 m).
    + repeat split; try lia. apply devnet_addr_outside. lia.
    + rewrite decode_group4 by lia. repeat split; try lia.
Qed.

Lemma can_addr_returns_witness :
  Addressing.devnet_addr 0x40C = (2, 4, 1).
Proof.
  assert (H : Addressing.can_addr 2 4 1 = Ok 0x40C) by reflexivity.
  exact (proj2 (proj2 (proj2 (proj2 (can_addr_returns 2 4 1 0x40C H))))).
Defined.

(** ** Integers and lists of bytes *)

Section IntegerCodec.

Import Integers.

Lemma byte_at_div (value : Z) (i : nat) :
  Z.land (Z.shiftr value (Z.of_nat i * 8)) 0xFF
  = (value / 256 ^ Z.of_nat i) mod 256.
Proof.
  change 0xFF with (Z.ones 8). rewrite Z.land_ones by lia.
  rewrite Z.shiftr_div_pow2 by lia.
  replace (2 ^ (Z.of_nat i * 8)) with (256 ^ Z.of_nat i)
    by (rewrite Z.mul_comm, Z.pow_mul_r by lia; reflexivity).
  reflexivity.
Qed.

Lemma fold_left_rev_le (l : list Z) :
  fold_left (fun result b => result * 256 + b) (rev l) 0
  = fold_right (fun b r => b + 256 * r) 0 l.
Proof.
  rewrite <- fold_left_rev_right, rev_involutive.
  induction l as [| b l IH]; [reflexivity |].
  cbn [fold_right]. rewrite IH. lia.
Qed.

Lemma le_val_bytes (value : Z) (n k : nat) :
  fold_right (fun b r => b + 256 * r) 0
    (map (fun i => Z.land (Z.shiftr value (Z.of_nat i * 8)) 0xFF) (seq k n))
  = (value / 256 ^ Z.of_nat k) mod 256 ^ Z.of_nat n.
Proof.
  revert k. induction n as [| n IH]; intros k.
  - cbn [seq map fold_right]. change (256 ^ Z.of_nat 0) with 1.
    now rewrite Z.mod_1_r.
  - cbn [seq map fold_right]. rewrite IH, byte_at_div.
    replace (Z.of_nat (S n)) with (1 + Z.of_nat n) by lia.
    replace (Z.of_nat (S k)) with (Z.of_nat k + 1) by lia.
    rewrite !Z.pow_add_r by lia. change (256 ^ 1) with 256.
    assert (Hn : 0 < 256 ^ Z.of_nat n) by (apply Z.pow_pos_nonneg; lia).
    assert (Hk : 0 < 256 ^ Z.of_nat k) by (apply Z.pow_pos_nonneg; lia).
    rewrite <- Z.div_div by lia.
    rewrite Z.rem_mul_r by lia. reflexivity.
Qed.

Lemma bytes_of_le_val (l : list Z) (k : nat) (hi : Z) :
  Forall (fun b => 0 <= b < 256) l ->
  map (fun i => Z.land (Z.shiftr
                          (hi mod 256 ^ Z.of_nat k
                           + 256 ^ Z.of_nat k
                             * fold_right (fun b r => b + 256 * r) 0 l)
                          (Z.of_nat i * 8)) 0xFF)
    (seq k (List.length l)) = l.
Proof.
  intros Hl. revert k hi. induction Hl as [| b l Hb Hl IH]; intros k hi.
  - reflexivity.
  - cbn [List.length seq map fold_right]. f_equal.
    + rewrite byte_at_div.
      assert (Hk : 0 < 256 ^ Z.of_nat k) by (apply Z.pow_pos_nonneg; lia).
      pose proof (Z.mod_pos_bound hi (256 ^ Z.of_nat k) Hk).
      set (r := fold_right (fun b r => b + 256 * r) 0 l).
      set (x := hi mod 256 ^ Z.of_nat k) in *.
      set (P := 256 ^ Z.of_nat k) in *.
      assert (E : (x + P * (b + 256 * r)) / P = b + 256 * r).
      { symmetry. apply (Z.div_unique_pos _ _ _ x); lia. }
      rewrite E. symmetry. apply (Z.mod_unique_pos _ _ r); lia.
    + set (r := fold_right (fun b r => b + 256 * r) 0 l).
      assert (Hk : 0 < 256 ^ Z.of_nat k) by (apply Z.pow_pos_nonneg; lia).
      pose proof (Z.mod_pos_bound hi (256 ^ Z.of_nat k) Hk).
      specialize (IH (S k)
                    (hi mod 256 ^ Z.of_nat k + 256 ^ Z.of_nat k * b)).
      fold r in IH.
      replace (hi mod 256 ^ Z.of_nat k + 256 ^ Z.of_nat k * (b + 256 * r))
        with ((hi mod 256 ^ Z.of_nat k + 256 ^ Z.of_nat k * b)
                mod 256 ^ Z.of_nat (S k)
              + 256 ^ Z.of_nat (S k) * r); [exact IH |].
      replace (Z.of_nat (S k)) with (Z.of_nat k + 1) by lia.
      rewrite Z.pow_add_r by lia. change (256 ^ 1) with 256.
      rewrite Z.mod_small by nia. lia.
Qed.

Lemma le_val_range (value size : Z) :
  fold_right (fun b r => b + 256 * r) 0
    (map (fun i => Z.land (Z.shiftr value (Z.of_nat i * 8)) 0xFF)
       (range (Z.to_nat size)))
  = value mod 256 ^ Z.max 0 size.
Proof.
  unfold range. rewrite le_val_bytes. change (Z.of_nat 0) with 0.
  rewrite Z.pow_0_r, Z.div_1_r. f_equal. f_equal. lia.
Qed.

Lemma little_roundtrip (value size : Z) :
  bytes_to_integer (integer_to_bytes value size "little") "little"
  = value mod 256 ^ Z.max 0 size.
Proof.
  unfold bytes_to_integer, integer_to_bytes.
  cbn [String.eqb Ascii.eqb Bool.eqb].
  now rewrite fold_left_rev_le, le_val_range.
Qed.

Lemma byte_items (value : Z) (n : nat) :
  Forall (fun b => 0 <= b < 256)
    (map (fun i => Z.land (Z.shiftr value (Z.of_nat i * 8)) 0xFF)
       (range n)).
Proof.
  apply Forall_map, Forall_forall. intros i _.
  rewrite byte_at_div. apply Z.mod_pos_bound. lia.
Qed.

Lemma integer_to_bytes_length (value size : Z) (endianess : string) :
  List.length (integer_to_bytes value size endianess) = Z.to_nat size.
Proof.
  unfold integer_to_bytes, range.
  destruct (String.eqb endianess "little");
    now rewrite ?length_rev, length_map, length_seq.
Qed.

Lemma integer_to_bytes_range (value size : Z) (endianess : string) :
  Forall (fun b => 0 <= b < 256) (integer_to_bytes value size endianess).
Proof.
  unfold integer_to_bytes.
  destruct (String.eqb endianess "little");
    [| apply Forall_rev]; apply byte_items.
Qed.

End IntegerCodec.

(** X5: for the layouts 'little' and 'big', reading back the bytes that
    [integer_to_bytes] made of [value] gives [value] modulo 256 ^ size (and
    0 for a size that is not positive): the value itself when it fits in
    [size] bytes, its two's complement when it is negative, its low bytes
    when it is too large. *)
Theorem integer_roundtrip (value size : Z) (endianess : string) :
  endianess = "little"%string \/ endianess = "big"%string ->
  Integers.bytes_to_integer
    (Integers.integer_to_bytes value size endianess) endianess
  = value mod 256 ^ Z.max 0 size.
Proof.
  intros He.
  pose proof (le_val_range value size) as Hval.
  unfold Integers.bytes_to_integer, Integers.integer_to_bytes.
  destruct He as [-> | ->]; cbn [String.eqb Ascii.eqb Bool.eqb].
  - now rewrite fold_left_rev_le.
  - now rewrite fold_left_rev_le.
Qed.

Lemma integer_roundtrip_witness :
  Integers.bytes_to_integer
    (Integers.integer_to_bytes 0xAABBCCDD 4 "little") "little"
  = 0xAABBCCDD mod 256 ^ Z.max 0 4.
Proof.
  apply integer_roundtrip. left. reflexivity.
Defined.

(** X6: for the layouts 'little' and 'big', a list of bytes (items 0 to
    255) is what [integer_to_bytes] makes, at the length of the list, of
    the integer that [bytes_to_integer] reads from it. *)
Theorem bytes_roundtrip (stream : list Z) (endianess : string) :
  endianess = "little"%string \/ endianess = "big"%string ->
  Forall (fun b => 0 <= b < 256) stream ->
  Integers.integer_to_bytes
    (Integers.bytes_to_integer stream endianess)
    (Z.of_nat (List.length stream)) endianess
  = stream.
Proof.
  intros He Hs.
  assert (Hmap : forall l, Forall (fun b => 0 <= b < 256) l ->
            map (fun i => Z.land (Z.shiftr
                                    (fold_right (fun b r => b + 256 * r) 0 l)
                                    (Z.of_nat i * 8)) 0xFF)
              (range (List.length l)) = l).
  { intros l Hl. pose proof (bytes_of_le_val l 0 0 Hl) as H.
    change (Z.of_nat 0) with 0 in H.
    rewrite Z.pow_0_r, Z.mod_1_r, Z.add_0_l, Z.mul_1_l in H. exact H. }
  unfold Integers.bytes_to_integer, Integers.integer_to_bytes.
  rewrite Nat2Z.id.
  destruct He as [-> | ->]; cbn [String.eqb Ascii.eqb Bool.eqb].
  - rewrite fold_left_rev_le. now apply Hmap.
  - replace (fold_left (fun result b => result * 256 + b) stream 0)
      with (fold_right (fun b r => b + 256 * r) 0 (rev stream))
      by (now rewrite <- fold_left_rev_le, rev_involutive).
    rewrite <- (length_rev stream), Hmap by now apply Forall_rev.
    apply rev_involutive.
Qed.

Lemma bytes_roundtrip_witness :
  Integers.integer_to_bytes
    (Integers.bytes_to_integer [0xDD; 0xCC; 0xBB; 0xAA] "big") 4 "big"
  = [0xDD; 0xCC; 0xBB; 0xAA].
Proof.
  apply (bytes_roundtrip [0xDD; 0xCC; 0xBB; 0xAA] "big").
  - right. reflexivity.
  - repeat constructor; lia.
Defined.

(** X7: [integer_to_bytes] returns [size] items (none for a size that is
    not positive), every one a byte, 0 to 255, whatever the sign and the
    magnitude of the value and whatever the layout. *)
Theorem integer_to_bytes_bytes (value size : Z) (endianess : string) :
  List.length (Integers.integer_to_bytes value size endianess)
  = Z.to_nat size
  /\ Forall (fun b => 0 <= b < 256)
       (Integers.integer_to_bytes value size endianess).
Proof.
  pose proof (byte_items value (Z.to_nat size)) as H.
  unfold Integers.integer_to_bytes.
  destruct (String.eqb endianess "little").
  - split; [| exact H]. unfold range. now rewrite length_map, length_seq.
  - split; [| now apply Forall_rev].
    unfold range. now rewrite length_rev, length_map, length_seq.
Qed.

(** ** The byte stream of a packet *)

Lemma bytearray_bytes (l : list Z) :
  Forall (fun b => 0 <= b < 256) l -> Convert.bytearray l = Ok l.
Proof.
  intros H. unfold Convert.bytearray.
  replace (forallb (fun b => in_range b 0 256) l) with true; [reflexivity |].
  symmetry. apply forallb_forall. intros b Hb.
  apply in_range_true. rewrite Forall_forall in H. now apply H.
Qed.

Lemma serialize_stream (p : packet) :
  Forall (fun b => 0 <= b < 256) (can_data p) ->
  Stream.serialize p
  = Ok (Integers.integer_to_bytes (can_header p) 2 "little" ++ can_data p).
Proof.
  intros H. unfold Stream.serialize. now rewrite bytearray_bytes.
Qed.

Lemma deserialize_header (h : Z) (payload : list Z) :
  Integers.bytes_to_integer
    (firstn 2 (Integers.integer_to_bytes h 2 "little" ++ payload)) "little"
  = h mod 65536
  /\ skipn 2 (Integers.integer_to_bytes h 2 "little" ++ payload) = payload.
Proof.
  pose proof (little_roundtrip h 2) as H.
  pose proof (integer_to_bytes_length h 2 "little") as Hlen.
  destruct (Integers.integer_to_bytes h 2 "little") as [| a [| b [| c l]]];
    try discriminate.
  split; [exact H | reflexivity].
Qed.

Lemma parse_addresses (q : packet) (h : Z) (d : list Z) :
  0 <= h < 0x7C0 ->
  exists r,
    (let p := with_can_data d (with_can_header h q) in
     let p := DeviceNetPacket.get_group_id p in
     let p := DeviceNetPacket.get_message_id p in
     let* p := DeviceNetPacket.get_src_mac p in
     let* p := DeviceNetPacket.get_dst_mac p in
     Ok (DeviceNetPacket.get_message_data with_data p)) = Ok r
    /\ can_header r = h /\ can_data r = d /\ data r = d
    /\ (group_id r, message_id r, mac_in_can_id r) = Addressing.devnet_addr h.
Proof.
  intros Hh.
  destruct q as [g m s dd ch cd dt mic mim mh mb xi ff ft fc fh pt sh sc ci
                   ii sd ak].
  unfold DeviceNetPacket.get_group_id, DeviceNetPacket.get_message_id,
    DeviceNetPacket.get_src_mac, DeviceNetPacket.get_dst_mac,
    DeviceNetPacket.get_message_data, DeviceNetPacket.unpack_addr.
  cbn [with_can_data with_can_header with_group_id with_message_id
       can_header].
  destruct (Addressing.devnet_addr h) as [[g' m'] a'] eqn:E.
  assert (Hg : g' = 1 \/ g' = 2 \/ g' = 3).
  { destruct (Z.lt_ge_cases h 0x400);
      [| destruct (Z.lt_ge_cases h 0x600)].
    - rewrite devnet_addr_group1 in E by lia. injection E as <- _ _. tauto.
    - rewrite devnet_addr_group2 in E by lia. injection E as <- _ _. tauto.
    - rewrite devnet_addr_group3 in E by lia. injection E as <- _ _. tauto. }
  cbn [fst snd].
  destruct Hg as [-> | [-> | ->]]; io_step; rewrite ?E; io_step.
  - eexists. split; [reflexivity |]. io_step. repeat split; reflexivity.
  - destruct (DeviceNetPacket.in_source_ids m') eqn:Es; io_step;
      rewrite ?E; io_step; rewrite ?Es; io_step;
      (eexists; split; [reflexivity |]); io_step;
      repeat split; reflexivity.
  - eexists. split; [reflexivity |]. io_step. repeat split; reflexivity.
Qed.

Lemma integer_to_bytes_2 (h : Z) :
  Integers.integer_to_bytes h 2 "little" = [h mod 256; (h / 256) mod 256].
Proof.
  unfold Integers.integer_to_bytes, range.
  change (Z.to_nat 2) with 2%nat.
  cbn [String.eqb Ascii.eqb Bool.eqb seq map].
  rewrite !byte_at_div. change (256 ^ Z.of_nat 0) with 1.
  change (256 ^ Z.of_nat 1) with 256. now rewrite Z.div_1_r.
Qed.

(** X8: a packet whose CAN identifier belongs to group 1, 2 or 3 (0 to
    0x7BF) and whose CAN payload is made of bytes serializes to the two
    identifier bytes, low byte first, followed by the payload, and
    [deserialize] reads that stream back, into any packet object of the base
    or I/O class: the same identifier and payload, the payload as data, and
    the group, message id and MAC that [devnet_addr] finds in the
    identifier. *)
Theorem stream_roundtrip (p q : packet) :
  0 <= can_header p < 0x7C0 ->
  Forall (fun b => 0 <= b < 256) (can_data p) ->
  exists r,
    Stream.serialize p
    = Ok ([can_header p mod 256; can_header p / 256] ++ can_data p)
    /\ (let* stream := Stream.serialize p in
        Stream.deserialize with_data stream q) = Ok r
    /\ can_header r = can_header p
    /\ can_data r = can_data p
    /\ data r = can_data p
    /\ (group_id r, message_id r, mac_in_can_id r)
       = Addressing.devnet_addr (can_header p).
Proof.
  intros Hh Hd.
  destruct (parse_addresses q (can_header p) (can_data p) Hh)
    as (r & Hr & Hfields).
  exists r. rewrite serialize_stream by exact Hd. split.
  - rewrite integer_to_bytes_2.
    now rewrite (Z.mod_small (can_header p / 256))
      by (Z.div_mod_to_equations; lia).
  - split; [| exact Hfields].
    cbv beta iota delta [bind]. unfold Stream.deserialize.
    rewrite bytearray_bytes.
    + cbv beta iota delta [bind].
      destruct (deserialize_header (can_header p) (can_data p)) as [-> ->].
      rewrite Z.mod_small by lia. exact Hr.
    + apply Forall_app. split; [| exact Hd].
      apply integer_to_bytes_range.
Qed.

Lemma stream_roundtrip_witness :
  Stream.serialize (IoPacket.from_frame (CanFrame.mk 0x40B [1; 2; 3])
                      IoPacket.new)
  = Ok [0x0B; 0x04; 1; 2; 3].
Proof.
  set (p := IoPacket.from_frame (CanFrame.mk 0x40B [1; 2; 3]) IoPacket.new).
  assert (Hh : 0 <= can_header p < 0x7C0) by (vm_compute; split; congruence).
  assert (Hd : Forall (fun b => 0 <= b < 256) (can_data p))
    by (vm_compute; repeat constructor; congruence).
  destruct (stream_roundtrip p IoPacket.new Hh Hd) as (r & Hs & _).
  exact Hs.
Defined.

(** X9: [deserialize] fails with DevNetPacketError on every stream of bytes
    whose first two bytes, low byte first, give an identifier from 0x7C0 on
    (group 4, the reserved identifiers, anything above 11 bits): the packet
    classes read a stream of groups 1 to 3 only, although [serialize] writes
    any identifier. *)
Theorem deserialize_outside_groups (set_data : list Z -> packet -> packet)
    (b0 b1 : Z) (payload : list Z) (q : packet) :
  Forall (fun b => 0 <= b < 256) (b0 :: b1 :: payload) ->
  0x7C0 <= b0 + 256 * b1 ->
  Stream.deserialize set_data (b0 :: b1 :: payload) q
  = Raise DevNetPacketError.
Proof.
  intros Hb Hh. unfold Stream.deserialize.
  rewrite bytearray_bytes by exact Hb.
  cbv beta iota delta [bind]. cbn [firstn skipn].
  replace (Integers.bytes_to_integer [b0; b1] "little") with (b0 + 256 * b1)
    by (unfold Integers.bytes_to_integer;
        cbn [String.eqb Ascii.eqb Bool.eqb rev app fold_left]; lia).
  remember (b0 + 256 * b1) as h eqn:Eh. clear Eh Hb.
  destruct q as [g m s dd ch cd dt mic mim mh mb xi ff ft fc fh pt sh sc ci
                   ii sd ak].
  unfold DeviceNetPacket.get_group_id, DeviceNetPacket.get_message_id,
    DeviceNetPacket.get_src_mac, DeviceNetPacket.unpack_addr.
  cbn [with_can_data with_can_header with_group_id with_message_id
       can_header].
  destruct (Z.lt_ge_cases h 0x7F0).
  - rewrite devnet_addr_group4 by lia. reflexivity.
  - rewrite devnet_addr_outside by lia. reflexivity.
Qed.

Lemma deserialize_outside_groups_witness :
  Stream.deserialize with_data [0xC0; 0x07; 1; 2] IoPacket.new
  = Raise DevNetPacketError.
Proof.
  apply deserialize_outside_groups.
  - repeat constructor; lia.
  - lia.
Defined.

(** ** Reading fragments back *)

(** What the four address getters of [parse] do to a packet whose
    identifier belongs to group 1, 2 or 3: they succeed and assign the
    addressing attributes only. *)
Lemma parse_macs (p : packet) :
  0 <= can_header p < 0x7C0 ->
  exists g m s d a,
    (let p := DeviceNetPacket.get_group_id p in
     let p := DeviceNetPacket.get_message_id p in
     let* p := DeviceNetPacket.get_src_mac p in
     DeviceNetPacket.get_dst_mac p)
    = Ok (with_mac_in_can_id a
            (with_dst_mac d
               (with_src_mac s (with_message_id m (with_group_id g p)))))
    /\ Addressing.devnet_addr (can_header p) = (g, m, a).
Proof.
  intros Hh.
  destruct p as [g m s dd ch cd dt mic mim mh mb xi ff ft fc fh pt sh sc ci
                   ii sd ak].
  unfold DeviceNetPacket.get_group_id, DeviceNetPacket.get_message_id,
    DeviceNetPacket.get_src_mac, DeviceNetPacket.get_dst_mac,
    DeviceNetPacket.unpack_addr.
  cbn [with_group_id with_message_id can_header] in *.
  destruct (Addressing.devnet_addr ch) as [[g' m'] a'] eqn:E.
  assert (Hg : g' = 1 \/ g' = 2 \/ g' = 3).
  { destruct (Z.lt_ge_cases ch 0x400);
      [| destruct (Z.lt_ge_cases ch 0x600)].
    - rewrite devnet_addr_group1 in E by lia. injection E as <- _ _. tauto.
    - rewrite devnet_addr_group2 in E by lia. injection E as <- _ _. tauto.
    - rewrite devnet_addr_group3 in E by lia. injection E as <- _ _. tauto. }
  cbn [fst snd].
  destruct Hg as [-> | [-> | ->]]; io_step; rewrite ?E; io_step.
  - do 5 eexists. split; reflexivity.
  - destruct (DeviceNetPacket.in_source_ids m') eqn:Es; io_step;
      rewrite ?E; io_step; rewrite ?Es; io_step;
      do 5 eexists; split; reflexivity.
  - do 5 eexists. split; reflexivity.
Qed.

Lemma frag_header_fields (t c : Z) :
  0 <= t < 4 -> 0 <= c < 64 ->
  Z.shiftr (Z.land (Z.shiftl t 6 + c) 0xC0) 6 = t
  /\ Z.land (Z.shiftl t 6 + c) 0x3F = c.
Proof.
  intros Ht Hc. split.
  - change 0xC0 with (Z.shiftl (Z.ones 2) 6).
    rewrite mid_field by (simpl; lia). apply Z.mod_small. simpl. lia.
  - change 0x3F with (Z.ones 6). apply low_field; simpl; lia.
Qed.

Lemma io_frag_from_frame (h t c : Z) (blk : list Z) :
  0 <= h < 0x7C0 -> 0 <= t < 4 -> 0 <= c < 64 ->
  exists r,
    IoFragPacket.from_frame (CanFrame.mk h ((Z.shiftl t 6 + c) :: blk))
      IoFragPacket.new = Ok r
    /\ frag_type r = t /\ frag_count r = c /\ data r = blk.
Proof.
  intros Hh Ht Hc.
  destruct (frag_header_fields t c Ht Hc) as [Et Ec].
  unfold IoFragPacket.from_frame, IoFragPacket.parse.
  cbn [CanFrame.can_id CanFrame.data].
  set (p := with_can_data (Z.shiftl t 6 + c :: blk)
              (with_can_header h IoFragPacket.new)).
  assert (Hp : 0 <= can_header p < 0x7C0) by exact Hh.
  destruct (parse_macs p Hp) as (g & m & s & d & a & E & _).
  cbv beta zeta in E.
  destruct (DeviceNetPacket.get_src_mac
              (DeviceNetPacket.get_message_id
                 (DeviceNetPacket.get_group_id p))) as [p1 | e];
    cbv beta iota delta [bind] in E |- *; [| discriminate].
  rewrite E. clear E p1.
  unfold IoFragPacket.get_frag_header, IoFragPacket.get_app_data,
    FragHeaderMixin.get_frag_type, FragHeaderMixin.get_frag_count,
    FragHeaderMixin.FRAG_TYPE_MASK, FragHeaderMixin.FRAG_TYPE_OFFSET,
    FragHeaderMixin.FRAG_COUNT_MASK.
  subst p.
  change IoFragPacket.new
    with (mkPacket 0 0 0 0 0 [] [] 0 0 0 [] 0 0 0 0 0 0 0 0 0 0 [] 0).
  io_step. cbn [index except_IndexError skipn]. io_step.
  eexists. split; [reflexivity |]. io_step.
  rewrite Et, Ec. repeat split; reflexivity.
Qed.

Lemma built_header_range (p : packet) :
  Addressing.valid_triple (group_id p) (message_id p) (src_mac p) = true ->
  group_id p <> 4 -> 0 <= dst_mac p < 64 ->
  0 <= can_header (DeviceNetPacket.build_can_header p) < 0x7C0.
Proof.
  unfold Addressing.valid_triple.
  rewrite andb_true_iff, !orb_true_iff, !andb_true_iff, !Z.eqb_eq,
    !in_range_true.
  intros [Ha [[[[Hg Hm] | [Hg Hm]] | [Hg Hm]] | [Hg Hm]]] H4 Hd;
    [| | | contradiction].
  - rewrite build_can_header_group1, Z.shiftl_mul_pow2 by lia.
    change (2 ^ 6) with 64. lia.
  - rewrite build_can_header_group2, Z.shiftl_mul_pow2 by lia.
    change (2 ^ 3) with 8.
    destruct (DeviceNetPacket.in_source_ids (message_id p)); lia.
  - rewrite build_can_header_group3, Z.shiftl_mul_pow2 by lia.
    change (2 ^ 6) with 64. lia.
Qed.

Lemma fragment_type_at_range (n i : nat) : 0 <= fragment_type_at n i < 4.
Proof.
  unfold fragment_type_at, FRAGMENT.TYPE.START, FRAGMENT.TYPE.FINAL,
    FRAGMENT.TYPE.MIDDLE.
  destruct (i =? 0)%nat; [lia |]. destruct (i =? n - 1)%nat; lia.
Qed.

Lemma land_count (i : nat) :
  (i < 64)%nat -> Z.land (Z.of_nat i) 0x3F = Z.of_nat i.
Proof.
  intros Hi. change 0x3F with (Z.ones 6). rewrite Z.land_ones by lia.
  apply Z.mod_small. simpl. lia.
Qed.

(** The receive loop over the I/O fragments [k], [k+1], ... of a message of
    [n] fragments, 2 to 64, which has seen the fragments before [k]. *)
Lemma read_io_fragments (h : Z) (n : nat) (block : nat -> list Z)
    (src_addr dst_addr : Z) (rest : list (option CanFrame.t))
    (tx : list CanFrame.t) :
  0 <= h < 0x7C0 -> (2 <= n <= 64)%nat ->
  forall (j k : nat) (stream : list Z),
    (k + S j = n)%nat ->
    Link.read_fragment_loop false src_addr dst_addr
      (map Some
         (map (fun i =>
                 CanFrame.mk h
                   ((Z.shiftl (fragment_type_at n i) 6
                     + Z.land (Z.of_nat i) 0x3F) :: block i))
            (seq k (S j))) ++ rest)
      tx stream (Z.of_nat (k - 1))
    = Ok (stream ++ concat (map block (seq k (S j))), Link.mkBus rest tx).
Proof.
  intros Hh Hn. induction j as [| j IH]; intros k stream Hk.
  - cbn [seq map app Link.read_fragment_loop concat].
    rewrite land_count by lia.
    destruct (io_frag_from_frame h (fragment_type_at n k) (Z.of_nat k)
                (block k) Hh (fragment_type_at_range n k) ltac:(lia))
      as (r & -> & Ht & Hc & Hd).
    cbv beta iota delta [bind]. unfold Link.read_fragment_step.
    rewrite Hc, Hd. unfold Link._final_fragment. rewrite Ht, Hc.
    assert (Hfinal : fragment_type_at n k = FRAGMENT.TYPE.FINAL
                     \/ k = 0%nat).
    { unfold fragment_type_at. destruct (Nat.eqb_spec k 0); [now right |].
      destruct (Nat.eqb_spec k (n - 1)); [now left | lia]. }
    rewrite app_nil_r.
    destruct (Nat.eq_dec k 0) as [-> | Hk0].
    + exfalso. lia.
    + destruct Hfinal as [-> | ->]; [| contradiction].
      replace (Z.of_nat k - Z.of_nat (k - 1)) with 1 by lia.
      cbn [Z.eqb Pos.eqb]. cbv beta iota delta [bind].
      rewrite Z.eqb_refl. reflexivity.
  - change (seq k (S (S j))) with (k :: seq (S k) (S j)).
    cbn [map app Link.read_fragment_loop concat].
    rewrite land_count by lia.
    destruct (io_frag_from_frame h (fragment_type_at n k) (Z.of_nat k)
                (block k) Hh (fragment_type_at_range n k) ltac:(lia))
      as (r & -> & Ht & Hc & Hd).
    cbv beta iota delta [bind]. unfold Link.read_fragment_step.
    rewrite Hc, Hd. unfold Link._final_fragment. rewrite Ht, Hc.
    assert (Hnf : (fragment_type_at n k =? FRAGMENT.TYPE.FINAL)
                  || (Z.of_nat k =? FRAGMENT.MAX_COUNT) = false).
    { apply orb_false_iff. split.
      - unfold fragment_type_at. destruct (Nat.eqb_spec k 0); [reflexivity |].
        destruct (Nat.eqb_spec k (n - 1)); [lia | reflexivity].
      - apply Z.eqb_neq. unfold FRAGMENT.MAX_COUNT. lia. }
    destruct (Nat.eq_dec k 0) as [-> | Hk0].
    + change (Z.of_nat 0 - Z.of_nat (0 - 1) =? 0) with true.
      cbv beta iota delta [bind]. cbn [Link.tx].
      rewrite Hnf.
      specialize (IH 1%nat (stream ++ block 0%nat) ltac:(lia)).
      change (Z.of_nat (1 - 1)) with (Z.of_nat (0 - 1)) in IH.
      rewrite IH. now rewrite <- app_assoc.
    + replace (Z.of_nat k - Z.of_nat (k - 1)) with 1 by lia.
      cbn [Z.eqb Pos.eqb]. cbv beta iota delta [bind]. cbn [Link.tx].
      rewrite Hnf.
      specialize (IH (S k) (stream ++ block k) ltac:(lia)).
      replace (Z.of_nat (S k - 1)) with (Z.of_nat k) in IH by lia.
      rewrite IH. now rewrite <- app_assoc.
Qed.

(** X10: the fragment frames of an I/O message of 9 to 448 data bytes on an
    identifier of group 1, 2 or 3, in the layout of the fragments of
    [IoPacket.split] (2 to 64 frames, each with the fragment header and a
    block of 7 bytes, the last block shorter), are put together again by
    [read_fragment] in its I/O mode: it consumes exactly these frames, sends
    nothing, and returns the data of the message. *)
Theorem io_reassembly (h src_addr dst_addr : Z) (payload : list Z)
    (rest : list (option CanFrame.t)) (tx : list CanFrame.t) :
  0 <= h < 0x7C0 ->
  (8 < List.length payload <= 448)%nat ->
  let n := ceil_div (List.length payload) 7 in
  let frame i :=
    CanFrame.mk h
      ([Z.shiftl (fragment_type_at n i) 6 + Z.land (Z.of_nat i) 0x3F]
       ++ slice payload (i * 7) ((i + 1) * 7)) in
  Link.read_fragment src_addr dst_addr false
    (Link.mkBus (map Some (map frame (range n)) ++ rest) tx)
  = Ok (Some payload, Link.mkBus rest tx).
Proof.
  intros Hh Hlen n frame.
  assert (Hn2 : (2 <= n)%nat) by (apply (ceil_div_lower _ 7 1); lia).
  assert (Hn64 : (n <= 64)%nat).
  { enough ((n < 65)%nat) by lia.
    unfold n, ceil_div. apply Nat.Div0.div_lt_upper_bound. lia. }
  assert (Hconcat : concat (map (fun i => slice payload (i * 7) ((i + 1) * 7))
                              (range n)) = payload)
    by (apply blocks_concat, ceil_div_covers; lia).
  unfold Link.read_fragment. cbn [Link.rx Link.tx].
  subst frame. destruct n as [| j] eqn:En; [lia |].
  pose proof (read_io_fragments h (S j)
                (fun i => slice payload (i * 7) ((i + 1) * 7))
                src_addr dst_addr rest tx Hh ltac:(lia) j 0%nat []
                eq_refl) as Hloop.
  unfold range. cbn [app] in Hloop |- *.
  change (Z.of_nat (0 - 1)) with 0 in Hloop.
  rewrite Hloop. cbv beta iota delta [bind].
  unfold range in Hconcat. rewrite Hconcat.
  destruct payload; [cbn [List.length] in Hlen; lia | reflexivity].
Qed.

Lemma io_reassembly_witness :
  let payload := [1; 2; 3; 4; 5; 6; 7; 8; 9; 10; 11; 12; 13; 14; 15] in
  Link.read_fragment 0 1 false
    (Link.mkBus
       [Some (CanFrame.mk 0x40D [0x00; 1; 2; 3; 4; 5; 6; 7]);
        Some (CanFrame.mk 0x40D [0x41; 8; 9; 10; 11; 12; 13; 14]);
        Some (CanFrame.mk 0x40D [0x82; 15])] [])
  = Ok (Some payload, Link.mkBus [] []).
Proof.
  intros payload.
  assert (Hh : 0 <= 0x40D < 0x7C0) by lia.
  assert (Hlen : (8 < List.length payload <= 448)%nat)
    by (vm_compute; lia).
  exact (io_reassembly 0x40D 0 1 payload [] [] Hh Hlen).
Defined.

(** ** Receiving a fragmented explicit message *)


Lemma read_fragment_loop_cons (explicit : bool) (src_addr dst_addr : Z)
    (frame : CanFrame.t) (rx' : list (option CanFrame.t))
    (tx : list CanFrame.t) (stream : list Z) (prev_counter : Z)
    (response : packet) :
  (if explicit
   then ExplicitFragPacket.from_frame frame ExplicitFragPacket.new
   else IoFragPacket.from_frame frame IoFragPacket.new) = Ok response ->
  Link.read_fragment_loop explicit src_addr dst_addr (Some frame :: rx') tx
    stream prev_counter
  = (let* '(stream, prev_counter, b) :=
       Link.read_fragment_step explicit src_addr dst_addr response stream
         prev_counter (Link.mkBus rx' tx) in
     if Link._final_fragment response then Ok (stream, b)
     else
       Link.read_fragment_loop explicit src_addr dst_addr rx' (Link.tx b)
         stream prev_counter).
Proof.
  intros H. cbn [Link.read_fragment_loop]. rewrite H. reflexivity.
Qed.

Lemma checked_ok (lo hi v : Z) : lo <= v <= hi -> checked lo hi v = Ok v.
Proof.
  intros H. unfold checked.
  destruct (Z.leb_spec lo v); [| lia]. destruct (Z.leb_spec v hi); [| lia].
  reflexivity.
Qed.

Lemma device_from_frame (set_data : list Z -> packet -> packet)
    (frame : CanFrame.t) (p : packet) :
  0 <= CanFrame.can_id frame < 0x7C0 ->
  exists g m s d a,
    DeviceNetPacket.from_frame (DeviceNetPacket.parse set_data) frame p
    = Ok (set_data (CanFrame.data frame)
            (with_mac_in_can_id a
               (with_dst_mac d
                  (with_src_mac s
                     (with_message_id m
                        (with_group_id g
                           (with_can_data (CanFrame.data frame)
                              (with_can_header (CanFrame.can_id frame)
                                 p))))))))
    /\ Addressing.devnet_addr (CanFrame.can_id frame) = (g, m, a).
Proof.
  intros Hh. unfold DeviceNetPacket.from_frame, DeviceNetPacket.parse.
  set (q := with_can_data (CanFrame.data frame)
              (with_can_header (CanFrame.can_id frame) p)).
  assert (Hq : 0 <= can_header q < 0x7C0).
  { subst q. destruct p as [g0 m0 s0 d0 ch cd dt mic mim mh mb xi ff ft fc fh pt sh sc ci
      ii sd ak]. exact Hh. }
  destruct (parse_macs q Hq) as (g & m & s & d & a & E & Ea).
  exists g, m, s, d, a. cbv beta zeta in E.
  destruct (DeviceNetPacket.get_src_mac
              (DeviceNetPacket.get_message_id
                 (DeviceNetPacket.get_group_id q))) as [p1 | e];
    cbv beta iota delta [bind] in E |- *; [| discriminate].
  rewrite E. split.
  - unfold except_all, DeviceNetPacket.get_message_data. subst q.
    destruct p as [g0 m0 s0 d0 ch cd dt mic mim mh mb xi ff ft fc fh pt sh sc ci
      ii sd ak].
    reflexivity.
  - rewrite <- Ea. subst q.
    destruct p as [g0 m0 s0 d0 ch cd dt mic mim mh mb xi ff ft fc fh pt sh sc ci
      ii sd ak].
    reflexivity.
Qed.

Lemma service_header_fields (pt sc : Z) :
  0 <= pt <= 1 -> 0 <= sc < 128 ->
  Z.shiftr (Z.land (Z.shiftl pt 7 + sc) 0x80) 7 = pt
  /\ Z.land (Z.shiftl pt 7 + sc) 0x7F = sc.
Proof.
  intros Hp Hs. split.
  - change 0x80 with (Z.shiftl (Z.ones 1) 7).
    rewrite mid_field by (simpl; lia). apply Z.mod_small. simpl. lia.
  - change 0x7F with (Z.ones 7). apply low_field; simpl; lia.
Qed.





(** ** The duplicate MAC check packet *)

Lemma dupmac_byte0 (rr port : Z) :
  Z.lor
    (Z.land (Z.lor (Z.land 0 (Z.lnot 0x80))
               (Z.shiftl (if 0 <? rr then 1 else 0) 7))
       (Z.lnot 0x7F))
    (Z.land port 0x7F)
  = Z.shiftl (if 0 <? rr then 1 else 0) 7 + Z.land port 0x7F.
Proof.
  assert (H : forall hi, Z.land hi 0x7F = 0 ->
                Z.lor hi (Z.land port 0x7F) = hi + Z.land port 0x7F).
  { intros hi Hhi.
    assert (Hd : Z.land hi (Z.land port 0x7F) = 0).
    { rewrite (Z.land_comm port), Z.land_assoc, Hhi. apply Z.land_0_l. }
    now rewrite Z.add_nocarry_lxor, Z.lxor_lor. }
  destruct (0 <? rr).
  - change (Z.land (Z.lor (Z.land 0 (Z.lnot 0x80)) (Z.shiftl 1 7))
              (Z.lnot 0x7F)) with 128.
    change (Z.shiftl 1 7) with 128. now apply H.
  - change (Z.land (Z.lor (Z.land 0 (Z.lnot 0x80)) (Z.shiftl 0 7))
              (Z.lnot 0x7F)) with 0.
    change (Z.shiftl 0 7) with 0. now apply H.
Qed.

Lemma dupmac_byte0_fields (rr port : Z) :
  let b := Z.shiftl (if 0 <? rr then 1 else 0) 7 + Z.land port 0x7F in
  Z.shiftr (Z.land b 0x80) 7 = (if 0 <? rr then 1 else 0)
  /\ Z.land b 0x7F = Z.land port 0x7F.
Proof.
  assert (Hlo : 0 <= Z.land port 0x7F < 2 ^ 7).
  { change 0x7F with (Z.ones 7). rewrite Z.land_ones by lia.
    apply Z.mod_pos_bound. reflexivity. }
  cbv zeta. split.
  - change 0x80 with (Z.shiftl (Z.ones 1) 7).
    rewrite mid_field by (exact Hlo || lia).
    destruct (0 <? rr); reflexivity.
  - change 0x7F with (Z.ones 7) at 2. rewrite low_field by (exact Hlo || lia).
    reflexivity.
Qed.

Lemma dupmac_build (dst rr port vendor serial : Z) :
  0 <= dst < 64 ->
  exists built,
    DupMacPacket.build (DupMacPacket.init dst rr port vendor serial)
    = Ok built
    /\ can_header (DupMacPacket.base built) = 0x400 + Z.shiftl dst 3 + 7
    /\ can_data (DupMacPacket.base built)
       = [Z.shiftl (if 0 <? rr then 1 else 0) 7 + Z.land port 0x7F]
         ++ Integers.integer_to_bytes vendor 2 "little"
         ++ Integers.integer_to_bytes serial 4 "little"
    /\ data (DupMacPacket.base built) = can_data (DupMacPacket.base built)
    /\ group_id (DupMacPacket.base built) = 2
    /\ message_id (DupMacPacket.base built) = 7.
Proof.
  intros Hdst.
  pose proof (integer_to_bytes_length vendor 2 "little") as Hlv.
  pose proof (integer_to_bytes_length serial 4 "little") as Hls.
  unfold DupMacPacket.build, DupMacPacket.init, DupMacPacket.set_dst_mac,
    DupMacPacket.set_rr_flag, DupMacPacket.set_physical_port,
    DupMacPacket.set_vendor_id, DupMacPacket.set_serial_number,
    DupMacPacket.with_base, DupMacPacket.with_rr_flag,
    DupMacPacket.with_physical_port, DupMacPacket.with_vendor_id,
    DupMacPacket.with_serial_number, DeviceNetPacket.clear,
    DeviceNetPacket.set_can_data.
  change (DeviceNetPacket.init with_data MESSAGE.GROUP2.ID
            MESSAGE.GROUP2.DUPMAC 0 dst (repeat 0 DupMacPacket.PACKET_SIZE))
    with (mkPacket 2 7 0 dst 0 [] [0; 0; 0; 0; 0; 0; 0] 0 0 0 [] 0 0 0 0 0 0
            0 0 0 0 [] 0).
  cbn [DupMacPacket.base DupMacPacket.rr_flag DupMacPacket.physical_port
       DupMacPacket.vendor_id DupMacPacket.serial_number].
  io_step.
  change MESSAGE.GROUP2.DUPMAC with 7.
  rewrite can_addr_group2 by lia. io_step.
  cbn [DupMacPacket.base DupMacPacket.rr_flag DupMacPacket.physical_port
       DupMacPacket.vendor_id DupMacPacket.serial_number].
  io_step.
  unfold DupMacPacket.RR_FLAG_OFFSET, DupMacPacket.PHY_PORT_OFFSET,
    DupMacPacket.RR_FLAG_MASK, DupMacPacket.PHY_PORT_MASK,
    DupMacPacket.VENDOR_ID_OFFSET, DupMacPacket.VENDOR_ID_SIZE,
    DupMacPacket.SERIAL_NUMBER_OFFSET, DupMacPacket.SERIAL_NUMBER_SIZE,
    DupMacPacket.set_slice.
  cbn [index nth_error setitem]. io_step.
  cbn [DupMacPacket.base DupMacPacket.rr_flag DupMacPacket.physical_port
       DupMacPacket.vendor_id DupMacPacket.serial_number
       index nth_error setitem]. io_step.
  cbn [DupMacPacket.base DupMacPacket.rr_flag DupMacPacket.physical_port
       DupMacPacket.vendor_id DupMacPacket.serial_number
       index nth_error setitem Nat.add Nat.max firstn skipn app].
  io_step.
  rewrite dupmac_byte0.
  destruct (Integers.integer_to_bytes vendor 2 "little")
    as [| v0 [| v1 [| v2 lv]]]; try discriminate.
  destruct (Integers.integer_to_bytes serial 4 "little")
    as [| s0 [| s1 [| s2 [| s3 [| s4 ls]]]]]; try discriminate.
  cbn [app firstn skipn map fold_left].
  eexists. split; [reflexivity |].
  cbn [DupMacPacket.base]. io_step. repeat split; reflexivity.
Qed.

Lemma dupmac_from_frame (h b0 : Z) (rest : list Z) (q : DupMacPacket.t) :
  exists r,
    DupMacPacket.from_frame (CanFrame.mk h (b0 :: rest)) q = Ok r
    /\ (group_id (DupMacPacket.base r), message_id (DupMacPacket.base r),
        dst_mac (DupMacPacket.base r)) = Addressing.devnet_addr h
    /\ DupMacPacket.rr_flag r = Z.shiftr (Z.land b0 0x80) 7
    /\ DupMacPacket.physical_port r = Z.land b0 0x7F
    /\ DupMacPacket.vendor_id r
       = Integers.bytes_to_integer (firstn 2 rest) "little"
    /\ DupMacPacket.serial_number r
       = Integers.bytes_to_integer (firstn 4 (skipn 2 rest)) "little"
    /\ can_header (DupMacPacket.base r) = h
    /\ can_data (DupMacPacket.base r) = b0 :: rest
    /\ data (DupMacPacket.base r) = data (DupMacPacket.base q).
Proof.
  destruct q as [[g m s dd ch cd dt mic mim mh mb xi ff ft fc fh pt sh sc ci
                    ii sd ak] rr pp vv sn].
  unfold DupMacPacket.from_frame, DupMacPacket.parse,
    DupMacPacket.get_dst_mac, DupMacPacket.get_rr_flag,
    DupMacPacket.get_physical_port, DupMacPacket.get_vendor_id,
    DupMacPacket.get_serial_number,
    DupMacPacket.with_base, DupMacPacket.with_rr_flag,
    DupMacPacket.with_physical_port, DupMacPacket.with_vendor_id,
    DupMacPacket.with_serial_number.
  cbn [CanFrame.can_id CanFrame.data DupMacPacket.base DupMacPacket.rr_flag
       DupMacPacket.physical_port DupMacPacket.vendor_id
       DupMacPacket.serial_number].
  io_step.
  destruct (Addressing.devnet_addr h) as [[g' m'] a'].
  cbn [DupMacPacket.base DupMacPacket.rr_flag
       DupMacPacket.physical_port DupMacPacket.vendor_id
       DupMacPacket.serial_number].
  io_step.
  unfold DupMacPacket.RR_FLAG_OFFSET, DupMacPacket.PHY_PORT_OFFSET.
  cbn [index nth_error except_IndexError except_all]. io_step.
  cbn [DupMacPacket.base DupMacPacket.rr_flag
       DupMacPacket.physical_port DupMacPacket.vendor_id
       DupMacPacket.serial_number index nth_error except_IndexError
       except_all]. io_step.
  eexists. split; [reflexivity |].
  cbn [DupMacPacket.base DupMacPacket.rr_flag
       DupMacPacket.physical_port DupMacPacket.vendor_id
       DupMacPacket.serial_number]. io_step.
  repeat split; reflexivity.
Qed.

Lemma dupmac_from_frame_empty (h : Z) (q : DupMacPacket.t) :
  DupMacPacket.from_frame (CanFrame.mk h []) q = Raise DevNetParsingError.
Proof.
  destruct q as [[g m s dd ch cd dt mic mim mh mb xi ff ft fc fh pt sh sc ci
                    ii sd ak] rr pp vv sn].
  unfold DupMacPacket.from_frame, DupMacPacket.parse,
    DupMacPacket.get_dst_mac, DupMacPacket.get_rr_flag,
    DupMacPacket.with_base.
  cbn [CanFrame.can_id CanFrame.data DupMacPacket.base DupMacPacket.rr_flag
       DupMacPacket.physical_port DupMacPacket.vendor_id
       DupMacPacket.serial_number].
  io_step.
  destruct (Addressing.devnet_addr h) as [[g' m'] a'].
  reflexivity.
Qed.

(** [parse] never assigns [data]: the parsed object keeps the one it had. *)
Lemma dupmac_from_frame_data (frame : CanFrame.t) (q r : DupMacPacket.t) :
  DupMacPacket.from_frame frame q = Ok r ->
  data (DupMacPacket.base r) = data (DupMacPacket.base q).
Proof.
  destruct frame as [h [| b0 rest]]; intros H.
  - rewrite dupmac_from_frame_empty in H. discriminate H.
  - destruct (dupmac_from_frame h b0 rest q) as (r' & Hr & Hrest).
    rewrite H in Hr. apply Ok_inj in Hr. subst r'.
    apply Hrest.
Qed.

(** What [to_frame] hands to the frame class. *)
Lemma dupmac_to_frame (fc : frame_class) (dst rr port vendor serial : Z) :
  0 <= dst < 64 ->
  DupMacPacket.to_frame fc (DupMacPacket.init dst rr port vendor serial)
  = fc (0x400 + Z.shiftl dst 3 + 7)
      ([Z.shiftl (if 0 <? rr then 1 else 0) 7 + Z.land port 0x7F]
       ++ Integers.integer_to_bytes vendor 2 "little"
       ++ Integers.integer_to_bytes serial 4 "little").
Proof.
  intros Hdst.
  destruct (dupmac_build dst rr port vendor serial Hdst)
    as (built & Hb & Hh & Hcd & _).
  unfold DupMacPacket.to_frame. rewrite Hb. cbv beta iota delta [bind].
  now rewrite Hh, Hcd.
Qed.

(** X12: [to_frame] of a duplicate MAC packet made by the constructor with
    a destination MAC of 0 to 63 raises TypeError when the call names no
    frame class.  Handed a frame class that keeps the identifier and the
    data, and followed by [from_frame], it brings the packet back with group
    2, message id 7 and the destination MAC, with the request/response flag
    reduced to 0 or 1 (1 for every positive value), the physical port
    reduced to its low 7 bits, the vendor id modulo 2^16 and the serial
    number modulo 2^32.  The parsed object keeps the [data] it had: [parse]
    never assigns it. *)
Theorem dupmac_roundtrip (dst rr port vendor serial : Z)
    (q : DupMacPacket.t) :
  0 <= dst < 64 ->
  DupMacPacket.to_frame CanFrameAbc
    (DupMacPacket.init dst rr port vendor serial) = Raise TypeError
  /\ exists r,
      (let* frame :=
         DupMacPacket.to_frame StoredFrame
           (DupMacPacket.init dst rr port vendor serial) in
       DupMacPacket.from_frame frame q) = Ok r
      /\ group_id (DupMacPacket.base r) = 2
      /\ message_id (DupMacPacket.base r) = 7
      /\ dst_mac (DupMacPacket.base r) = dst
      /\ DupMacPacket.rr_flag r = (if 0 <? rr then 1 else 0)
      /\ DupMacPacket.physical_port r = port mod 128
      /\ DupMacPacket.vendor_id r = vendor mod 2 ^ 16
      /\ DupMacPacket.serial_number r = serial mod 2 ^ 32
      /\ data (DupMacPacket.base r) = data (DupMacPacket.base q).
Proof.
  intros Hdst. split; [now rewrite dupmac_to_frame |].
  rewrite dupmac_to_frame by exact Hdst.
  unfold StoredFrame. cbv beta iota delta [bind]. cbn [app].
  destruct (dupmac_from_frame (0x400 + Z.shiftl dst 3 + 7)
              (Z.shiftl (if 0 <? rr then 1 else 0) 7 + Z.land port 0x7F)
              (Integers.integer_to_bytes vendor 2 "little"
               ++ Integers.integer_to_bytes serial 4 "little") q)
    as (r & Hr & Haddr & Hrr & Hpp & Hvv & Hsn & _ & _ & Hdt).
  exists r. split; [exact Hr |].
  rewrite decode_group2 in Haddr by lia.
  injection Haddr as Hg Hm Hd.
  destruct (dupmac_byte0_fields rr port) as [E1 E2]. cbv zeta in E1, E2.
  rewrite E1 in Hrr. rewrite E2 in Hpp.
  pose proof (integer_to_bytes_length vendor 2 "little") as Hlv.
  pose proof (integer_to_bytes_length serial 4 "little") as Hls.
  pose proof (little_roundtrip vendor 2) as Rv.
  pose proof (little_roundtrip serial 4) as Rs.
  destruct (Integers.integer_to_bytes vendor 2 "little")
    as [| v0 [| v1 [| v2 lv]]]; try discriminate.
  destruct (Integers.integer_to_bytes serial 4 "little")
    as [| s0 [| s1 [| s2 [| s3 [| s4 ls]]]]]; try discriminate.
  cbn [app firstn skipn] in Hvv, Hsn.
  rewrite Rv in Hvv. rewrite Rs in Hsn.
  change (256 ^ Z.max 0 2) with (2 ^ 16) in Hvv.
  change (256 ^ Z.max 0 4) with (2 ^ 32) in Hsn.
  change 0x7F with (Z.ones 7) in Hpp. rewrite Z.land_ones in Hpp by lia.
  change (2 ^ 7) with 128 in Hpp.
  repeat split; assumption.
Qed.

Lemma dupmac_roundtrip_witness :
  exists r,
    (let* frame :=
       DupMacPacket.to_frame StoredFrame
         (DupMacPacket.init 1 0 1 0x1234 0x12345678) in
     DupMacPacket.from_frame frame DupMacPacket.new) = Ok r
    /\ group_id (DupMacPacket.base r) = 2
    /\ message_id (DupMacPacket.base r) = 7
    /\ dst_mac (DupMacPacket.base r) = 1
    /\ DupMacPacket.rr_flag r = (if 0 <? 0 then 1 else 0)
    /\ DupMacPacket.physical_port r = 1 mod 128
    /\ DupMacPacket.vendor_id r = 0x1234 mod 2 ^ 16
    /\ DupMacPacket.serial_number r = 0x12345678 mod 2 ^ 32
    /\ data (DupMacPacket.base r) = data (DupMacPacket.base DupMacPacket.new).
Proof.
  apply (dupmac_roundtrip 1 0 1 0x1234 0x12345678 DupMacPacket.new). lia.
Defined.

(** X13: the comparison [packet == parsed_packet] which the class
    documents for a built packet and the packet parsed from its frame is
    False as soon as the request/response flag is positive or the physical
    port has one of its low 7 bits set, whatever the frame class handed to
    [to_frame]: [__eq__] compares [data], which [build] fills and [parse]
    leaves as the constructor made it. *)
Theorem dupmac_comparison_fails (frame_class : frame_class)
    (dst rr port vendor serial : Z) (built parsed : DupMacPacket.t) :
  0 <= dst < 64 -> 0 < rr \/ port mod 128 <> 0 ->
  DupMacPacket.build (DupMacPacket.init dst rr port vendor serial)
  = Ok built ->
  (let* frame :=
     DupMacPacket.to_frame frame_class
       (DupMacPacket.init dst rr port vendor serial) in
   DupMacPacket.from_frame frame DupMacPacket.new) = Ok parsed ->
  DupMacPacket.eqb built parsed = false.
Proof.
  intros Hdst Hnz Hbuild Hparsed.
  destruct (dupmac_build dst rr port vendor serial Hdst)
    as (built' & Hb & _ & Hcd & Hdt & _).
  rewrite Hbuild in Hb. apply Ok_inj in Hb. subst built'.
  assert (Hdata : data (DupMacPacket.base parsed)
                  = data (DupMacPacket.base DupMacPacket.new)).
  { destruct (DupMacPacket.to_frame frame_class
                (DupMacPacket.init dst rr port vendor serial))
      as [frame | e]; cbv beta iota delta [bind] in Hparsed;
      [| discriminate Hparsed].
    exact (dupmac_from_frame_data frame _ _ Hparsed). }
  unfold DupMacPacket.eqb.
  destruct (list_eq_dec Z.eq_dec (data (DupMacPacket.base built))
              (data (DupMacPacket.base parsed))) as [E | NE];
    [exfalso | now rewrite andb_false_r].
  rewrite Hdata, Hdt, Hcd in E. cbn [app] in E.
  change (data (DupMacPacket.base DupMacPacket.new))
    with [0; 0; 0; 0; 0; 0; 0] in E.
  apply (f_equal (hd 0)) in E. cbn [hd] in E. rename E into E0.
  assert (Hlo : 0 <= Z.land port 0x7F < 128).
  { change 0x7F with (Z.ones 7). rewrite Z.land_ones by lia.
    apply Z.mod_pos_bound. reflexivity. }
  assert (Hmod : Z.land port 0x7F = port mod 128).
  { change 0x7F with (Z.ones 7). now rewrite Z.land_ones by lia. }
  destruct (Z.ltb_spec 0 rr).
  - change (Z.shiftl 1 7) with 128 in E0. lia.
  - change (Z.shiftl 0 7) with 0 in E0. lia.
Qed.

Lemma dupmac_comparison_fails_witness :
  DupMacPacket.eqb
    (match DupMacPacket.build (DupMacPacket.init 1 0 1 0x1234 0x12345678)
     with Ok built => built | Raise _ => DupMacPacket.new end)
    (match
       (let* frame :=
          DupMacPacket.to_frame StoredFrame
            (DupMacPacket.init 1 0 1 0x1234 0x12345678)
        in DupMacPacket.from_frame frame DupMacPacket.new)
     with Ok parsed => parsed | Raise _ => DupMacPacket.new end)
  = false.
Proof.
  let b := eval vm_compute in
             (match DupMacPacket.build
                      (DupMacPacket.init 1 0 1 0x1234 0x12345678)
              with Ok built => built | Raise _ => DupMacPacket.new end) in
  let r := eval vm_compute in
             (match
                (let* frame :=
                   DupMacPacket.to_frame StoredFrame
                     (DupMacPacket.init 1 0 1 0x1234 0x12345678)
                 in DupMacPacket.from_frame frame DupMacPacket.new)
              with Ok parsed => parsed | Raise _ => DupMacPacket.new end) in
  pose (built := b); pose (parsed := r).
  assert (Hb : DupMacPacket.build (DupMacPacket.init 1 0 1 0x1234 0x12345678)
               = Ok built) by (vm_compute; reflexivity).
  assert (Hp : (let* frame :=
                  DupMacPacket.to_frame StoredFrame
                    (DupMacPacket.init 1 0 1 0x1234 0x12345678)
                in DupMacPacket.from_frame frame DupMacPacket.new)
               = Ok parsed) by (vm_compute; reflexivity).
  assert (Hd : 0 <= 1 < 64) by lia.
  assert (Hn : 0 < 0 \/ 1 mod 128 <> 0) by (right; vm_compute; discriminate).
  rewrite Hb, Hp.
  exact (dupmac_comparison_fails StoredFrame 1 0 1 0x1234 0x12345678 built
           parsed Hd Hn Hb Hp).
Defined.

Lemma dupmac_build_ignores_header (h : Z) (p : DupMacPacket.t) :
  DupMacPacket.build
    (DupMacPacket.with_base (with_can_header h (DupMacPacket.base p)) p)
  = DupMacPacket.build p.
Proof.
  destruct p as [[g m s dd ch cd dt mic mim mh mb xi ff ft fc fh pt sh sc ci
                    ii sd ak] rr pp vv sn].
  unfold DupMacPacket.build, DupMacPacket.with_base.
  cbn [DupMacPacket.base DupMacPacket.rr_flag DupMacPacket.physical_port
       DupMacPacket.vendor_id DupMacPacket.serial_number].
  change (DeviceNetPacket.clear
            (with_can_header h
               (mkPacket g m s dd ch cd dt mic mim mh mb xi ff ft fc fh pt sh
                  sc ci ii sd ak)))
    with (DeviceNetPacket.clear
            (mkPacket g m s dd ch cd dt mic mim mh mb xi ff ft fc fh pt sh
               sc ci ii sd ak)).
  reflexivity.
Qed.

(** X14: the fluent setter [set_dst_mac] writes the CAN identifier and not
    the attribute [dst_mac], and [build] starts from the attribute: for a
    packet from the constructor, [set_dst_mac(value)] followed by [build]
    or by [to_frame], with whatever frame class or none, gives what the
    packet gives without the call, so that the frame is addressed to the
    constructor's MAC and [value] is forgotten. *)
Theorem dupmac_set_dst_mac_forgotten (frame_class : frame_class)
    (value dst rr port vendor serial : Z) :
  0 <= value < 64 ->
  (let* p := DupMacPacket.set_dst_mac value
               (DupMacPacket.init dst rr port vendor serial) in
   DupMacPacket.to_frame frame_class p)
  = DupMacPacket.to_frame frame_class
      (DupMacPacket.init dst rr port vendor serial)
  /\ (let* p := DupMacPacket.set_dst_mac value
                  (DupMacPacket.init dst rr port vendor serial) in
      DupMacPacket.build p)
     = DupMacPacket.build (DupMacPacket.init dst rr port vendor serial).
Proof.
  intros Hv. unfold DupMacPacket.set_dst_mac.
  change MESSAGE.GROUP2.DUPMAC with 7. change MESSAGE.GROUP2.ID with 2.
  rewrite can_addr_group2 by lia. cbv beta iota delta [bind].
  unfold DupMacPacket.to_frame.
  now rewrite dupmac_build_ignores_header.
Qed.

Lemma dupmac_set_dst_mac_forgotten_witness :
  (let* p := DupMacPacket.set_dst_mac 5
               (DupMacPacket.init 1 0 1 0x1234 0x12345678) in
   DupMacPacket.to_frame StoredFrame p)
  = DupMacPacket.to_frame StoredFrame
      (DupMacPacket.init 1 0 1 0x1234 0x12345678).
Proof.
  apply (dupmac_set_dst_mac_forgotten StoredFrame 5 1 0 1 0x1234 0x12345678).
  lia.
Defined.

(** ** A service request and its response *)

Lemma service_build_ok (g m s d pt sc cid iid : Z) (sdata : list Z) :
  0 <= pt <= 1 -> 0 <= Z.shiftl pt 7 + sc <= 255 ->
  exists built,
    ExplicitServicePacket.build
      (ExplicitServicePacket.init g m s d pt sc cid iid sdata) = Ok built
    /\ (forall fc : frame_class,
          ExplicitServicePacket.to_frame fc built
          = fc (can_header built) (can_data built))
    /\ can_header built
       = can_header (DeviceNetPacket.build_can_header
                       (ExplicitServicePacket.init g m s d pt sc cid iid
                          sdata))
    /\ can_data built = 0 :: (Z.shiftl pt 7 + sc) :: cid :: iid :: sdata
    /\ data built = (Z.shiftl pt 7 + sc) :: cid :: iid :: sdata.
Proof.
  intros Hpt Hsc.
  assert (H7 : Z.shiftl pt 7 = pt * 128)
    by (rewrite Z.shiftl_mul_pow2 by lia; reflexivity).
  assert (Hbuild : forall ch cd dt mic mb sh,
            exists h a,
              ExplicitServicePacket.build
                (mkPacket g m s d ch cd dt mic 0 0 mb 0 0 0 0 0 pt sh sc cid
                   iid sdata 0)
              = Ok (mkPacket g m s d h
                      (0 :: (Z.shiftl pt 7 + sc) :: cid :: iid :: sdata)
                      ((Z.shiftl pt 7 + sc) :: cid :: iid :: sdata) a 0 0
                      ((Z.shiftl pt 7 + sc) :: cid :: iid :: sdata) 0 0 0 0 0
                      pt (Z.shiftl pt 7 + sc) sc cid iid sdata 0)
              /\ h = can_header
                       (DeviceNetPacket.build_can_header
                          (mkPacket g m s d ch cd dt mic 0 0 mb 0 0 0 0 0 pt
                             sh sc cid iid sdata 0))).
  { intros ch cd dt mic mb sh.
    remember (can_header
                (DeviceNetPacket.build_can_header
                   (mkPacket g m s d ch cd dt mic 0 0 mb 0 0 0 0 0 pt sh sc
                      cid iid sdata 0))) as h0 eqn:Eh0.
    unfold ExplicitServicePacket.build.
    match goal with
    | |- context [ExplicitPacket.generate_message_header ?p] =>
        assert (E0 : ExplicitPacket.generate_message_header p = Ok p)
          by (vm_compute; reflexivity);
        rewrite E0; clear E0
    end.
    cbv beta iota delta [bind].
    unfold ExplicitServicePacket.generate_message_body,
      ExplicitServicePacket.generate_service_header,
      ExplicitServicePacket.set_service_header,
      ExplicitServicePacket.rr_flag, ExplicitPacket.set_message_body.
    change PACKET.RSP_FLAG.OFFSET with 7.
    io_step. rewrite checked_ok by lia. io_step.
    rewrite checked_ok by lia. io_step. cbn [app].
    match goal with
    | |- context [DeviceNetPacket.build_can_header ?q] =>
        assert (Ehdr : can_header (DeviceNetPacket.build_can_header q)
                       = can_header
                           (DeviceNetPacket.build_can_header
                              (mkPacket g m s d ch cd dt mic 0 0 mb 0 0 0 0 0
                                 pt sh sc cid iid sdata 0)))
          by (apply build_can_header_same; reflexivity);
        destruct (build_can_header_shape q) as (h & a & E);
        rewrite E in Ehdr |- *
    end.
    rewrite <- Eh0 in Ehdr. flat_in Ehdr.
    unfold DeviceNetPacket.set_can_data. cbn [fold_left app]. io_step.
    exists h, a. split; [reflexivity | exact Ehdr]. }
  change (ExplicitServicePacket.init g m s d pt sc cid iid sdata)
    with (mkPacket g m s d 0 [] [] 0 0 0 [] 0 0 0 0 0 pt 0 sc cid iid sdata
            0).
  destruct (Hbuild 0 [] [] 0 [] 0) as (h & a & E1 & Eh).
  rewrite E1. eexists. split; [reflexivity |].
  split; [| split; [exact Eh | split; reflexivity]].
  intros fc.
  unfold ExplicitServicePacket.to_frame, DeviceNetPacket.to_frame.
  match goal with
  | |- context [ExplicitServicePacket.build
                  (mkPacket g m s d ?ch ?cd ?dt ?mic 0 0 ?mb 0 0 0 0 0 pt ?sh
                     sc cid iid sdata 0)] =>
      destruct (Hbuild ch cd dt mic mb sh) as (h' & a' & E2 & Eh')
  end.
  rewrite E2. cbv beta iota delta [bind]. io_step.
  f_equal. rewrite Eh', Eh.
  etransitivity; [| apply build_can_header_idem].
  apply build_can_header_same; try reflexivity.
  all: match goal with
       | |- _ = ?f (DeviceNetPacket.build_can_header ?q) =>
           destruct (build_can_header_fields q) as (F1 & F2 & F3 & F4);
           cbv zeta in F1, F2, F3, F4
       end; symmetry; assumption.
Qed.

Lemma service_response_frame (h mh sc : Z) (rdata : list Z) :
  0 <= h < 0x7C0 -> 0 <= mh < 128 -> 0 <= sc < 128 ->
  exists r,
    ExplicitServicePacket.from_frame
      (CanFrame.mk h (mh :: (0x80 + sc) :: rdata))
      ExplicitServicePacket.new = Ok r
    /\ service_code r = sc
    /\ frag_flag r = 0
    /\ service_data r = firstn 6 rdata.
Proof.
  intros Hh Hmh Hsc.
  change (0x80 + sc) with (Z.shiftl 1 7 + sc).
  destruct (service_header_fields 1 sc ltac:(lia) Hsc) as [Ept Esc].
  assert (Eff : Z.shiftr (Z.land mh 128) 7 = 0).
  { change 128 with (Z.shiftl (Z.ones 1) 7).
    rewrite field_extract by lia. change (2 ^ 7) with 128.
    rewrite Z.div_small by lia. reflexivity. }
  assert (Hhdr : 0 <= Z.shiftl 1 7 + sc <= 255)
    by (change (Z.shiftl 1 7) with 128; lia).
  unfold ExplicitServicePacket.from_frame, ExplicitPacket.from_frame.
  destruct (device_from_frame ExplicitPacket.set_data
              (CanFrame.mk h (mh :: (Z.shiftl 1 7 + sc) :: rdata))
              ExplicitServicePacket.new Hh) as (g & m & s & d & a & E & _).
  rewrite E. clear E.
  cbn [CanFrame.can_id CanFrame.data].
  change ExplicitServicePacket.new
    with (mkPacket 2 4 0 0 0 [] [] 0 0 0 [] 0 0 0 0 0 0 0 0 0 0 [] 0).
  unfold ExplicitPacket.set_data, ExplicitPacket.parse_message_header,
    ExplicitServicePacket.parse_message_body,
    ExplicitServicePacket.get_frag_header,
    ExplicitPacket.set_message_body,
    ExplicitServicePacket.set_rr_flag, ExplicitServicePacket.rr_flag,
    ExplicitServicePacket.set_service_code,
    ExplicitServicePacket.set_class_id, ExplicitServicePacket.set_instance_id,
    ExplicitServicePacket.set_service_data,
    FragHeaderMixin.get_frag_type, FragHeaderMixin.get_frag_count.
  cbn [CanFrame.can_id CanFrame.data].
  unfold PACKET.FRAG_FLAG.MASK, PACKET.FRAG_FLAG.OFFSET, PACKET.XID.MASK,
    PACKET.XID.OFFSET, PACKET.MAC.MASK, PACKET.RSP_FLAG.MASK,
    PACKET.RSP_FLAG.OFFSET, PACKET.SERVICE.MASK,
    FragHeaderMixin.FRAG_TYPE_MASK, FragHeaderMixin.FRAG_TYPE_OFFSET,
    FragHeaderMixin.FRAG_COUNT_MASK, ExplicitServicePacket.REQUEST.
  repeat progress
    (io_step;
     cbn [index nth_error except_IndexError slice firstn skipn Nat.sub];
     rewrite ?Ept, ?Esc, ?Eff;
     rewrite ?checked_ok by (lia || (vm_compute; split; congruence))).
  eexists. split; [reflexivity |]. io_step.
  repeat split; try reflexivity.
  do 6 (destruct rdata as [| ? rdata]; [reflexivity |]). reflexivity.
Qed.

Lemma wait_response_loop_plain (src_addr dst_addr expected_code : Z)
    (frame : CanFrame.t) (rx' : list (option CanFrame.t))
    (tx : list CanFrame.t) (response : packet) :
  ExplicitServicePacket.from_frame frame ExplicitServicePacket.new
  = Ok response ->
  service_code response = expected_code ->
  frag_flag response = 0 ->
  Link.wait_response_loop src_addr dst_addr expected_code
    (Some frame :: rx') tx
  = Ok (service_data response, Link.mkBus rx' tx).
Proof.
  intros H Hsc Hff. cbn [Link.wait_response_loop]. rewrite H.
  cbv beta iota delta [bind]. rewrite Hsc, Z.eqb_refl.
  unfold Link._fragmented. rewrite Hff. reflexivity.
Qed.




Lemma service_build_refused (g m s d sc cid iid : Z) (sdata : list Z) :
  sc < 0 \/ 255 < sc ->
  ExplicitServicePacket.build
    (ExplicitServicePacket.init g m s d 0 sc cid iid sdata)
  = Raise DevNetPacketError.
Proof.
  intros Hsc.
  change (ExplicitServicePacket.init g m s d 0 sc cid iid sdata)
    with (mkPacket g m s d 0 [] [] 0 0 0 [] 0 0 0 0 0 0 0 sc cid iid sdata
            0).
  unfold ExplicitServicePacket.build.
  match goal with
  | |- context [ExplicitPacket.generate_message_header ?p] =>
      assert (E0 : ExplicitPacket.generate_message_header p = Ok p)
        by (vm_compute; reflexivity);
      rewrite E0; clear E0
  end.
  cbv beta iota delta [bind].
  unfold ExplicitServicePacket.generate_message_body,
    ExplicitServicePacket.generate_service_header,
    ExplicitServicePacket.set_service_header,
    ExplicitServicePacket.rr_flag.
  io_step.
  change (checked 0 255 (Z.shiftl 0 PACKET.RSP_FLAG.OFFSET)) with (Ok 0).
  io_step. unfold checked.
  destruct (Z.leb_spec 0 (0 + sc)); [| reflexivity].
  destruct (Z.leb_spec (0 + sc) 255); [lia | reflexivity].
Qed.

(** X17: the two argument checks of [service_request]: a service code
    outside 0..255 fails with DevNetPacketError, raised while the request
    is built, and otherwise a destination MAC outside 0..63 fails with
    DevNetGroupError, raised when the response identifier is computed;
    this for every group, message id, wait time and event handler. *)
Theorem service_request_refused (i : Messaging.interface)
    (src_addr dst_addr sc cid iid g m wait_time : Z) (value : list Z)
    (event_handler : option (Messaging.interface
                             -> result Messaging.interface)) :
  (sc < 0 \/ 255 < sc) \/ (dst_addr < 0 \/ 64 <= dst_addr) ->
  Messaging.service_request i src_addr dst_addr sc cid iid value g m
    wait_time event_handler
  = Raise (if (sc <? 0) || (255 <? sc) then DevNetPacketError
           else DevNetGroupError).
Proof.
  intros H. unfold Messaging.service_request.
  destruct (Z.ltb_spec sc 0) as [Hneg | Hpos];
    [| destruct (Z.ltb_spec 255 sc) as [Hbig | Hok]]; cbn [orb].
  - now rewrite service_build_refused by lia.
  - now rewrite service_build_refused by lia.
  - destruct (service_build_ok g m src_addr dst_addr 0 sc cid iid value
                ltac:(lia) ltac:(change (Z.shiftl 0 7) with 0; lia))
      as (built & Hb & _).
    rewrite Hb. cbv beta iota delta [bind].
    rewrite can_addr_raises_outside by lia. reflexivity.
Qed.

Lemma service_request_refused_witness :
  Messaging.service_request (Messaging.mkInterface (Link.mkBus [] []) [])
    0 64 0x0E 1 1 [6] 2 4 1 None
  = Raise DevNetGroupError.
Proof.
  refine (service_request_refused
            (Messaging.mkInterface (Link.mkBus [] []) [])
            0 64 0x0E 1 1 2 4 1 [6] None _).
  right. lia.
Defined.

(** ** Sending the fragments of a message *)

Lemma ack_accepted (frame : CanFrame.t) (rx' : list (option CanFrame.t))
    (tx : list CanFrame.t) :
  is_ack_frame frame = true ->
  Link.wait_fragment_ack (Link.mkBus (Some frame :: rx') tx)
  = Ok (Link.mkBus rx' tx).
Proof.
  destruct frame as [h [| mh [| b more]]]; try discriminate.
  unfold is_ack_frame. cbn [CanFrame.data]. intros Ht.
  apply Z.eqb_eq in Ht.
  unfold Link.wait_fragment_ack.
  cbn [Link.wait_fragment_ack_loop Link.recv Link.rx Link.tx].
  unfold ExplicitFragAckPacket.from_frame, ExplicitFragPacket.from_frame,
    DeviceNetPacket.parse_can_header, DeviceNetPacket.parse_can_data,
    ExplicitPacket.parse_message_header, ExplicitFragPacket.get_frag_header,
    ExplicitPacket.parse_message_body, ExplicitPacket.set_message_body,
    ExplicitFragAckPacket.validate,
    FragHeaderMixin.get_frag_type, FragHeaderMixin.get_frag_count,
    FragHeaderMixin.FRAG_TYPE_MASK, FragHeaderMixin.FRAG_TYPE_OFFSET,
    FragHeaderMixin.FRAG_COUNT_MASK.
  cbn [CanFrame.can_id CanFrame.data].
  destruct (Addressing.devnet_addr h) as [[g m] a].
  change ExplicitFragAckPacket.new
    with (mkPacket 2 4 0 0 0 [] [0] 0 0 0 [] 0 1 3 0 0 0 0 0 0 0 [] 0).
  io_step. cbn [index nth_error except_IndexError]. io_step.
  cbn [index nth_error except_IndexError]. io_step.
  rewrite Ht. reflexivity.
Qed.




(** ** Polled I/O *)




(** X20: [poll_read] for a produced size above 8 does not read the single
    frame that [poll_write] makes of short data (the byte 0x3F, then the
    data): [read_fragment] takes 0x3F for a fragment count that is neither
    the previous count nor the next, drops the data, stops because the
    count is the last one, and [poll_read] returns None, the frame being
    consumed and the listeners stopped. *)
Theorem poll_read_single_fragment_lost (i : Messaging.interface)
    (master_addr slave_addr produced_size h : Z) (value : list Z)
    (rest : list (option CanFrame.t)) :
  0 <= slave_addr < 64 -> 8 < produced_size -> 0 <= h < 0x7C0 ->
  Link.rx (Messaging.wire i) = Some (CanFrame.mk h (0x3F :: value)) :: rest ->
  Messaging.poll_read i master_addr slave_addr produced_size
  = Ok (None,
        Messaging.mkInterface
          (Link.mkBus rest (Link.tx (Messaging.wire i)))
          (Messaging.listen i ++ [Messaging.stop_listen None])).
Proof.
  intros Hs Hp Hh Hrx. unfold Messaging.poll_read.
  change POLL.RSP_GROUP with 1. change POLL.RSP with 0x0F.
  rewrite can_addr_group1 by lia. cbv beta iota delta [bind].
  destruct (Z.ltb_spec 8 produced_size); [| lia].
  destruct i as [[rx tx] lst]. cbn [Messaging.wire Link.rx Link.tx] in *.
  subst rx. unfold Link.read_fragment. cbn [Link.rx Link.tx].
  destruct (io_frag_from_frame h 0 63 value Hh ltac:(lia) ltac:(lia))
    as (r & Hr & Ht & Hc & Hd).
  change (Z.shiftl 0 6 + 63) with 0x3F in Hr.
  rewrite (read_fragment_loop_cons false _ _ _ _ _ _ _ r Hr).
  unfold Link.read_fragment_step, Link._final_fragment.
  rewrite Hc, Ht. cbv beta iota delta [bind]. reflexivity.
Qed.

Lemma poll_read_single_fragment_lost_witness :
  Messaging.poll_read
    (Messaging.mkInterface
       (Link.mkBus [Some (CanFrame.mk 0x3C1 [0x3F; 1; 2; 3])] []) [])
    0 1 16
  = Ok (None,
        Messaging.mkInterface (Link.mkBus [] [])
          [Messaging.stop_listen None]).
Proof.
  refine (poll_read_single_fragment_lost
            (Messaging.mkInterface
               (Link.mkBus [Some (CanFrame.mk 0x3C1 [0x3F; 1; 2; 3])] []) [])
            0 1 16 0x3C1 [1; 2; 3] [] _ _ _ eq_refl); lia.
Defined.

(** ** Messages of more than 64 fragments *)

(** The receive loop over the I/O fragments [k] to [stop] of a message of
    [n] fragments, where [stop] is the last fragment or the fragment 63,
    whichever comes first. *)
Lemma read_io_fragments_until (h : Z) (n stop : nat)
    (block : nat -> list Z) (src_addr dst_addr : Z)
    (rest : list (option CanFrame.t)) (tx : list CanFrame.t) :
  0 <= h < 0x7C0 -> (1 <= stop <= 63)%nat -> (stop < n)%nat ->
  stop = (n - 1)%nat \/ stop = 63%nat ->
  forall (j k : nat) (stream : list Z),
    (k + j = stop)%nat ->
    Link.read_fragment_loop false src_addr dst_addr
      (map Some
         (map (fun i =>
                 CanFrame.mk h
                   ((Z.shiftl (fragment_type_at n i) 6
                     + Z.land (Z.of_nat i) 0x3F) :: block i))
            (seq k (S j))) ++ rest)
      tx stream (Z.of_nat (k - 1))
    = Ok (stream ++ concat (map block (seq k (S j))), Link.mkBus rest tx).
Proof.
  intros Hh Hstop Hn Hlast. induction j as [| j IH]; intros k stream Hk.
  - cbn [seq map app concat]. rewrite land_count by lia.
    destruct (io_frag_from_frame h (fragment_type_at n k) (Z.of_nat k)
                (block k) Hh (fragment_type_at_range n k) ltac:(lia))
      as (r & Hr & Ht & Hc & Hd).
    rewrite (read_fragment_loop_cons false _ _ _ _ _ _ _ r Hr).
    unfold Link.read_fragment_step. rewrite Hc, Hd.
    replace (Z.of_nat k - Z.of_nat (k - 1)) with 1 by lia.
    cbn [Z.eqb Pos.eqb]. cbv beta iota delta [bind].
    unfold Link._final_fragment. rewrite Ht, Hc.
    replace ((fragment_type_at n k =? FRAGMENT.TYPE.FINAL)
             || (Z.of_nat k =? FRAGMENT.MAX_COUNT)) with true.
    + now rewrite app_nil_r.
    + symmetry. apply orb_true_iff. destruct Hlast as [Hl | Hl].
      * left. unfold fragment_type_at.
        destruct (Nat.eqb_spec k 0); [lia |].
        destruct (Nat.eqb_spec k (n - 1)); [reflexivity | lia].
      * right. apply Z.eqb_eq. unfold FRAGMENT.MAX_COUNT. lia.
  - change (seq k (S (S j))) with (k :: seq (S k) (S j)).
    cbn [map app concat]. rewrite land_count by lia.
    destruct (io_frag_from_frame h (fragment_type_at n k) (Z.of_nat k)
                (block k) Hh (fragment_type_at_range n k) ltac:(lia))
      as (r & Hr & Ht & Hc & Hd).
    rewrite (read_fragment_loop_cons false _ _ _ _ _ _ _ r Hr).
    unfold Link.read_fragment_step. rewrite Hc, Hd.
    unfold Link._final_fragment. rewrite Ht, Hc.
    assert (Hnf : (fragment_type_at n k =? FRAGMENT.TYPE.FINAL)
                  || (Z.of_nat k =? FRAGMENT.MAX_COUNT) = false).
    { apply orb_false_iff. split.
      - unfold fragment_type_at. destruct (Nat.eqb_spec k 0); [reflexivity |].
        destruct (Nat.eqb_spec k (n - 1)); [lia | reflexivity].
      - apply Z.eqb_neq. unfold FRAGMENT.MAX_COUNT. lia. }
    destruct (Nat.eq_dec k 0) as [-> | Hk0].
    + change (Z.of_nat 0 - Z.of_nat (0 - 1) =? 0) with true.
      cbv beta iota delta [bind]. cbn [Link.tx]. rewrite Hnf.
      specialize (IH 1%nat (stream ++ block 0%nat) ltac:(lia)).
      change (Z.of_nat (1 - 1)) with (Z.of_nat (0 - 1)) in IH.
      rewrite IH. now rewrite <- app_assoc.
    + replace (Z.of_nat k - Z.of_nat (k - 1)) with 1 by lia.
      cbn [Z.eqb Pos.eqb]. cbv beta iota delta [bind]. cbn [Link.tx].
      rewrite Hnf.
      specialize (IH (S k) (stream ++ block k) ltac:(lia)).
      replace (Z.of_nat (S k - 1)) with (Z.of_nat k) in IH by lia.
      rewrite IH. now rewrite <- app_assoc.
Qed.

Lemma slice_firstn {A : Type} (l : list A) (N a b : nat) :
  (b <= N)%nat -> slice (firstn N l) a b = slice l a b.
Proof.
  intros Hb. unfold slice.
  rewrite skipn_firstn_comm, firstn_firstn. f_equal. lia.
Qed.

Lemma blocks_prefix {A : Type} (k n : nat) (l : list A) :
  concat (map (fun i => slice l (i * k) ((i + 1) * k)) (range n))
  = firstn (n * k) l.
Proof.
  rewrite <- (blocks_concat k n (firstn (n * k) l))
    by (rewrite length_firstn; lia).
  f_equal. apply map_ext_in. intros i Hi. apply in_range_nat in Hi.
  symmetry. apply slice_firstn. nia.
Qed.

(** X21: of the fragment frames of an I/O message of more than 448 data
    bytes on an identifier of group 1, 2 or 3, more than 64 frames in the
    layout of the fragments of [IoPacket.split], [read_fragment] in its I/O
    mode reads the first 64 only: the fragment count of the 64th is 63,
    which ends the loop, so that the first 448 bytes are returned as the
    message and the other frames are left unread. *)
Theorem io_reassembly_truncated (h src_addr dst_addr : Z)
    (payload : list Z) (rest : list (option CanFrame.t))
    (tx : list CanFrame.t) :
  0 <= h < 0x7C0 ->
  (448 < List.length payload)%nat ->
  let n := ceil_div (List.length payload) 7 in
  let frame i :=
    CanFrame.mk h
      ([Z.shiftl (fragment_type_at n i) 6 + Z.land (Z.of_nat i) 0x3F]
       ++ slice payload (i * 7) ((i + 1) * 7)) in
  let frames := map frame (range n) in
  Link.read_fragment src_addr dst_addr false
    (Link.mkBus (map Some frames ++ rest) tx)
  = Ok (Some (firstn 448 payload),
        Link.mkBus (map Some (skipn 64 frames) ++ rest) tx).
Proof.
  intros Hh Hlen n frame frames.
  set (F := fun i : nat =>
              CanFrame.mk h
                ((Z.shiftl (fragment_type_at n i) 6
                  + Z.land (Z.of_nat i) 0x3F)
                 :: slice payload (i * 7) ((i + 1) * 7))).
  change frames with (map F (range n)). clear frames frame.
  assert (Hn : (64 < n)%nat).
  { unfold n, ceil_div.
    apply (Nat.lt_le_trans _ ((448 + 7) / 7)); [cbn; lia |].
    apply Nat.Div0.div_le_mono. lia. }
  assert (Hrange : range n = seq 0 64 ++ seq 64 (n - 64)).
  { unfold range. replace n with (64 + (n - 64))%nat at 1 by lia.
    apply seq_app. }
  rewrite Hrange, !map_app, skipn_app, length_map, length_seq.
  rewrite skipn_all2 by (rewrite length_map, length_seq; lia).
  change (64 - 64)%nat with 0%nat. cbn [skipn app].
  rewrite <- app_assoc.
  unfold Link.read_fragment. cbn [Link.rx Link.tx].
  pose proof (read_io_fragments_until h n 63
                (fun i => slice payload (i * 7) ((i + 1) * 7))
                src_addr dst_addr
                (map Some (map F (seq 64 (n - 64))) ++ rest) tx Hh
                ltac:(lia) ltac:(lia) (or_intror eq_refl) 63%nat 0%nat []
                eq_refl) as Hloop.
  change (Z.of_nat (0 - 1)) with 0 in Hloop. cbn [app] in Hloop.
  fold F in Hloop. rewrite Hloop. cbv beta iota delta [bind].
  pose proof (blocks_prefix 7 64 payload) as Hpre. unfold range in Hpre.
  rewrite Hpre. change (64 * 7)%nat with 448%nat.
  destruct (firstn 448 payload) eqn:E; [| reflexivity].
  apply (f_equal (@List.length Z)) in E.
  rewrite length_firstn in E. cbn [List.length] in E. lia.
Qed.

Lemma io_reassembly_truncated_witness :
  let payload := repeat 7 449 in
  let frame i :=
    CanFrame.mk 0x40D
      ([Z.shiftl (fragment_type_at 65 i) 6 + Z.land (Z.of_nat i) 0x3F]
       ++ slice payload (i * 7) ((i + 1) * 7)) in
  let frames := map frame (range 65) in
  Link.read_fragment 0 1 false (Link.mkBus (map Some frames ++ []) [])
  = Ok (Some (firstn 448 payload),
        Link.mkBus (map Some (skipn 64 frames) ++ []) []).
Proof.
  intros payload.
  assert (Hh : 0 <= 0x40D < 0x7C0) by lia.
  assert (Hlen : (448 < List.length payload)%nat)
    by (unfold payload; rewrite repeat_length; lia).
  exact (io_reassembly_truncated 0x40D 0 1 payload [] [] Hh Hlen).
Defined.

(** ** An explicit request through a frame and back *)

Lemma service_request_frame (h sc cid iid : Z) (sdata : list Z) :
  0 <= h < 0x7C0 -> 0 <= sc < 128 ->
  0 <= cid <= 0xFFFF -> 0 <= iid <= 0xFFFF ->
  (List.length sdata <= 4)%nat ->
  exists r,
    ExplicitServicePacket.from_frame
      (CanFrame.mk h (0 :: sc :: cid :: iid :: sdata))
      ExplicitServicePacket.new = Ok r
    /\ (group_id r, message_id r, dst_mac r) = Addressing.devnet_addr h
    /\ src_mac r = 0
    /\ packet_type r = 0 /\ service_code r = sc
    /\ class_id r = cid /\ instance_id r = iid /\ service_data r = sdata.
Proof.
  intros Hh Hsc Hcid Hiid Hlen.
  destruct (service_header_fields 0 sc ltac:(lia) Hsc) as [Ept Esc].
  change (Z.shiftl 0 7 + sc) with sc in Ept, Esc.
  unfold ExplicitServicePacket.from_frame, ExplicitPacket.from_frame.
  destruct (device_from_frame ExplicitPacket.set_data
              (CanFrame.mk h (0 :: sc :: cid :: iid :: sdata))
              ExplicitServicePacket.new Hh) as (g & m & s & d & a & E & Ea).
  rewrite E. clear E.
  cbn [CanFrame.can_id CanFrame.data] in *. rewrite Ea.
  change ExplicitServicePacket.new
    with (mkPacket 2 4 0 0 0 [] [] 0 0 0 [] 0 0 0 0 0 0 0 0 0 0 [] 0).
  unfold ExplicitPacket.set_data, ExplicitPacket.parse_message_header,
    ExplicitServicePacket.parse_message_body,
    ExplicitServicePacket.get_frag_header,
    ExplicitPacket.set_message_body,
    ExplicitServicePacket.set_rr_flag, ExplicitServicePacket.rr_flag,
    ExplicitServicePacket.set_service_code,
    ExplicitServicePacket.set_class_id, ExplicitServicePacket.set_instance_id,
    ExplicitServicePacket.set_service_data,
    FragHeaderMixin.get_frag_type, FragHeaderMixin.get_frag_count.
  cbn [CanFrame.can_id CanFrame.data].
  unfold PACKET.FRAG_FLAG.MASK, PACKET.FRAG_FLAG.OFFSET, PACKET.XID.MASK,
    PACKET.XID.OFFSET, PACKET.MAC.MASK, PACKET.RSP_FLAG.MASK,
    PACKET.RSP_FLAG.OFFSET, PACKET.SERVICE.MASK,
    FragHeaderMixin.FRAG_TYPE_MASK, FragHeaderMixin.FRAG_TYPE_OFFSET,
    FragHeaderMixin.FRAG_COUNT_MASK, ExplicitServicePacket.REQUEST.
  destruct sdata as [| x0 [| x1 [| x2 [| x3 [| x4 sdata]]]]];
    try (cbn [List.length] in Hlen; lia).
  all: repeat progress
         (io_step;
          cbn [index nth_error except_IndexError slice firstn skipn Nat.sub];
          change (Z.shiftr (Z.land 0 128) 7) with 0;
          change (Z.shiftr (Z.land 0 64) 6) with 0;
          change (Z.land 0 63) with 0;
          rewrite ?Ept, ?Esc;
          rewrite ?checked_ok by (lia || (vm_compute; split; congruence))).
  all: eexists; split; [reflexivity |]; io_step; repeat split; reflexivity.
Qed.

(** X22: an explicit request made by the constructor on group 2 with
    message id 4, with a destination MAC of 0 to 63, a service code of 0 to
    127, class and instance ids of 0 to 0xFFFF and at most 4 bytes of
    service data.  Its [to_frame] raises TypeError when the call names no
    frame class.  Handed a frame class that keeps the identifier and the
    data, and followed by [from_frame], it brings the request back with its
    group, message id, destination MAC, service code, class id, instance
    id and service data, as a request; its source MAC comes back as 0
    whatever it was, the frame having no place for it. *)
Theorem explicit_request_roundtrip (s d sc cid iid : Z) (sdata : list Z) :
  0 <= d < 64 -> 0 <= sc < 128 ->
  0 <= cid <= 0xFFFF -> 0 <= iid <= 0xFFFF ->
  (List.length sdata <= 4)%nat ->
  ExplicitServicePacket.to_frame CanFrameAbc
    (ExplicitServicePacket.init 2 4 s d 0 sc cid iid sdata)
  = Raise TypeError
  /\ exists r,
      (let* frame :=
         ExplicitServicePacket.to_frame StoredFrame
           (ExplicitServicePacket.init 2 4 s d 0 sc cid iid sdata) in
       ExplicitServicePacket.from_frame frame ExplicitServicePacket.new)
      = Ok r
      /\ group_id r = 2 /\ message_id r = 4 /\ dst_mac r = d
      /\ src_mac r = 0
      /\ packet_type r = 0 /\ service_code r = sc
      /\ class_id r = cid /\ instance_id r = iid /\ service_data r = sdata.
Proof.
  intros Hd Hsc Hcid Hiid Hlen.
  destruct (service_build_ok 2 4 s d 0 sc cid iid sdata ltac:(lia)
              ltac:(change (Z.shiftl 0 7) with 0; lia))
    as (built & Hb & _ & Hhdr & Hcd & _).
  rewrite build_can_header_group2 in Hhdr by reflexivity.
  change (can_header built = 0x400 + Z.shiftl d 3 + 4) in Hhdr.
  change (Z.shiftl 0 7 + sc) with sc in Hcd.
  unfold ExplicitServicePacket.to_frame, DeviceNetPacket.to_frame.
  rewrite Hb. cbv beta iota delta [bind].
  split; [reflexivity |].
  unfold StoredFrame. cbv beta iota delta [bind]. rewrite Hhdr, Hcd.
  assert (Hh : 0 <= 0x400 + Z.shiftl d 3 + 4 < 0x7C0)
    by (rewrite Z.shiftl_mul_pow2 by lia; change (2 ^ 3) with 8; lia).
  destruct (service_request_frame (0x400 + Z.shiftl d 3 + 4) sc cid iid
              sdata Hh Hsc Hcid Hiid Hlen)
    as (r & Hr & Haddr & Hrest).
  rewrite decode_group2 in Haddr by lia. injection Haddr as Hg Hm Hdst.
  exists r. split; [exact Hr |]. repeat split; tauto.
Qed.

Lemma explicit_request_roundtrip_witness :
  exists r,
    (let* frame :=
       ExplicitServicePacket.to_frame StoredFrame
         (ExplicitServicePacket.init 2 4 9 1 0 0x0E 1 1 [6]) in
     ExplicitServicePacket.from_frame frame ExplicitServicePacket.new)
    = Ok r
    /\ group_id r = 2 /\ message_id r = 4 /\ dst_mac r = 1
    /\ src_mac r = 0
    /\ packet_type r = 0 /\ service_code r = 0x0E
    /\ class_id r = 1 /\ instance_id r = 1 /\ service_data r = [6].
Proof.
  apply (explicit_request_roundtrip 9 1 0x0E 1 1 [6]); cbn [List.length]; lia.
Defined.

(** ** Frames on identifiers outside the groups 1 to 3 *)

Lemma get_src_mac_outside (p : packet) :
  can_header p < 0 \/ 0x7C0 <= can_header p ->
  DeviceNetPacket.get_src_mac
    (DeviceNetPacket.get_message_id (DeviceNetPacket.get_group_id p))
  = Raise DevNetPacketError.
Proof.
  destruct p as [g m s dd ch cd dt mic mim mh mb xi ff ft fc fh pt sh sc ci
                   ii sd ak].
  cbn [can_header]. intros Hh.
  unfold DeviceNetPacket.get_group_id, DeviceNetPacket.get_message_id,
    DeviceNetPacket.get_src_mac, DeviceNetPacket.unpack_addr.
  cbn [with_group_id with_message_id can_header].
  destruct (Z.lt_ge_cases ch 0);
    [| destruct (Z.lt_ge_cases ch 0x7F0)].
  - rewrite devnet_addr_outside by lia. reflexivity.
  - rewrite devnet_addr_group4 by lia. reflexivity.
  - rewrite devnet_addr_outside by lia. reflexivity.
Qed.

(** X23: a received frame whose identifier lies outside the groups 1 to 3
    (group 4, a reserved identifier, anything negative or above 11 bits)
    ends [wait_response] with DevNetParsingError and [read_fragment] in
    I/O mode with DevNetPacketError, whatever the frame carries and
    whatever follows it: the packet classes compute source and destination
    MAC for groups 1 to 3 only, although they build frames of group 4. *)
Theorem stray_identifier (src_addr dst_addr expected_code h : Z)
    (payload : list Z) (rx' : list (option CanFrame.t))
    (tx : list CanFrame.t) :
  h < 0 \/ 0x7C0 <= h ->
  Link.wait_response src_addr dst_addr expected_code
    (Link.mkBus (Some (CanFrame.mk h payload) :: rx') tx)
  = Raise DevNetParsingError
  /\ Link.read_fragment src_addr dst_addr false
       (Link.mkBus (Some (CanFrame.mk h payload) :: rx') tx)
     = Raise DevNetPacketError.
Proof.
  intros Hh. split.
  - unfold Link.wait_response. cbn [Link.rx Link.tx Link.wait_response_loop].
    unfold ExplicitServicePacket.from_frame, ExplicitPacket.from_frame,
      DeviceNetPacket.from_frame, DeviceNetPacket.parse.
    cbn [CanFrame.can_id CanFrame.data].
    rewrite get_src_mac_outside; [reflexivity |].
    change ExplicitServicePacket.new
      with (mkPacket 2 4 0 0 0 [] [] 0 0 0 [] 0 0 0 0 0 0 0 0 0 0 [] 0).
    exact Hh.
  - unfold Link.read_fragment. cbn [Link.rx Link.tx Link.read_fragment_loop].
    unfold IoFragPacket.from_frame, IoFragPacket.parse.
    cbn [CanFrame.can_id CanFrame.data].
    rewrite get_src_mac_outside; [reflexivity |].
    change IoFragPacket.new
      with (mkPacket 0 0 0 0 0 [] [] 0 0 0 [] 0 0 0 0 0 0 0 0 0 0 [] 0).
    exact Hh.
Qed.

Lemma stray_identifier_witness :
  Link.wait_response 0 1 0x0E
    (Link.mkBus [Some (CanFrame.mk 0x7C1 [0x00; 0x8E; 1])] [])
  = Raise DevNetParsingError.
Proof.
  refine (proj1 (stray_identifier 0 1 0x0E 0x7C1 [0x00; 0x8E; 1] [] [] _)).
  right. lia.
Defined.

(** ** Responses and acknowledges as they are received *)

(** X24: [wait_response] on an unfragmented response for the awaited
    service code (message header below 0x80, then 0x80 + service code), on
    whatever identifier of groups 1 to 3: it consumes the frame, sends
    nothing, and returns the first 6 bytes that follow the service header,
    any further byte of the frame being dropped. *)
Theorem wait_response_unfragmented (src_addr dst_addr sc h mh : Z)
    (rdata : list Z) (rest : list (option CanFrame.t))
    (tx : list CanFrame.t) :
  0 <= h < 0x7C0 -> 0 <= mh < 128 -> 0 <= sc < 128 ->
  Link.wait_response src_addr dst_addr sc
    (Link.mkBus (Some (CanFrame.mk h (mh :: (0x80 + sc) :: rdata)) :: rest)
       tx)
  = Ok (firstn 6 rdata, Link.mkBus rest tx).
Proof.
  intros Hh Hmh Hsc.
  destruct (service_response_frame h mh sc rdata Hh Hmh Hsc)
    as (r & Hr & Hrsc & Hff & Hsd).
  unfold Link.wait_response. cbn [Link.rx Link.tx].
  rewrite (wait_response_loop_plain _ _ _ _ _ _ r Hr Hrsc Hff).
  now rewrite Hsd.
Qed.

Lemma wait_response_unfragmented_witness :
  Link.wait_response 0 1 0x0E
    (Link.mkBus [Some (CanFrame.mk 0x40B [0x00; 0x8E; 0x34; 0x12])] [])
  = Ok ([0x34; 0x12], Link.mkBus [] []).
Proof.
  refine (wait_response_unfragmented 0 1 0x0E 0x40B 0x00 [0x34; 0x12] [] []
            _ _ _); lia.
Defined.

(** X25: what [wait_fragment_ack] does with a frame it receives at its
    first attempt: it returns when the frame has two bytes or more and the
    fragment type ACK in the two high bits of the second byte, and fails
    with DevNetParsingError for any other frame. *)
Theorem wait_fragment_ack_first_frame (frame : CanFrame.t)
    (rx' : list (option CanFrame.t)) (tx : list CanFrame.t) :
  Link.wait_fragment_ack (Link.mkBus (Some frame :: rx') tx)
  = if is_ack_frame frame then Ok (Link.mkBus rx' tx)
    else Raise DevNetParsingError.
Proof.
  destruct (is_ack_frame frame) eqn:E; [now apply ack_accepted |].
  destruct frame as [h [| mh [| b more]]].
  - unfold Link.wait_fragment_ack.
    cbn [Link.wait_fragment_ack_loop Link.recv Link.rx Link.tx].
    unfold ExplicitFragAckPacket.from_frame, ExplicitFragPacket.from_frame,
      DeviceNetPacket.parse_can_header.
    cbn [CanFrame.can_id CanFrame.data].
    destruct (Addressing.devnet_addr h) as [[g m] a]. reflexivity.
  - unfold Link.wait_fragment_ack.
    cbn [Link.wait_fragment_ack_loop Link.recv Link.rx Link.tx].
    unfold ExplicitFragAckPacket.from_frame, ExplicitFragPacket.from_frame,
      DeviceNetPacket.parse_can_header, DeviceNetPacket.parse_can_data,
      ExplicitPacket.parse_message_header,
      ExplicitFragPacket.get_frag_header.
    cbn [CanFrame.can_id CanFrame.data].
    destruct (Addressing.devnet_addr h) as [[g m] a].
    change ExplicitFragAckPacket.new
      with (mkPacket 2 4 0 0 0 [] [0] 0 0 0 [] 0 1 3 0 0 0 0 0 0 0 [] 0).
    io_step. cbn [index nth_error except_IndexError]. io_step.
    reflexivity.
  - unfold is_ack_frame in E. cbn [CanFrame.data] in E.
    unfold Link.wait_fragment_ack.
    cbn [Link.wait_fragment_ack_loop Link.recv Link.rx Link.tx].
    unfold ExplicitFragAckPacket.from_frame, ExplicitFragPacket.from_frame,
      DeviceNetPacket.parse_can_header, DeviceNetPacket.parse_can_data,
      ExplicitPacket.parse_message_header,
      ExplicitFragPacket.get_frag_header,
      ExplicitPacket.parse_message_body, ExplicitPacket.set_message_body,
      ExplicitFragAckPacket.validate,
      FragHeaderMixin.get_frag_type, FragHeaderMixin.get_frag_count,
      FragHeaderMixin.FRAG_TYPE_MASK, FragHeaderMixin.FRAG_TYPE_OFFSET,
      FragHeaderMixin.FRAG_COUNT_MASK.
    cbn [CanFrame.can_id CanFrame.data].
    destruct (Addressing.devnet_addr h) as [[g m] a].
    change ExplicitFragAckPacket.new
      with (mkPacket 2 4 0 0 0 [] [0] 0 0 0 [] 0 1 3 0 0 0 0 0 0 0 [] 0).
    io_step. cbn [index nth_error except_IndexError]. io_step.
    cbn [index nth_error except_IndexError]. io_step.
    change FRAGMENT.TYPE.ACK with 3 in E.
    destruct (Z.shiftr (Z.land b 192) 6) as [| [q | q |] |];
      first [discriminate E | reflexivity
            | destruct q; first [discriminate E | reflexivity]].
Qed.


